(** * Route maps for the transport dashboard: a model of [app/utils/map_utils.py]

    The module classifies vehicles, picks route colours, fetches road geometry
    from the Geoapify routing API with a retry loop, extracts coordinate lists
    from heterogeneous JSON shapes and draws routes on a folium map, degrading
    to a dashed straight line when no road geometry is available.

    The Python code is dynamically typed and works on decoded JSON, so the
    model keeps a type of Python values, an error type for the exceptions the
    code catches, and a small state-and-exception monad whose state holds the
    process environment, the network and the ordered trace of everything the
    code emits (log records, Streamlit messages, HTTP requests, sleeps and map
    elements). *)

From Stdlib Require Import ZArith List String Ascii Bool Floats Lia DecimalString.
Import ListNotations.

#[local] Set Warnings "-inexact-float,-register-all".

Local Open Scope string_scope.
Local Open Scope list_scope.
Local Open Scope Z_scope.

(** ** Python values *)

(** Decoded JSON and the dictionaries the dashboard passes around.  A [str] is
    held as its UTF-8 bytes; a [dict] (its keys are always strings here) as an
    association list in which the first binding of a key is the live one. *)
Inductive pyval : Type :=
| PNone
| PBool (b : bool)
| PInt (z : Z)
| PFloat (f : float)
| PStr (s : string)
| PList (l : list pyval)
| PDict (d : list (string * pyval)).

(** The exceptions the data accesses of the module can raise. *)
Inductive exn : Type :=
| KeyError | TypeError | AttributeError | IndexError | ValueError | OverflowError.

Inductive result (A : Type) : Type :=
| Ok (a : A)
| Raise (e : exn).
Arguments Ok {A} a.
Arguments Raise {A} e.

Definition rbind {A B} (r : result A) (k : A -> result B) : result B :=
  match r with
  | Ok a => k a
  | Raise e => Raise e
  end.

(** ** Strings: [in] and [str.lower] *)

(** [contains kw s] is Python's [kw in s] on two strings. *)
Fixpoint contains (kw s : string) : bool :=
  prefix kw s ||
  match s with
  | EmptyString => false
  | String _ rest => contains kw rest
  end.

(** [str.lower] itself is a library function, taken as it is (the variable
    [lower] below).  On text of code points below U+0100 (Basic Latin and
    Latin-1 Supplement, the alphabet of the Portuguese vehicle models and
    keywords) it is the following function on the UTF-8 bytes: [A-Z] gain 32,
    and so does the second byte of the two-byte sequences [C3 80 .. C3 9E]
    (U+00C0 .. U+00DE) except [C3 97], the multiplication sign; every other
    byte is left as it is. *)
Definition lower_byte (after_c3 : bool) (c : ascii) : ascii :=
  let n := N_of_ascii c in
  if ((65 <=? n) && (n <=? 90))%N then ascii_of_N (n + 32)
  else if (after_c3 && (128 <=? n) && (n <=? 158) && negb (n =? 151))%N
       then ascii_of_N (n + 32)
       else c.

Definition is_c3 (c : ascii) : bool := (N_of_ascii c =? 195)%N.

Fixpoint lower_from (after_c3 : bool) (s : string) : string :=
  match s with
  | EmptyString => EmptyString
  | String c rest => String (lower_byte after_c3 c) (lower_from (is_c3 c) rest)
  end.

Definition lower_latin1 (s : string) : string := lower_from false s.

(** ** Operations on Python values *)

Fixpoint dict_get (d : list (string * pyval)) (k : string) : option pyval :=
  match d with
  | [] => None
  | (k', v) :: rest => if String.eqb k' k then Some v else dict_get rest k
  end.

Definition is_some {A} (o : option A) : bool :=
  match o with Some _ => true | None => false end.

(** [x == s] for a string literal [s]. *)
Definition is_str (x : pyval) (s : string) : bool :=
  match x with
  | PStr t => String.eqb t s
  | _ => false
  end.

(** Truth value of an object: [None], [False], zero, and empty strings,
    lists and dicts are false. *)
Definition truthy (v : pyval) : bool :=
  match v with
  | PNone => false
  | PBool b => b
  | PInt z => negb (z =? 0)
  | PFloat f => negb (PrimFloat.eqb f 0%float)
  | PStr s => negb (String.eqb s "")
  | PList l => match l with [] => false | _ => true end
  | PDict d => match d with [] => false | _ => true end
  end.

Definition is_dict (v : pyval) : bool :=
  match v with PDict _ => true | _ => false end.

(** ['k' in x] *)
Definition contains_key (k : string) (x : pyval) : result bool :=
  match x with
  | PDict d => Ok (is_some (dict_get d k))
  | PList l => Ok (existsb (fun v => is_str v k) l)
  | PStr s => Ok (contains k s)
  | _ => Raise TypeError
  end.

(** [x['k']] *)
Definition getitem (x : pyval) (k : string) : result pyval :=
  match x with
  | PDict d => match dict_get d k with
               | Some v => Ok v
               | None => Raise KeyError
               end
  | _ => Raise TypeError
  end.

(** The characters of a [str]: in its UTF-8 bytes a new code point starts at
    every byte that is no continuation byte ([10xxxxxx]). *)
Definition is_continuation (c : ascii) : bool :=
  ((128 <=? N_of_ascii c) && (N_of_ascii c <=? 191))%N.

Fixpoint code_points (s : string) : list string :=
  match s with
  | EmptyString => []
  | String c rest =>
      let points := code_points rest in
      match rest, points with
      | String c' _, p :: ps =>
          if is_continuation c' then String c p :: ps
          else String c EmptyString :: points
      | _, _ => String c EmptyString :: points
      end
  end.

(** [x[i]] for a literal index [i >= 0]. *)
Definition getindex (x : pyval) (i : nat) : result pyval :=
  match x with
  | PList l => match nth_error l i with
               | Some v => Ok v
               | None => Raise IndexError
               end
  | PStr s => match nth_error (code_points s) i with
              | Some c => Ok (PStr c)
              | None => Raise IndexError
              end
  | PDict _ => Raise KeyError
  | _ => Raise TypeError
  end.

(** [x.get('k', dflt)] *)
Definition py_get (x : pyval) (k : string) (dflt : pyval) : result pyval :=
  match x with
  | PDict d => match dict_get d k with
               | Some v => Ok v
               | None => Ok dflt
               end
  | _ => Raise AttributeError
  end.

(** [len(x)]; a string counts its characters. *)
Definition py_len (x : pyval) : result nat :=
  match x with
  | PList l => Ok (List.length l)
  | PStr s => Ok (List.length (code_points s))
  | PDict d => Ok (List.length d)
  | _ => Raise TypeError
  end.

Definition chars (s : string) : list pyval := map PStr (code_points s).

(** The items a [for] loop over [x] visits. *)
Definition py_iter (x : pyval) : result (list pyval) :=
  match x with
  | PList l => Ok l
  | PDict d => Ok (map (fun kv => PStr (fst kv)) d)
  | PStr s => Ok (chars s)
  | _ => Raise TypeError
  end.

(** ** Colours and line styles *)

Definition DISTINCT_COLORS : list string :=
  ["#3366CC"; "#DC3912"; "#FF9900"; "#109618"; "#990099";
   "#0099C6"; "#DD4477"; "#66AA00"; "#B82E2E"; "#316395";
   "#994499"; "#22AA99"; "#AAAA11"; "#6633CC"; "#E67300";
   "#8B0707"; "#329262"; "#5574A6"; "#FF6347"; "#4B0082"].

Record line_style : Type := mkStyle {
  weight : Z;
  opacity : float;
  dashArray : option string
}.

Definition LINE_STYLES : list line_style :=
  [mkStyle 4 0.8 None;
   mkStyle 4 0.8 (Some "10, 10");
   mkStyle 4 0.8 (Some "1, 10");
   mkStyle 4 0.8 (Some "15, 10, 1, 10")].

(** [lst[i % len(lst)]]: the remainder has the sign of the length, so the
    index is always in range. *)
Definition index_mod {A} (lst : list A) (i : Z) (dflt : A) : A :=
  nth (Z.to_nat (i mod Z.of_nat (List.length lst))) lst dflt.

Definition get_line_style (index : Z) : line_style :=
  index_mod LINE_STYLES index (mkStyle 4 0.8 None).


(** ** Numbers

    The distances, durations and map centre the code computes only reach
    tooltips and the initial view, which the model does not record; what
    matters to the control flow is whether computing them raises. *)

Definition as_number (v : pyval) : option (Z + float) :=
  match v with
  | PBool b => Some (inl (if b then 1 else 0))
  | PInt z => Some (inl z)
  | PFloat f => Some (inr f)
  | _ => None
  end.

(** An int whose magnitude reaches [2^1024 - 2^970] rounds to no finite
    float. *)
Definition float_limit : Z := 2 ^ 1024 - 2 ^ 970.

(** [v / d] for a positive int literal [d]. *)
Definition truediv_check (v : pyval) (d : Z) : result unit :=
  match as_number v with
  | Some (inl z) => if Z.abs z <? d * float_limit then Ok tt else Raise OverflowError
  | Some (inr _) => Ok tt
  | None => Raise TypeError
  end.

(** [(a + b) / 2].  Any operand that is not a number makes the sum or the
    quotient raise [TypeError]. *)
Definition midpoint_check (a b : pyval) : result unit :=
  match as_number a, as_number b with
  | Some (inl x), Some (inl y) => truediv_check (PInt (x + y)) 2
  | Some (inl x), Some (inr _) => truediv_check (PInt x) 1
  | Some (inr _), Some (inl y) => truediv_check (PInt y) 1
  | Some (inr _), Some (inr _) => Ok tt
  | _, _ => Raise TypeError
  end.

(** [f"{v:.1f}"] and [f"{v:.0f}"] *)
Definition format_f_check (v : pyval) : result unit :=
  match v with
  | PStr _ => Raise ValueError
  | _ => truediv_check v 1
  end.

(** [v == 0] *)
Definition py_eq0 (v : pyval) : bool :=
  match as_number v with
  | Some (inl z) => z =? 0
  | Some (inr f) => PrimFloat.eqb f 0%float
  | None => false
  end.

(** [int(n / seats * 100)] for the length [n] of a list. *)
Definition occupancy_check (n : nat) (seats : pyval) : result unit :=
  match as_number seats with
  | Some (inl _) => Ok tt
  | Some (inr f) =>
      let r := (PrimFloat.of_uint63 (Uint63.of_Z (Z.of_nat n)) / f * 100)%float in
      if PrimFloat.is_nan r then Raise ValueError
      else if PrimFloat.is_infinity r then Raise OverflowError
      else Ok tt
  | None => Raise TypeError
  end.

(** ** The world: environment, network and trace *)

(** What one [requests.get ... raise_for_status ... json] sequence ends in. *)
Inductive http_outcome : Type :=
| Timeout                (* requests.exceptions.Timeout *)
| HTTPError              (* raise_for_status() on a 4xx or 5xx response *)
| OtherError             (* any other exception: connection, body not JSON *)
| Json (data : pyval).   (* the decoded body of a successful response *)

Inductive level : Type := INFO | WARNING | ERROR | SUCCESS.

Inductive event : Type :=
| Log (lv : level) (msg : string)          (* logging.info/warning/error *)
| St (lv : level) (msg : string)           (* st.info/warning/error/success *)
| HttpGet (url : string) (params : list (string * string))
| Sleep (seconds : Z)                      (* time.sleep *)
| AddMarker (lat lon : pyval)              (* folium.Marker, CircleMarker *)
| AddPolyLine (locations : list (pyval * pyval)) (color : string)
              (style : line_style)         (* folium.PolyLine(...).add_to *)
| AddHtml (html : string).                 (* m.get_root().html.add_child *)

Record world : Type := mkWorld {
  api_key : option string;          (* GEOAPIFY_API_KEY in os.environ *)
  network : nat -> http_outcome;    (* outcome of the n-th request *)
  sent : nat;                       (* requests made so far *)
  trace : list event                (* everything emitted, oldest first *)
}.

Definition M (A : Type) : Type := world -> result A * world.

Definition ret {A} (a : A) : M A := fun w => (Ok a, w).

Definition bind {A B} (m : M A) (k : A -> M B) : M B :=
  fun w => match m w with
           | (Ok a, w') => k a w'
           | (Raise e, w') => (Raise e, w')
           end.

Definition lift {A} (r : result A) : M A := fun w => (r, w).

(** [try: m except Exception: h] *)
Definition try_except {A} (m : M A) (h : exn -> M A) : M A :=
  fun w => match m w with
           | (Ok a, w') => (Ok a, w')
           | (Raise e, w') => h e w'
           end.

Definition emit (e : event) : M unit :=
  fun w => (Ok tt, mkWorld (api_key w) (network w) (sent w) (trace w ++ [e])).

Definition getenv (dflt : string) : M string :=
  fun w => (Ok (match api_key w with Some k => k | None => dflt end), w).

Definition requests_get (url : string) (params : list (string * string))
  : M http_outcome :=
  fun w => (Ok (network w (sent w)),
            mkWorld (api_key w) (network w) (S (sent w))
                    (trace w ++ [HttpGet url params])).

Declare Scope py_scope.
Delimit Scope py_scope with py.
Notation "x <- m ;; k" := (bind m (fun x => k))
  (at level 61, m at next level, right associativity) : py_scope.
Notation "m ;; k" := (bind m (fun _ => k))
  (at level 61, right associativity) : py_scope.
Notation "x <~ r ;; k" := (rbind r (fun x => k))
  (at level 61, r at next level, right associativity) : py_scope.
Local Open Scope py_scope.

Fixpoint for_each {A} (l : list A) (body : A -> M unit) : M unit :=
  match l with
  | [] => ret tt
  | x :: rest => body x ;; for_each rest body
  end.

(** A loop whose body may set the flag [line_added]. *)
Fixpoint for_flag {A} (l : list A) (body : A -> bool -> M bool) (flag : bool)
  : M bool :=
  match l with
  | [] => ret flag
  | x :: rest => flag' <- body x flag ;; for_flag rest body flag'
  end.

Fixpoint mapR {A B} (f : A -> result B) (l : list A) : result (list B) :=
  match l with
  | [] => Ok []
  | x :: rest => y <~ f x ;; ys <~ mapR f rest ;; Ok (y :: ys)
  end.

Fixpoint join (sep : string) (l : list string) : string :=
  match l with
  | [] => ""
  | [x] => x
  | x :: rest => (x ++ sep ++ join sep rest)%string
  end.

(** [(coord[1], coord[0])]: GeoJSON stores (lon, lat). *)
Definition swap_coord (coord : pyval) : result (pyval * pyval) :=
  a <~ getindex coord 1 ;; b <~ getindex coord 0 ;; Ok (a, b).

(** [[(coord[1], coord[0]) for coord in cs]] *)
Definition swap_coords (cs : pyval) : result (list (pyval * pyval)) :=
  l <~ py_iter cs ;; mapR swap_coord l.

(** [(p['lat'], p['lon'])] *)
Definition lat_lon (p : pyval) : result (pyval * pyval) :=
  a <~ getitem p "lat" ;; b <~ getitem p "lon" ;; Ok (a, b).

(** [x in ['LineString', 'MultiLineString']] *)
Definition is_line_type (x : pyval) : bool :=
  is_str x "LineString" || is_str x "MultiLineString".

Section Builtins.

(** Library functions the module calls, taken as they are:
    [lower s] is [s.lower()];
    [py_str v] is [str(v)], which is also what an f-string field prints;
    [md5_int s] is [int(hashlib.md5(s.encode()).hexdigest(), 16)];
    [polyline_decode v] is [polyline.decode(v)], [None] when it raises. *)
Variable lower : string -> string.
Variable py_str : pyval -> string.
Variable md5_int : string -> Z.
Variable polyline_decode : pyval -> option (list (pyval * pyval)).

(** ** Vehicle classification *)

(** [get_vehicle_type]: an object without truth value (None, the empty string)
    counts as the empty model; any other object must be a string, as
    [.lower()] is called on it. *)
Definition get_vehicle_type (vehicle_model : pyval) : result string :=
  rbind (if truthy vehicle_model
         then match vehicle_model with
              | PStr s => Ok (lower s)
              | _ => Raise AttributeError
              end
         else Ok "")
    (fun vehicle_model =>
       if existsb (fun keyword => contains keyword vehicle_model)
            ["ônibus"; "onibus"; "bus"]
       then Ok "bus"
       else if existsb (fun keyword => contains keyword vehicle_model)
                 ["van"; "sprint"; "ducato"; "boxer"; "kombi"]
       then Ok "van"
       else if existsb (fun keyword => contains keyword vehicle_model)
                 ["caminhão"; "caminhao"; "truck"]
       then Ok "truck"
       else if existsb (fun keyword => contains keyword vehicle_model)
                 ["moto"; "bike"; "motorcycle"]
       then Ok "motorcycle"
       else Ok "car").

(** ** The colour of a route *)

Definition get_color_for_route (index : Z) (route_id : pyval) : string :=
  if truthy route_id then
    let hash_val := md5_int (py_str route_id) in
    index_mod DISTINCT_COLORS hash_val ""
  else
    index_mod DISTINCT_COLORS index "".

(** ** Fetching route geometry *)

Definition vehicle_to_mode : list (string * string) :=
  [("car", "drive"); ("bus", "drive"); ("van", "drive");
   ("truck", "truck"); ("motorcycle", "motorcycle")].

Fixpoint mode_get (d : list (string * string)) (k dflt : string) : string :=
  match d with
  | [] => dflt
  | (k', v) :: rest => if String.eqb k' k then v else mode_get rest k dflt
  end.

(** [vehicle_type.lower()] *)
Definition str_lower (v : pyval) : result string :=
  match v with
  | PStr s => Ok (lower s)
  | _ => Raise AttributeError
  end.

Definition has_lat_lon (p : pyval) : bool :=
  match p with
  | PDict d => is_some (dict_get d "lat") && is_some (dict_get d "lon")
  | _ => false
  end.

(** The test of line 124:
    [isinstance(wp, dict) and 'lat' in wp and 'lon' in wp and wp['lat'] and wp['lon']] *)
Definition valid_waypoint (wp : pyval) : bool :=
  match wp with
  | PDict d =>
      match dict_get d "lat", dict_get d "lon" with
      | Some la, Some lo => truthy la && truthy lo
      | _, _ => false
      end
  | _ => false
  end.

(** [f"{point['lat']},{point['lon']}"] *)
Definition point_str (point : pyval) : result string :=
  la <~ getitem point "lat" ;; lo <~ getitem point "lon" ;;
  Ok (py_str la ++ "," ++ py_str lo)%string.

Definition routing_url : string := "https://api.geoapify.com/v1/routing".

Definition max_retries : Z := 3.

(** Lines 152-167: [Some data] is [return data]; [None] reaches the [break]. *)
Definition inspect_response (data : pyval) : M (option pyval) :=
  has <- lift (contains_key "features" data) ;;
  nonempty <- (if has : bool
               then fs <- lift (getitem data "features") ;;
                    n <- lift (py_len fs) ;;
                    ret (0 <? n)%nat
               else ret false) ;;
  if nonempty : bool then
    fs <- lift (getitem data "features") ;;
    feature <- lift (getindex fs 0) ;;
    hasg <- lift (contains_key "geometry" feature) ;;
    if hasg : bool then
      geometry <- lift (getitem feature "geometry") ;;
      ty <- lift (py_get geometry "type" PNone) ;;
      (if is_str ty "LineString"
       then cs <- lift (py_get geometry "coordinates" (PList [])) ;;
            _ <- lift (py_len cs) ;;
            ret tt
       else ret tt) ;;
      emit (Log INFO "Rota com ruas reais obtida com sucesso") ;;
      ret (Some data)
    else
      emit (Log ERROR "Resposta da API não contém geometria") ;;
      ret None
  else
    _ <- lift (py_get data "message" (PStr "Sem mensagem")) ;;
    emit (Log ERROR "Resposta da API sem features") ;;
    ret None.

(** The loop [for attempt in range(max_retries)] with its local
    [retry_delay]; running out of attempts reaches [return None]. *)
Fixpoint attempt_loop (params : list (string * string)) (attempts : list nat)
    (retry_delay : Z) : M (option pyval) :=
  match attempts with
  | [] => ret None
  | attempt :: rest =>
      outcome <- requests_get routing_url params ;;
      match outcome with
      | Json data =>
          try_except (inspect_response data)
            (fun _ => emit (Log ERROR "Erro inesperado na chamada à API") ;;
                      ret None)
      | Timeout =>
          emit (Log WARNING "Timeout na tentativa") ;;
          if Z.of_nat attempt <? max_retries - 1
          then emit (Sleep retry_delay) ;;
               attempt_loop params rest (retry_delay * 2)
          else attempt_loop params rest retry_delay
      | HTTPError =>
          emit (Log ERROR "Erro HTTP na API de routing") ;;
          ret None
      | OtherError =>
          emit (Log ERROR "Erro inesperado na chamada à API") ;;
          ret None
      end
  end.

(** The ordered points of the request: start, valid intermediates, end. *)
Definition request_points (start_point end_point : pyval)
    (waypoints : list pyval) : list pyval :=
  [start_point] ++ filter valid_waypoint waypoints ++ [end_point].

Definition get_route_geometry (start_point end_point : pyval)
    (waypoints : list pyval) (vehicle_type : pyval) : M (option pyval) :=
  API_KEY <- getenv "" ;;
  if String.eqb API_KEY "" then
    emit (Log WARNING
      "API key Geoapify não encontrada no ambiente. Trajeto seguirá linha reta.") ;;
    emit (St WARNING
      "API key não configurada. Configure a variável de ambiente GEOAPIFY_API_KEY para obter rotas reais.") ;;
    ret None
  else
    vt <- lift (str_lower vehicle_type) ;;
    let travel_mode := mode_get vehicle_to_mode vt "drive" in
    if negb (is_dict start_point) || negb (is_dict end_point) then
      emit (Log ERROR "Pontos de início ou fim inválidos") ;;
      ret None
    else if negb (has_lat_lon start_point) || negb (has_lat_lon end_point) then
      emit (Log ERROR "Pontos de início ou fim sem coordenadas lat/lon") ;;
      ret None
    else
      let valid_waypoints := filter valid_waypoint waypoints in
      let all_points := request_points start_point end_point waypoints in
      strs <- lift (mapR point_str all_points) ;;
      let waypoint_str := join "|" strs in
      let params := [("waypoints", waypoint_str);
                     ("mode", travel_mode);
                     ("details", "instruction_details,route_details");
                     ("apiKey", API_KEY)] in
      try_except
        (emit (St INFO "Solicitando rota real da API Geoapify") ;;
         attempt_loop params (seq 0 (Z.to_nat max_retries)) 2)
        (fun _ => emit (Log ERROR "Erro ao obter geometria da rota") ;;
                  ret None).

(** ** Drawing a single route: [display_route_on_map] *)

(** The visible text of the warning box laid over the map. *)
Definition warning_html : string :=
  "⚠️ AVISO: Esta rota é uma aproximação em linha reta e NÃO representa o trajeto real em ruas!".

Definition dashed : option string := Some "5, 5".

(** The map centred between start and end, with their two markers. *)
Definition base_map (start_coord end_coord : pyval) : M unit :=
  slat <- lift (getitem start_coord "lat") ;;
  elat <- lift (getitem end_coord "lat") ;;
  lift (midpoint_check slat elat) ;;
  slon <- lift (getitem start_coord "lon") ;;
  elon <- lift (getitem end_coord "lon") ;;
  lift (midpoint_check slon elon) ;;
  emit (AddMarker slat slon) ;;
  emit (AddMarker elat elon).

(** One waypoint marker (lines 232-246): popup fields first, then the
    location. *)
Definition waypoint_marker (wp : pyval) : M unit :=
  _ <- lift (py_get wp "name" (PStr "Não informado")) ;;
  _ <- lift (py_get wp "person_id" (PStr "N/A")) ;;
  la <- lift (getitem wp "lat") ;;
  lo <- lift (getitem wp "lon") ;;
  emit (AddMarker la lo).

(** [api_route_data and 'features' in api_route_data and
    len(api_route_data['features']) > 0] *)
Definition has_features (data : pyval) : result bool :=
  if truthy data then
    has <~ contains_key "features" data ;;
    if has : bool
    then fs <~ getitem data "features" ;; n <~ py_len fs ;; Ok (0 <? n)%nat
    else Ok false
  else Ok false.

(** One polyline per segment of a MultiLineString. *)
Definition draw_segments (coordinates : pyval) (color : string)
    (style : line_style) : M unit :=
  segments <- lift (py_iter coordinates) ;;
  for_each segments (fun line_segment =>
    line_coords <- lift (swap_coords line_segment) ;;
    emit (AddPolyLine line_coords color style)).

(** Lines 253-302: the routing API is asked first.  The value is the flag
    [line_added] after the block. *)
Definition api_line (route_data start_coord end_coord : pyval)
    (waypoints : list pyval) (color : string) : M bool :=
  try_except
    (vehicle_type <- lift (py_get route_data "vehicle_type" (PStr "car")) ;;
     api_route_data <- get_route_geometry start_coord end_coord waypoints vehicle_type ;;
     match api_route_data with
     | None => ret false
     | Some api =>
         ok <- lift (has_features api) ;;
         if ok : bool then
           fs <- lift (getitem api "features") ;;
           feature <- lift (getindex fs 0) ;;
           hasg <- lift (contains_key "geometry" feature) ;;
           if hasg : bool then
             geom <- lift (getitem feature "geometry") ;;
             ty <- lift (getitem geom "type") ;;
             if is_str ty "LineString" then
               cs <- lift (getitem geom "coordinates") ;;
               line_coords <- lift (swap_coords cs) ;;
               distance <- lift (py_get api "distance" (PInt 0)) ;;
               hasp <- lift (contains_key "properties" feature) ;;
               (if hasp : bool
                then props <- lift (getitem feature "properties") ;;
                     d <- lift (py_get props "distance" distance) ;;
                     lift (truediv_check d 1000)
                else ret tt) ;;
               duration <- lift (py_get api "time" (PInt 0)) ;;
               (if hasp : bool
                then props <- lift (getitem feature "properties") ;;
                     d <- lift (py_get props "time" duration) ;;
                     lift (truediv_check d 60)
                else ret tt) ;;
               (if hasp : bool then ret tt
                else lift (format_f_check distance) ;;
                     lift (format_f_check duration)) ;;
               emit (AddPolyLine line_coords color (mkStyle 5 0.8 None)) ;;
               emit (St SUCCESS "✅ Trajeto em ruas reais obtido com sucesso!") ;;
               ret true
             else if is_str ty "MultiLineString" then
               cs <- lift (getitem geom "coordinates") ;;
               draw_segments cs color (mkStyle 5 0.8 None) ;;
               emit (St SUCCESS "✅ Trajeto em ruas reais obtido com sucesso!") ;;
               ret true
             else ret false
           else ret false
         else ret false
     end)
    (fun _ =>
       emit (St ERROR "Erro ao buscar trajeto em ruas reais") ;;
       emit (Log ERROR "Erro ao buscar trajeto em ruas reais") ;;
       ret false).

(** The guard of lines 307 and 683:
    ['geometry' in feature and feature['geometry'].get('type') in [...]] *)
Definition has_line_geometry (feature : pyval) : result bool :=
  hasg <~ contains_key "geometry" feature ;;
  if hasg : bool
  then g <~ getitem feature "geometry" ;;
       ty <~ py_get g "type" PNone ;;
       Ok (is_line_type ty)
  else Ok false.

(** A metric read from the route data, replaced by the feature's own
    property over [divisor] when it equals zero (lines 314-320); afterwards
    the metric is printed with a float format. *)
Definition metric_check (route_data feature : pyval)
    (key prop : string) (divisor : Z) : result unit :=
  value <~ py_get route_data key (PInt 0) ;;
  hasp <~ (if py_eq0 value then contains_key "properties" feature else Ok false) ;;
  if hasp : bool
  then props <~ getitem feature "properties" ;;
       d <~ py_get props prop (PInt 0) ;;
       truediv_check d divisor
  else format_f_check value.

(** Lines 305-345: geometry embedded in [route_data], every feature drawn. *)
Definition embedded_line (route_data : pyval) (color : string)
    (line_added : bool) : M bool :=
  has <- (if negb line_added
          then lift (contains_key "features" route_data)
          else ret false) ;;
  if has : bool then
    fs <- lift (getitem route_data "features") ;;
    features <- lift (py_iter fs) ;;
    for_flag features (fun feature line_added =>
      cond <- lift (has_line_geometry feature) ;;
      if cond : bool then
        try_except
          (g <- lift (getitem feature "geometry") ;;
           ty <- lift (getitem g "type") ;;
           if is_str ty "LineString" then
             cs <- lift (getitem g "coordinates") ;;
             line_coords <- lift (swap_coords cs) ;;
             lift (metric_check route_data feature "total_distance_km" "distance" 1000) ;;
             lift (metric_check route_data feature "total_duration_minutes" "time" 60) ;;
             emit (AddPolyLine line_coords color (mkStyle 4 0.7 None)) ;;
             ret true
           else if is_str ty "MultiLineString" then
             cs <- lift (getitem g "coordinates") ;;
             draw_segments cs color (mkStyle 4 0.7 None) ;;
             ret true
           else ret line_added)
          (fun _ => emit (St ERROR "Erro ao processar geometria") ;;
                    ret line_added)
      else ret line_added) line_added
  else ret line_added.

(** The points of the straight line: start, waypoints in order, end. *)
Definition straight_points (start_coord end_coord : pyval)
    (waypoints : list pyval) : result (list (pyval * pyval)) :=
  s <~ lat_lon start_coord ;;
  ws <~ mapR lat_lon waypoints ;;
  e <~ lat_lon end_coord ;;
  Ok ([s] ++ ws ++ [e]).

(** Lines 350-383: the last resort. *)
Definition fallback_line (start_coord end_coord : pyval)
    (waypoints : list pyval) (color : string) (line_added : bool) : M bool :=
  if negb line_added then
    try_except
      (all_points <- lift (straight_points start_coord end_coord waypoints) ;;
       emit (AddPolyLine all_points color (mkStyle 3 0.5 dashed)) ;;
       emit (AddHtml warning_html) ;;
       emit (St WARNING
         "⚠️ ATENÇÃO: Exibindo trajeto simplificado em linha reta - não representa o caminho real em ruas!") ;;
       ret true)
      (fun _ =>
         emit (St ERROR "Não foi possível renderizar nenhum trajeto") ;;
         ret false)
  else ret line_added.

(** The value is [line_added] as it stands when the map is displayed; the
    Python function itself returns nothing. *)
Definition display_route_on_map (route_data start_coord end_coord : pyval)
    (waypoints : list pyval) (color : string) : M bool :=
  base_map start_coord end_coord ;;
  for_each waypoints waypoint_marker ;;
  line_added <- api_line route_data start_coord end_coord waypoints color ;;
  line_added <- embedded_line route_data color line_added ;;
  line_added <- fallback_line start_coord end_coord waypoints color line_added ;;
  ret line_added.

(** ** [display_route_map] *)

(** [waypoints[1:-1]] *)
Definition inner_slice (waypoints : pyval) : result (list pyval) :=
  match waypoints with
  | PList l => Ok (removelast (tl l))
  | _ => Raise TypeError
  end.

(** [{'lat': ..[0], 'lon': ..[1]}] of [wp.get('location', [0, 0])] *)
Definition endpoint_coord (wp : pyval) : result pyval :=
  loc <~ py_get wp "location" (PList [PInt 0; PInt 0]) ;;
  la <~ getindex loc 0 ;;
  lo <~ getindex loc 1 ;;
  Ok (PDict [("lat", la); ("lon", lo)]).

(** The intermediate stops that carry a location (lines 411-418). *)
Fixpoint intermediate_stops (wps : list pyval) : result (list pyval) :=
  match wps with
  | [] => Ok []
  | wp :: rest =>
      has <~ contains_key "location" wp ;;
      if has : bool then
        loc <~ getitem wp "location" ;;
        la <~ getindex loc 0 ;;
        lo <~ getindex loc 1 ;;
        name <~ py_get wp "name" (PStr "Parada") ;;
        more <~ intermediate_stops rest ;;
        Ok (PDict [("lat", la); ("lon", lo); ("name", name)] :: more)
      else intermediate_stops rest
  end.

(** Step 1 (lines 451-474): a geometry at the top of [route_data]. *)
Definition route_map_geometry (route_data : pyval) : M bool :=
  has <- lift (contains_key "geometry" route_data) ;;
  if has : bool then
    try_except
      (geom <- lift (getitem route_data "geometry") ;;
       ty <- lift (getitem geom "type") ;;
       if is_str ty "LineString" then
         cs <- lift (getitem geom "coordinates") ;;
         line_coords <- lift (swap_coords cs) ;;
         emit (AddPolyLine line_coords "blue" (mkStyle 4 0.8 None)) ;;
         ret true
       else if is_str ty "MultiLineString" then
         cs <- lift (getitem geom "coordinates") ;;
         draw_segments cs "blue" (mkStyle 4 0.8 None) ;;
         ret true
       else ret false)
      (fun _ => emit (St WARNING "Erro ao processar geometria") ;; ret false)
  else ret false.

(** Step 2 (lines 476-509): the routing API, whose answer is read as if it
    were a bare geometry. *)
Definition route_map_api (start_coord end_coord : pyval)
    (intermediate_waypoints : list pyval) (line_added : bool) : M bool :=
  if negb line_added then
    try_except
      (route_geom <- get_route_geometry start_coord end_coord
                       intermediate_waypoints (PStr "car") ;;
       match route_geom with
       | None => ret false
       | Some route_geom =>
           if truthy route_geom then
             ty <- lift (getitem route_geom "type") ;;
             if is_str ty "LineString" then
               cs <- lift (getitem route_geom "coordinates") ;;
               line_coords <- lift (swap_coords cs) ;;
               emit (AddPolyLine line_coords "blue" (mkStyle 4 0.8 None)) ;;
               ret true
             else if is_str ty "MultiLineString" then
               cs <- lift (getitem route_geom "coordinates") ;;
               draw_segments cs "blue" (mkStyle 4 0.8 None) ;;
               ret true
             else ret false
           else ret false
       end)
      (fun _ => emit (St WARNING "Erro ao obter rota da API") ;; ret false)
  else ret line_added.

(** Step 3 (lines 511-539): the straight line, outside any inner [try]. *)
Definition route_map_fallback (start_coord end_coord : pyval)
    (intermediate_waypoints : list pyval) (line_added : bool) : M unit :=
  if negb line_added then
    route_line <- lift (straight_points start_coord end_coord
                          intermediate_waypoints) ;;
    emit (AddPolyLine route_line "blue" (mkStyle 3 0.5 dashed)) ;;
    emit (AddHtml warning_html) ;;
    emit (St WARNING
      "⚠️ ATENÇÃO: Exibindo trajeto simplificado que não representa o caminho real em ruas!")
  else ret tt.

Definition display_route_map (route_data : pyval) : M unit :=
  try_except
    (has <- lift (contains_key "waypoints" route_data) ;;
     if has : bool then
       waypoints <- lift (getitem route_data "waypoints") ;;
       n <- lift (py_len waypoints) ;;
       if (2 <=? n)%nat then
         first <- lift (getindex waypoints 0) ;;
         start_coord <- lift (endpoint_coord first) ;;
         last <- lift (getindex waypoints (n - 1)) ;;
         end_coord <- lift (endpoint_coord last) ;;
         middle <- lift (inner_slice waypoints) ;;
         intermediate_waypoints <- lift (intermediate_stops middle) ;;
         base_map start_coord end_coord ;;
         for_each intermediate_waypoints (fun wp =>
           la <- lift (getitem wp "lat") ;;
           lo <- lift (getitem wp "lon") ;;
           emit (AddMarker la lo)) ;;
         line_added <- route_map_geometry route_data ;;
         line_added <- route_map_api start_coord end_coord
                         intermediate_waypoints line_added ;;
         route_map_fallback start_coord end_coord intermediate_waypoints line_added
       else
         emit (St WARNING "Dados insuficientes para exibir a rota no mapa.")
     else
       _ <- display_route_on_map route_data
              (PDict [("lat", PInt 0); ("lon", PInt 0)])
              (PDict [("lat", PInt 0); ("lon", PInt 0)]) [] "blue" ;;
       ret tt)
    (fun _ => emit (St ERROR "Erro ao exibir o mapa da rota")).

(** ** Several routes on one map: [display_multiple_routes_on_map] *)

(** Legend entry and markers of one route (lines 616-675).  The value is the
    data the line-drawing methods work on: colour, style, vehicle, route data
    and the passengers the marker loop visited. *)
Definition route_header (i : Z) (route_info : pyval)
  : M (string * line_style * pyval * pyval * list pyval) :=
  route_id <- lift (py_get route_info "route_id" PNone) ;;
  let route_color := get_color_for_route i route_id in
  vehicle <- lift (getitem route_info "vehicle") ;;
  route_data <- lift (getitem route_info "route_data") ;;
  passengers <- lift (getitem route_info "passengers") ;;
  _ <- lift (py_get route_info "estimated_time" (PStr "N/A")) ;;
  _ <- lift (getitem vehicle "model") ;;
  let line_style := get_line_style i in
  vehicle_seats <- lift (py_get vehicle "seats" (PInt 0)) ;;
  (if truthy vehicle_seats
   then n <- lift (py_len passengers) ;; lift (occupancy_check n vehicle_seats)
   else ret tt) ;;
  _ <- lift (py_len passengers) ;;
  stops <- lift (py_iter passengers) ;;
  for_each stops (fun wp =>
    _ <- lift (py_get wp "name" (PStr "Não informado")) ;;
    _ <- lift (py_get wp "person_id" (PStr "N/A")) ;;
    _ <- lift (getitem vehicle "model") ;;
    _ <- lift (getitem vehicle "license_plate") ;;
    _ <- lift (py_get vehicle "driver" (PStr "Não informado")) ;;
    la <- lift (getitem wp "lat") ;;
    lo <- lift (getitem wp "lon") ;;
    emit (AddMarker la lo)) ;;
  ret (route_color, line_style, vehicle, route_data, stops).

(** The fields of the vehicle a route popup prints. *)
Definition popup_vehicle (vehicle : pyval) (with_driver : bool) : result unit :=
  _ <~ getitem vehicle "model" ;;
  _ <~ getitem vehicle "license_plate" ;;
  if with_driver
  then _ <~ py_get vehicle "driver" (PStr "Não informado") ;; Ok tt
  else Ok tt.

(** Method 1 (lines 680-737): features of [route_data]. *)
Definition method1 (route_data vehicle : pyval) (route_color : string)
    (style : line_style) : M bool :=
  has <- lift (contains_key "features" route_data) ;;
  if has : bool then
    fs <- lift (getitem route_data "features") ;;
    features <- lift (py_iter fs) ;;
    for_flag features (fun feature line_added =>
      cond <- lift (has_line_geometry feature) ;;
      if cond : bool then
        try_except
          (g <- lift (getitem feature "geometry") ;;
           ty <- lift (getitem g "type") ;;
           if is_str ty "LineString" then
             cs <- lift (getitem g "coordinates") ;;
             line_coords <- lift (swap_coords cs) ;;
             distance <- lift (py_get route_data "total_distance_km" (PInt 0)) ;;
             hasp <- lift (if py_eq0 distance
                           then contains_key "properties" feature
                           else Ok false) ;;
             (if hasp : bool
              then props <- lift (getitem feature "properties") ;;
                   d <- lift (py_get props "distance" (PInt 0)) ;;
                   lift (truediv_check d 1000)
              else ret tt) ;;
             duration <- lift (py_get route_data "total_duration_minutes" (PInt 0)) ;;
             hasp' <- lift (if py_eq0 duration
                            then contains_key "properties" feature
                            else Ok false) ;;
             (if hasp' : bool
              then props <- lift (getitem feature "properties") ;;
                   d <- lift (py_get props "time" (PInt 0)) ;;
                   lift (truediv_check d 60)
              else ret tt) ;;
             lift (popup_vehicle vehicle true) ;;
             (if hasp : bool then ret tt else lift (format_f_check distance)) ;;
             emit (AddPolyLine line_coords route_color style) ;;
             ret true
           else if is_str ty "MultiLineString" then
             cs <- lift (getitem g "coordinates") ;;
             draw_segments cs route_color style ;;
             ret true
           else ret line_added)
          (fun _ => emit (St WARNING "Erro ao processar geometria para rota") ;;
                    ret line_added)
      else ret line_added) false
  else ret false.

(** Method 2 (lines 739-771): a ['path'] of more than one point. *)
Definition method2 (route_data vehicle : pyval) (route_color : string)
    (style : line_style) (line_added : bool) : M bool :=
  go <- (if negb line_added then
           has <- lift (contains_key "path" route_data) ;;
           if has : bool
           then p <- lift (getitem route_data "path") ;;
                n <- lift (py_len p) ;;
                ret (1 <? n)%nat
           else ret false
         else ret false) ;;
  if go : bool then
    try_except
      (p <- lift (getitem route_data "path") ;;
       points <- lift (py_iter p) ;;
       path_coords <- lift (mapR lat_lon points) ;;
       distance <- lift (py_get route_data "total_distance_km" (PInt 0)) ;;
       duration <- lift (py_get route_data "total_duration_minutes" (PInt 0)) ;;
       lift (popup_vehicle vehicle false) ;;
       lift (format_f_check distance) ;;
       lift (format_f_check duration) ;;
       emit (AddPolyLine path_coords route_color style) ;;
       ret true)
      (fun _ => emit (St WARNING "Erro ao processar path para rota") ;;
                ret line_added)
  else ret line_added.

(** Method 3 (lines 773-829): the routing API, whose answer is read as if it
    were a bare geometry. *)
Definition method3 (start_coord end_coord route_data vehicle : pyval)
    (passengers : list pyval) (route_color : string) (style : line_style)
    (line_added : bool) : M bool :=
  if negb line_added then
    try_except
      (has <- lift (contains_key "model" vehicle) ;;
       vehicle_type <- (if has : bool
                        then model <- lift (getitem vehicle "model") ;;
                             lift (get_vehicle_type model)
                        else ret "car") ;;
       route_geom <- get_route_geometry start_coord end_coord passengers
                       (PStr vehicle_type) ;;
       match route_geom with
       | None => ret false
       | Some route_geom =>
           if truthy route_geom then
             ty <- lift (getitem route_geom "type") ;;
             if is_str ty "LineString" then
               cs <- lift (getitem route_geom "coordinates") ;;
               line_coords <- lift (swap_coords cs) ;;
               distance <- lift (py_get route_data "total_distance_km" (PInt 0)) ;;
               duration <- lift (py_get route_data "total_duration_minutes" (PInt 0)) ;;
               lift (popup_vehicle vehicle true) ;;
               lift (format_f_check distance) ;;
               lift (format_f_check duration) ;;
               emit (AddPolyLine line_coords route_color style) ;;
               ret true
             else if is_str ty "MultiLineString" then
               cs <- lift (getitem route_geom "coordinates") ;;
               draw_segments cs route_color style ;;
               ret true
             else ret false
           else ret false
       end)
      (fun _ => emit (St WARNING "Erro ao obter rota da API para rota") ;;
                ret false)
  else ret line_added.

(** Method 4 (lines 831-853): the straight line.  The flag is read and never
    written here. *)
Definition method4 (start_coord end_coord : pyval) (passengers : list pyval)
    (route_color : string) (style : line_style) (line_added : bool) : M bool :=
  if negb line_added then
    try_except
      (all_points <- lift (straight_points start_coord end_coord passengers) ;;
       emit (AddPolyLine all_points route_color
               (mkStyle (weight style) 0.5 dashed)) ;;
       emit (St WARNING
         "⚠️ Usando trajeto simplificado para rota - não representa o caminho real nas ruas!") ;;
       ret line_added)
      (fun _ =>
         emit (St ERROR "Não foi possível renderizar trajeto para rota") ;;
         ret line_added)
  else ret line_added.

(** One iteration of the loop over [routes_info]; its value is [line_added]
    at the end of the iteration. *)
Definition display_one_route (start_coord end_coord : pyval) (i : Z)
    (route_info : pyval) : M bool :=
  hdr <- route_header i route_info ;;
  let '(route_color, style, vehicle, route_data, passengers) := hdr in
  line_added <- method1 route_data vehicle route_color style ;;
  line_added <- method2 route_data vehicle route_color style line_added ;;
  line_added <- method3 start_coord end_coord route_data vehicle passengers
                  route_color style line_added ;;
  line_added <- method4 start_coord end_coord passengers route_color style
                  line_added ;;
  ret line_added.

Fixpoint display_routes_from (start_coord end_coord : pyval) (i : Z)
    (routes_info : list pyval) : M (list bool) :=
  match routes_info with
  | [] => ret []
  | route_info :: rest =>
      flag <- display_one_route start_coord end_coord i route_info ;;
      flags <- display_routes_from start_coord end_coord (i + 1) rest ;;
      ret (flag :: flags)
  end.

(** The value lists, route by route, the flag [line_added] at the end of each
    iteration; the Python function itself returns nothing. *)
Definition display_multiple_routes_on_map (routes_info : list pyval)
    (start_coord end_coord : pyval) : M (list bool) :=
  base_map start_coord end_coord ;;
  display_routes_from start_coord end_coord 0 routes_info.

(** ** Extracting coordinates *)

(** The loop of lines 951-962 over the features: the first LineString or
    MultiLineString geometry is returned. *)
Fixpoint first_line_geometry (features : list pyval)
  : result (option (list (pyval * pyval))) :=
  match features with
  | [] => Ok None
  | feature :: rest =>
      has <~ contains_key "geometry" feature ;;
      if has : bool then
        geom <~ getitem feature "geometry" ;;
        ty <~ getitem geom "type" ;;
        if is_str ty "LineString" then
          cs <~ getitem geom "coordinates" ;;
          coords <~ swap_coords cs ;;
          Ok (Some coords)
        else if is_str ty "MultiLineString" then
          cs <~ getitem geom "coordinates" ;;
          segments <~ py_iter cs ;;
          parts <~ mapR swap_coords segments ;;
          Ok (Some (List.concat parts))
        else first_line_geometry rest
      else first_line_geometry rest
  end.

(** Method 1: the features of a GeoJSON answer. *)
Definition feature_geometry (route_data : pyval)
  : result (option (list (pyval * pyval))) :=
  has <~ contains_key "features" route_data ;;
  if has : bool
  then fs <~ getitem route_data "features" ;;
       features <~ py_iter fs ;;
       first_line_geometry features
  else Ok None.

(** Methods 2 and 3: a non-empty ['path'], else an encoded ['polyline']. *)
Definition path_or_polyline (route_data : pyval)
  : result (option (list (pyval * pyval))) :=
  hasp <~ contains_key "path" route_data ;;
  nonempty <~ (if hasp : bool
               then p <~ getitem route_data "path" ;;
                    n <~ py_len p ;;
                    Ok (0 <? n)%nat
               else Ok false) ;;
  if nonempty : bool then
    p <~ getitem route_data "path" ;;
    points <~ py_iter p ;;
    coords <~ mapR lat_lon points ;;
    Ok (Some coords)
  else
    haspl <~ contains_key "polyline" route_data ;;
    encoded <~ (if haspl : bool
                then v <~ getitem route_data "polyline" ;; Ok (truthy v)
                else Ok false) ;;
    if encoded : bool then
      v <~ getitem route_data "polyline" ;;
      match polyline_decode v with
      | Some coords => Ok (Some coords)
      | None => Raise ValueError
      end
    else Ok None.

Definition extract_body (route_data : pyval)
  : result (option (list (pyval * pyval))) :=
  found <~ feature_geometry route_data ;;
  match found with
  | Some coords => Ok (Some coords)
  | None => path_or_polyline route_data
  end.

(** [None] is Python's [None]; [Some []] is an empty list of coordinates. *)
Definition extract_route_coordinates (route_data : pyval)
  : option (list (pyval * pyval)) :=
  match extract_body route_data with
  | Ok r => r
  | Raise _ => None
  end.

End Builtins.

(** * Vocabulary of the statements *)

(** ** Vehicle classification *)

Definition bus_keywords : list string := ["ônibus"; "onibus"; "bus"].
Definition van_keywords : list string := ["van"; "sprint"; "ducato"; "boxer"; "kombi"].
Definition truck_keywords : list string := ["caminhão"; "caminhao"; "truck"].
Definition motorcycle_keywords : list string := ["moto"; "bike"; "motorcycle"].

(** The lower-cased model mentions one of the keywords. *)
Definition mentions (lower : string -> string) (keywords : list string)
    (s : string) : Prop :=
  exists kw, In kw keywords /\ contains kw (lower s) = true.

(** Text of whole code points below U+0100, in UTF-8: ASCII bytes, and the
    lead bytes C2 and C3, each followed by one continuation byte. *)
Fixpoint latin1_from (continuation : bool) (s : string) : bool :=
  match s with
  | EmptyString => negb continuation
  | String c rest =>
      let n := N_of_ascii c in
      if continuation
      then ((128 <=? n) && (n <=? 191))%N && latin1_from false rest
      else if (n <? 128)%N then latin1_from false rest
      else if ((n =? 194) || (n =? 195))%N then latin1_from true rest
      else false
  end.

Definition latin1 (s : string) : bool := latin1_from false s.

(** What the statements on letter case take from [str.lower]: a stretch of
    code points below U+0100 is lower-cased where it stands, by the table of
    [lower_latin1], whatever comes before and after it. *)
Definition lowers_latin1 (lower : string -> string) : Prop :=
  forall pre t post,
    latin1 t = true ->
    exists pre' post',
      lower (pre ++ t ++ post)%string = (pre' ++ lower_latin1 t ++ post')%string /\
      (pre = "" -> pre' = "") /\ (post = "" -> post' = "").

(** The byte [c] stands for the byte [k] of a lower-case word: it is [k], or
    the capital of [k], which is 32 less for the letters a .. z and for the
    second byte of the letters U+00E0 .. U+00FE (without the division sign
    U+00F7), which follows the lead byte C3. *)
Definition same_letter (after_c3 : bool) (k c : ascii) : bool :=
  let n := N_of_ascii k in
  let m := N_of_ascii c in
  ((m =? n) ||
   ((97 <=? n) && (n <=? 122) && (m + 32 =? n)) ||
   (after_c3 && (160 <=? n) && (n <=? 190) && negb (n =? 183) && (m + 32 =? n)))%N.

Fixpoint any_case_from (after_c3 : bool) (kw t : string) : bool :=
  match kw, t with
  | EmptyString, EmptyString => true
  | String k kw', String c t' =>
      same_letter after_c3 k c && any_case_from (is_c3 k) kw' t'
  | _, _ => false
  end.

(** [t] is the lower-case word [kw] in some mix of upper and lower case. *)
Definition any_case (kw t : string) : bool := any_case_from false kw t.

(** The first byte of a word is no second byte of a letter: whether the
    word stands after the lead byte C3 does not matter. *)
Definition head_plain (kw : string) : bool :=
  match kw with
  | EmptyString => true
  | String k _ => negb ((160 <=? N_of_ascii k) && (N_of_ascii k <=? 190))%N
  end.

(** [kw] occurs in [s] in some mix of upper and lower case. *)
Definition occurs_in_any_case (kw s : string) : Prop :=
  exists pre t post, s = (pre ++ t ++ post)%string /\ any_case kw t = true.

(** The state after the last byte of [s]. *)
Fixpoint c3_after (b : bool) (s : string) : bool :=
  match s with
  | EmptyString => b
  | String c rest => c3_after (is_c3 c) rest
  end.

(** A continuation byte that [lower_byte] may move lies in [128, 158]. *)
Definition movable (c : ascii) : bool :=
  ((128 <=? N_of_ascii c) && (N_of_ascii c <=? 158))%N.

(** ** Colours *)

(** The palette entry at a position counted from zero. *)
Definition palette_at (n : Z) : string := nth (Z.to_nat n) DISTINCT_COLORS "".

(** [str] on the values the examples print: ints in decimal, strings as they
    are, None and the booleans by name. *)
Definition sample_str (v : pyval) : string :=
  match v with
  | PInt z => NilZero.string_of_int (Z.to_int z)
  | PStr s => s
  | PBool true => "True"
  | PBool false => "False"
  | _ => "None"
  end.

(** MD5 (RFC 1321), which the examples take for [md5_int]. *)

Definition md5_shifts : list Z :=
  [7; 12; 17; 22; 7; 12; 17; 22; 7; 12; 17; 22; 7; 12; 17; 22;
   5; 9; 14; 20; 5; 9; 14; 20; 5; 9; 14; 20; 5; 9; 14; 20;
   4; 11; 16; 23; 4; 11; 16; 23; 4; 11; 16; 23; 4; 11; 16; 23;
   6; 10; 15; 21; 6; 10; 15; 21; 6; 10; 15; 21; 6; 10; 15; 21].

(** [floor(2^32 * abs(sin(i + 1)))] *)
Definition md5_sines : list Z :=
  [3614090360; 3905402710; 606105819; 3250441966; 4118548399; 1200080426;
   2821735955; 4249261313; 1770035416; 2336552879; 4294925233; 2304563134;
   1804603682; 4254626195; 2792965006; 1236535329; 4129170786; 3225465664;
   643717713; 3921069994; 3593408605; 38016083; 3634488961; 3889429448;
   568446438; 3275163606; 4107603335; 1163531501; 2850285829; 4243563512;
   1735328473; 2368359562; 4294588738; 2272392833; 1839030562; 4259657740;
   2763975236; 1272893353; 4139469664; 3200236656; 681279174; 3936430074;
   3572445317; 76029189; 3654602809; 3873151461; 530742520; 3299628645;
   4096336452; 1126891415; 2878612391; 4237533241; 1700485571; 2399980690;
   4293915773; 2240044497; 1873313359; 4264355552; 2734768916; 1309151649;
   4149444226; 3174756917; 718787259; 3951481745].

Definition word (z : Z) : Z := z mod 2 ^ 32.

Definition rotate_left (x c : Z) : Z :=
  word (Z.lor (Z.shiftl x c) (Z.shiftr x (32 - c))).

Definition word_not (x : Z) : Z := 2 ^ 32 - 1 - x.

Fixpoint bytes_of (s : string) : list Z :=
  match s with
  | EmptyString => []
  | String c rest => Z.of_N (N_of_ascii c) :: bytes_of rest
  end.

(** [n] bytes of [z], least significant first. *)
Fixpoint little_endian (n : nat) (z : Z) : list Z :=
  match n with
  | O => []
  | S n' => z mod 256 :: little_endian n' (z / 256)
  end.

Fixpoint of_little_endian (l : list Z) : Z :=
  match l with
  | [] => 0
  | b :: rest => b + 256 * of_little_endian rest
  end.

(** The message with its padding: a 1 bit, zeros up to 56 bytes modulo 64,
    and the length in bits on 8 bytes. *)
Definition md5_padded (msg : list Z) : list Z :=
  let len := Z.of_nat (List.length msg) in
  let zeros := Z.to_nat ((55 - len) mod 64) in
  msg ++ [128] ++ repeat 0 zeros ++ little_endian 8 (8 * len mod 2 ^ 64).

Fixpoint md5_words (n : nat) (bytes : list Z) : list Z :=
  match n with
  | O => []
  | S n' => of_little_endian (firstn 4 bytes) :: md5_words n' (skipn 4 bytes)
  end.

Definition md5_round (m : list Z) (i : Z) (st : Z * Z * Z * Z) : Z * Z * Z * Z :=
  let '(a, b, c, d) := st in
  let '(f, g) :=
    if i <? 16 then (Z.lor (Z.land b c) (Z.land (word_not b) d), i)
    else if i <? 32 then (Z.lor (Z.land d b) (Z.land (word_not d) c), (5 * i + 1) mod 16)
    else if i <? 48 then (Z.lxor (Z.lxor b c) d, (3 * i + 5) mod 16)
    else (Z.lxor c (Z.lor b (word_not d)), (7 * i) mod 16) in
  let f' := word (f + a + nth (Z.to_nat i) md5_sines 0 + nth (Z.to_nat g) m 0) in
  (d, word (b + rotate_left f' (nth (Z.to_nat i) md5_shifts 0)), b, c).

Definition md5_block (st : Z * Z * Z * Z) (block : list Z) : Z * Z * Z * Z :=
  let m := md5_words 16 block in
  let '(a, b, c, d) :=
    fold_left (fun acc i => md5_round m (Z.of_nat i) acc) (seq 0 64) st in
  let '(a0, b0, c0, d0) := st in
  (word (a0 + a), word (b0 + b), word (c0 + c), word (d0 + d)).

Fixpoint md5_blocks (n : nat) (st : Z * Z * Z * Z) (bytes : list Z)
  : Z * Z * Z * Z :=
  match n with
  | O => st
  | S n' => md5_blocks n' (md5_block st (firstn 64 bytes)) (skipn 64 bytes)
  end.

Definition md5_digest (s : string) : list Z :=
  let bytes := md5_padded (bytes_of s) in
  let '(a, b, c, d) :=
    md5_blocks (List.length bytes / 64)
      (1732584193, 4023233417, 2562383102, 271733878) bytes in
  little_endian 4 a ++ little_endian 4 b ++ little_endian 4 c ++ little_endian 4 d.

(** [int(hashlib.md5(s.encode()).hexdigest(), 16)]: the sixteen bytes of the
    digest read as one number, first byte most significant. *)
Definition sample_md5 (s : string) : Z :=
  fold_left (fun acc b => acc * 256 + b) (md5_digest s) 0.

(** ** The routing request *)

(** The world after more events, and after [n] more requests. *)
Definition emitted (w : world) (evs : list event) : world :=
  mkWorld (api_key w) (network w) (sent w) (trace w ++ evs).

Definition advanced (w : world) (n : nat) (evs : list event) : world :=
  mkWorld (api_key w) (network w) (n + sent w) (trace w ++ evs).

(** The requests and the sleeps among some events. *)
Fixpoint requests (evs : list event) : nat :=
  match evs with
  | [] => 0
  | HttpGet _ _ :: rest => S (requests rest)
  | _ :: rest => requests rest
  end.

Fixpoint sleep_seconds (evs : list event) : list Z :=
  match evs with
  | [] => []
  | Sleep s :: rest => s :: sleep_seconds rest
  | _ :: rest => sleep_seconds rest
  end.

(** The polylines drawn among some events. *)
Fixpoint polylines (evs : list event)
  : list (list (pyval * pyval) * string * line_style) :=
  match evs with
  | [] => []
  | AddPolyLine locations color style :: rest =>
      (locations, color, style) :: polylines rest
  | _ :: rest => polylines rest
  end.

(** How many of the next [limit] outcomes, from request [from] on, are
    timeouts in a row. *)
Fixpoint leading_timeouts (net : nat -> http_outcome) (from limit : nat) : nat :=
  match limit with
  | O => O
  | S l => match net from with
           | Timeout => S (leading_timeouts net (S from) l)
           | _ => O
           end
  end.

(** A call that gets as far as the network: a key is configured, both end
    points carry coordinates and the vehicle type is a string. *)
Definition ready (w : world) (start_point end_point vehicle_type : pyval) : Prop :=
  (exists k, api_key w = Some k /\ k <> "") /\
  (exists v, vehicle_type = PStr v) /\
  has_lat_lon start_point = true /\
  has_lat_lon end_point = true.

(** What [f"{point['lat']},{point['lon']}"] prints for a point. *)
Definition coord_text (py_str : pyval -> string) (point : pyval) : string :=
  match point with
  | PDict d =>
      match dict_get d "lat", dict_get d "lon" with
      | Some la, Some lo => (py_str la ++ "," ++ py_str lo)%string
      | _, _ => ""
      end
  | _ => ""
  end.

(** The query parameters of the request. *)
Definition request_params (lower : string -> string) (py_str : pyval -> string)
    (start_point end_point : pyval) (waypoints : list pyval)
    (vehicle_type key : string) : list (string * string) :=
  [("waypoints",
    join "|" (map (coord_text py_str)
                  ([start_point] ++ filter valid_waypoint waypoints ++ [end_point])));
   ("mode", mode_get vehicle_to_mode (lower vehicle_type) "drive");
   ("details", "instruction_details,route_details");
   ("apiKey", key)].

(** Values [len] accepts. *)
Definition sized (v : pyval) : bool :=
  match v with
  | PList _ | PStr _ | PDict _ => true
  | _ => false
  end.

(** A response body the fetcher hands back: a dict whose ['features'] is a
    non-empty list, whose first feature is a dict with a ['geometry'] that is
    itself a dict and, when that is a LineString, has coordinates (if any)
    with a length. *)
Definition usable_response (data : pyval) : bool :=
  match data with
  | PDict d =>
      match dict_get d "features" with
      | Some (PList (PDict fd :: _)) =>
          match dict_get fd "geometry" with
          | Some (PDict gd) =>
              match dict_get gd "type" with
              | Some (PStr t) =>
                  if String.eqb t "LineString"
                  then match dict_get gd "coordinates" with
                       | Some cs => sized cs
                       | None => true
                       end
                  else true
              | _ => true
              end
          | _ => false
          end
      | _ => false
      end
  | _ => false
  end.

(** What an attempt that did not time out returns. *)
Definition settled (o : http_outcome) : option pyval :=
  match o with
  | Json data => if usable_response data then Some data else None
  | _ => None
  end.

Definition timed_out (o : http_outcome) : bool :=
  match o with Timeout => true | _ => false end.

(** The handler of the inner [except Exception] of the retry loop. *)
Definition unexpected : exn -> M (option pyval) :=
  fun _ => emit (Log ERROR "Erro inesperado na chamada à API") ;; ret None.

(** The announcement that precedes the first request. *)
Definition info_request : event := St INFO "Solicitando rota real da API Geoapify".

(** ** Extraction *)

(** A GeoJSON coordinate array built from (longitude, latitude) pairs. *)
Definition positions (l : list (pyval * pyval)) : pyval :=
  PList (map (fun p => PList [fst p; snd p]) l).

Definition swap (p : pyval * pyval) : pyval * pyval := (snd p, fst p).

(** A path of explicit points built from (lat, lon) pairs. *)
Definition path_points (l : list (pyval * pyval)) : pyval :=
  PList (map (fun p => PDict [("lat", fst p); ("lon", snd p)]) l).

(** A feature the extractor passes over: it has no 'geometry', or its
    geometry is a dict whose 'type' is neither kind of line. *)
Definition passed_over (feature : pyval) : bool :=
  match contains_key "geometry" feature with
  | Ok false => true
  | Ok true =>
      match getitem feature "geometry" with
      | Ok geom =>
          match getitem geom "type" with
          | Ok ty => negb (is_line_type ty)
          | Raise _ => false
          end
      | Raise _ => false
      end
  | Raise _ => false
  end.

(** Shape (a) does not match: no 'features', or only features passed over. *)
Definition no_line_feature (d : list (string * pyval)) : Prop :=
  dict_get d "features" = None \/
  exists fs, dict_get d "features" = Some (PList fs) /\ forallb passed_over fs = true.



(** ** Drawing *)

(** A point that carries the coordinates [la] and [lo]. *)
Definition located (p la lo : pyval) : Prop :=
  exists d, p = PDict d /\ dict_get d "lat" = Some la /\ dict_get d "lon" = Some lo.

(** A feature without a LineString or MultiLineString geometry. *)
Definition no_line (feature : pyval) : bool :=
  match has_line_geometry feature with
  | Ok false => true
  | _ => false
  end.

(** Route data that embed no line geometry. *)
Definition no_embedded_line (rd : list (string * pyval)) : Prop :=
  dict_get rd "features" = None \/
  exists fs, dict_get rd "features" = Some (PList fs) /\ forallb no_line fs = true.

(** [route_data.get('vehicle_type', 'car')] *)
Definition vehicle_type_of (rd : list (string * pyval)) : pyval :=
  match dict_get rd "vehicle_type" with
  | Some v => v
  | None => PStr "car"
  end.

(** What method 1 of the multi-route renderer computes and prints for the
    popup of a LineString feature (lines 690-711): the distance and the
    duration of the route data, read from the feature's properties when they
    are zero, the fields of the vehicle, and the distance with one
    decimal. *)
Definition method1_popup (route_data feature vehicle : pyval) : result unit :=
  distance <~ py_get route_data "total_distance_km" (PInt 0) ;;
  hasp <~ (if py_eq0 distance
           then contains_key "properties" feature
           else Ok false) ;;
  _ <~ (if hasp : bool
        then props <~ getitem feature "properties" ;;
             d <~ py_get props "distance" (PInt 0) ;;
             truediv_check d 1000
        else Ok tt) ;;
  duration <~ py_get route_data "total_duration_minutes" (PInt 0) ;;
  hasp' <~ (if py_eq0 duration
            then contains_key "properties" feature
            else Ok false) ;;
  _ <~ (if hasp' : bool
        then props <~ getitem feature "properties" ;;
             d <~ py_get props "time" (PInt 0) ;;
             truediv_check d 60
        else Ok tt) ;;
  _ <~ popup_vehicle vehicle true ;;
  if hasp : bool then Ok tt else format_f_check distance.

(** What the fetcher writes when no key is configured. *)
Definition key_warnings : list event :=
  [Log WARNING
     "API key Geoapify não encontrada no ambiente. Trajeto seguirá linha reta.";
   St WARNING
     "API key não configurada. Configure a variável de ambiente GEOAPIFY_API_KEY para obter rotas reais."].

Definition fallback_warning : string :=
  "⚠️ ATENÇÃO: Exibindo trajeto simplificado em linha reta - não representa o caminho real em ruas!".

(** The top level of a response is not itself a line geometry: it has no
    'type', or one that is neither LineString nor MultiLineString (a GeoJSON
    FeatureCollection, as the routing API answers). *)
Definition top_type_not_line (d : list (string * pyval)) : Prop :=
  dict_get d "type" = None \/
  exists ty, dict_get d "type" = Some ty /\ is_line_type ty = false.

Definition route_map_warning : string :=
  "⚠️ ATENÇÃO: Exibindo trajeto simplificado que não representa o caminho real em ruas!".

Definition multi_route_warning : string :=
  "⚠️ Usando trajeto simplificado para rota - não representa o caminho real nas ruas!".

(** ** Sample data *)

Definition sample_decode (v : pyval) : option (list (pyval * pyval)) := None.

Definition garage : pyval := PDict [("lat", PInt (-23)); ("lon", PInt (-46))].
Definition plant : pyval := PDict [("lat", PInt (-22)); ("lon", PInt (-47))].
Definition stop_ana : pyval :=
  PDict [("lat", PInt (-24)); ("lon", PInt (-45)); ("name", PStr "Ana")].
Definition stop_rui : pyval :=
  PDict [("lat", PInt 0); ("lon", PInt (-50)); ("name", PStr "Rui")].

Definition offline : nat -> http_outcome := fun _ => Timeout.
Definition answering (body : pyval) : nat -> http_outcome := fun _ => Json body.

Definition world_without_key : world := mkWorld None offline 0 [].
Definition world_with_key (net : nat -> http_outcome) : world :=
  mkWorld (Some "k3y") net 0 [].

(** A body as the routing API answers: a FeatureCollection with one
    LineString feature. *)
Definition feature_collection : pyval :=
  PDict [("type", PStr "FeatureCollection");
         ("features",
          PList [PDict [("type", PStr "Feature");
                        ("geometry",
                         PDict [("type", PStr "LineString");
                                ("coordinates",
                                 PList [PList [PInt 2; PInt 1];
                                        PList [PInt 4; PInt 3]])]);
                        ("properties",
                         PDict [("distance", PInt 1500); ("time", PInt 120)])]])].

(** A body whose only feature has a null geometry. *)
Definition null_geometry_body : pyval :=
  PDict [("features", PList [PDict [("geometry", PNone)]])].

Definition van : pyval :=
  PDict [("model", PStr "Sprinter Van"); ("license_plate", PStr "ABC-1234");
         ("seats", PInt 15)].

(** Route data whose only feature is a MultiLineString without segments. *)
Definition empty_multiline_data : list (string * pyval) :=
  [("features",
    PList [PDict [("type", PStr "Feature");
                  ("geometry",
                   PDict [("type", PStr "MultiLineString");
                          ("coordinates", PList [])])]])].

(** A route without embedded geometry, with one passenger. *)
Definition route_van : pyval :=
  PDict [("route_id", PStr "R-17"); ("vehicle", van);
         ("route_data", PDict []); ("passengers", PList [stop_ana])].

(** A route with that empty MultiLineString. *)
Definition route_empty_multiline : pyval :=
  PDict [("route_id", PStr "R-17"); ("vehicle", van);
         ("route_data", PDict empty_multiline_data);
         ("passengers", PList [stop_ana])].

(** GeoJSON route data with a point feature before the line, and a path. *)
Definition mixed_route_data : list (string * pyval) :=
  [("features",
    PList [PDict [("type", PStr "Feature")];
           PDict [("geometry",
                   PDict [("type", PStr "LineString");
                          ("coordinates",
                           positions [(PInt 2, PInt 1); (PInt 4, PInt 3)])])]]);
   ("path", path_points [(PInt 9, PInt 9)])].

(** ** Effects, requests and drawing: further vocabulary *)

(** The seconds slept among some events, added up. *)
Definition sleep_total (evs : list event) : Z :=
  fold_right Z.add 0 (sleep_seconds evs).

(** A computation that, from any world and whether it returns or raises,
    leaves the key and the network alone, only appends to the trace, and
    makes at most [r] requests and sleeps at most [s] seconds, each request
    being counted and recorded. *)
Definition costs {A} (m : M A) (r : nat) (s : Z) : Prop :=
  forall w, exists n evs,
    snd (m w) = advanced w n evs /\
    requests evs = n /\ (n <= r)%nat /\ 0 <= sleep_total evs <= s.

(** The travel mode asked of the routing API for a vehicle type (line 109). *)
Definition travel_mode (lower : string -> string) (vehicle_type : string)
  : string :=
  mode_get vehicle_to_mode (lower vehicle_type) "drive".

(** A vehicle type that is a string. *)
Definition is_string (v : pyval) : bool :=
  match v with PStr _ => true | _ => false end.

(** A key is configured and not empty. *)
Definition key_configured (w : world) : Prop :=
  exists k, api_key w = Some k /\ k <> "".

(** [d.get(k, dflt)] on the items of a dict. *)
Definition dict_value (d : list (string * pyval)) (k : string) (dflt : pyval)
  : pyval :=
  match dict_get d k with
  | Some v => v
  | None => dflt
  end.

(** The markers of stops with the given coordinates. *)
Definition markers_at (coords : list (pyval * pyval)) : list event :=
  map (fun c => AddMarker (fst c) (snd c)) coords.

(** Stops that carry, one by one, the given coordinates. *)
Definition all_located (wps : list pyval) (coords : list (pyval * pyval)) : Prop :=
  Forall2 (fun wp c => located wp (fst c) (snd c)) wps coords.

(** One polyline per list of (longitude, latitude) pairs, latitude first. *)
Definition lines_of (segments : list (list (pyval * pyval))) (color : string)
    (style : line_style) : list event :=
  map (fun l => AddPolyLine (map swap l) color style) segments.

Definition success_message : string :=
  "✅ Trajeto em ruas reais obtido com sucesso!".

(** The world [w2] is [w1] after more requests and events. *)
Definition extends (w1 w2 : world) : Prop :=
  exists n evs, w2 = advanced w1 n evs.

(** The point (0, 0) that [display_route_map] passes on. *)
Definition origin : pyval := PDict [("lat", PInt 0); ("lon", PInt 0)].

(** ** Further sample data *)

(** The parts of [feature_collection]. *)
Definition sample_line : list (pyval * pyval) :=
  [(PInt 2, PInt 1); (PInt 4, PInt 3)].

Definition sample_geometry : list (string * pyval) :=
  [("type", PStr "LineString");
   ("coordinates", PList [PList [PInt 2; PInt 1]; PList [PInt 4; PInt 3]])].

Definition sample_properties : list (string * pyval) :=
  [("distance", PInt 1500); ("time", PInt 120)].

Definition sample_feature : list (string * pyval) :=
  [("type", PStr "Feature"); ("geometry", PDict sample_geometry);
   ("properties", PDict sample_properties)].

Definition sample_answer : list (string * pyval) :=
  [("type", PStr "FeatureCollection");
   ("features", PList [PDict sample_feature])].

(** A stop without coordinates. *)
Definition stop_unplaced : list (string * pyval) := [("name", PStr "Rui")].

(** Route data whose geometry is a MultiLineString of two segments. *)
Definition multiline_geometry : list (string * pyval) :=
  [("type", PStr "MultiLineString");
   ("coordinates", PList (map positions [sample_line; [(PInt 6, PInt 5)]]))].

Definition multiline_route_data : list (string * pyval) :=
  [("geometry", PDict multiline_geometry)].

(** Route data whose first feature has a geometry without 'type', and a
    path. *)
Definition typeless_route_data : list (string * pyval) :=
  [("features", PList [PDict [("geometry", PDict [])]]);
   ("path", path_points [(PInt 1, PInt 2)])].

(** Route data with a path of two points. *)
Definition path_route_data : list (string * pyval) :=
  [("path", path_points [(PInt 1, PInt 2); (PInt 3, PInt 4)])].

(** Route data that embed the feature of [feature_collection], with its
    properties, after a feature without geometry, and a path. *)
Definition line_route_data : list (string * pyval) :=
  [("features", PList [PDict [("type", PStr "Feature")]; PDict sample_feature]);
   ("path", path_points [(PInt 9, PInt 9); (PInt 8, PInt 8)])].

Definition route_with_line : pyval :=
  PDict [("route_id", PStr "R-17"); ("vehicle", van);
         ("route_data", PDict line_route_data);
         ("passengers", PList [stop_ana])].

(** A vehicle whose model is a number. *)
Definition numbered_vehicle : list (string * pyval) :=
  [("model", PInt 208); ("license_plate", PStr "ABC-1234")].

(** A route that names no vehicle. *)
Definition route_without_vehicle : list (string * pyval) :=
  [("route_id", PStr "R-18"); ("route_data", PDict []);
   ("passengers", PList [stop_rui])].

(** * Vehicle classification *)

Lemma prefix_append (kw post : string) : prefix kw (kw ++ post) = true.
Proof.
  induction kw as [|c kw IH]; simpl.
  - destruct post; reflexivity.
  - destruct (ascii_dec c c) as [_|n]; [exact IH | now elim n].
Qed.

Lemma contains_prefix (kw s : string) :
  prefix kw s = true -> contains kw s = true.
Proof.
  intros H. destruct s; cbn [contains]; rewrite H; reflexivity.
Qed.

Lemma contains_append (pre kw post : string) :
  contains kw (pre ++ kw ++ post) = true.
Proof.
  induction pre as [|c pre IH].
  - cbn [append]. apply contains_prefix, prefix_append.
  - cbn [append contains]. rewrite IH. apply orb_true_r.
Qed.

Lemma lower_from_append (b : bool) (s1 s2 : string) :
  lower_from b (s1 ++ s2) = (lower_from b s1 ++ lower_from (c3_after b s1) s2)%string.
Proof.
  revert b; induction s1 as [|c s1 IH]; intros b; simpl.
  - reflexivity.
  - now rewrite IH.
Qed.

Lemma lower_byte_state (b : bool) (c : ascii) :
  movable c = false -> lower_byte b c = lower_byte false c.
Proof.
  unfold movable, lower_byte. intros H.
  destruct b; simpl; [|reflexivity].
  destruct ((65 <=? N_of_ascii c) && (N_of_ascii c <=? 90))%N; [reflexivity|].
  rewrite H. reflexivity.
Qed.

(** Text of whole code points does not start inside one: its first byte is
    lower-cased the same way wherever the text stands. *)
Lemma lower_from_latin1 (b : bool) (t : string) :
  latin1 t = true -> lower_from b t = lower_latin1 t.
Proof.
  unfold latin1, lower_latin1. destruct t as [|c t]; [reflexivity|].
  cbn [latin1_from lower_from]. intros H. f_equal.
  apply lower_byte_state. unfold movable.
  destruct (N_of_ascii c <? 128)%N eqn:E1.
  - apply N.ltb_lt in E1. apply andb_false_iff. left. apply N.leb_gt. lia.
  - destruct ((N_of_ascii c =? 194) || (N_of_ascii c =? 195))%N eqn:E2;
      [|discriminate].
    apply andb_false_iff. right. apply N.leb_gt.
    apply orb_true_iff in E2 as [E2 | E2]; apply N.eqb_eq in E2; lia.
Qed.

(** The table of [lower_latin1] is one way [str.lower] can be. *)
Lemma lower_latin1_lowers : lowers_latin1 lower_latin1.
Proof.
  intros pre t post Ht.
  exists (lower_latin1 pre),
         (lower_from (c3_after (c3_after false pre) t) post).
  repeat split.
  - unfold lower_latin1 at 1. rewrite !lower_from_append.
    now rewrite (lower_from_latin1 _ t Ht).
  - intros ->. reflexivity.
  - intros ->. reflexivity.
Qed.

Lemma ascii_plus_32 (k c : ascii) :
  (N_of_ascii c + 32 = N_of_ascii k)%N -> ascii_of_N (N_of_ascii c + 32) = k.
Proof. intros ->. apply ascii_N_embedding. Qed.

(** A byte that stands for [k] is lower-cased to [k], and is the lead byte
    C3 exactly when [k] is. *)
Lemma same_letter_lower (b : bool) (k c : ascii) :
  lower_byte b k = k -> same_letter b k c = true ->
  lower_byte b c = k /\ is_c3 c = is_c3 k.
Proof.
  unfold same_letter, is_c3. intros Hk H.
  apply orb_true_iff in H as [H | H]; [apply orb_true_iff in H as [H | H]|].
  - apply N.eqb_eq in H.
    assert (c = k) as -> by
      (rewrite <- (ascii_N_embedding c), <- (ascii_N_embedding k); now f_equal).
    now split.
  - apply andb_true_iff in H as [H H3]. apply andb_true_iff in H as [H1 H2].
    apply N.leb_le in H1, H2. apply N.eqb_eq in H3. split.
    + unfold lower_byte.
      replace ((65 <=? N_of_ascii c) && (N_of_ascii c <=? 90))%N with true
        by (symmetry; apply andb_true_iff; split; apply N.leb_le; lia).
      now apply ascii_plus_32.
    + replace (N_of_ascii c =? 195)%N with false
        by (symmetry; apply N.eqb_neq; lia).
      symmetry. apply N.eqb_neq. lia.
  - apply andb_true_iff in H as [H H5]. apply andb_true_iff in H as [H H4].
    apply andb_true_iff in H as [H H3]. apply andb_true_iff in H as [H1 H2].
    apply N.leb_le in H2, H3. apply negb_true_iff, N.eqb_neq in H4.
    apply N.eqb_eq in H5. subst b. split.
    + unfold lower_byte.
      replace ((65 <=? N_of_ascii c) && (N_of_ascii c <=? 90))%N with false
        by (symmetry; apply andb_false_iff; right; apply N.leb_gt; lia).
      replace (true && (128 <=? N_of_ascii c) && (N_of_ascii c <=? 158)
               && negb (N_of_ascii c =? 151))%N with true.
      * now apply ascii_plus_32.
      * symmetry. cbn [andb]. repeat (apply andb_true_iff; split).
        -- apply N.leb_le; lia.
        -- apply N.leb_le; lia.
        -- apply negb_true_iff, N.eqb_neq. lia.
    + replace (N_of_ascii c =? 195)%N with false
        by (symmetry; apply N.eqb_neq; lia).
      symmetry. apply N.eqb_neq. lia.
Qed.

(** A lower-case word written in any mix of cases is lower-cased to the
    word. *)
Lemma any_case_lower (kw : string) :
  forall b t, lower_from b kw = kw -> any_case_from b kw t = true ->
              lower_from b t = kw.
Proof.
  induction kw as [|k kw IH]; intros b [|c t] Hk H; cbn [any_case_from] in H;
    try discriminate H; [reflexivity|].
  apply andb_true_iff in H as [Hc Ht].
  cbn [lower_from] in Hk. injection Hk as Hk1 Hk2.
  destruct (same_letter_lower b k c Hk1 Hc) as [E1 E2].
  cbn [lower_from]. rewrite E1, E2. f_equal. now apply IH.
Qed.

Ltac bools :=
  repeat match goal with
         | H : (_ && _)%bool = true |- _ => apply andb_true_iff in H as [? ?]
         | H : (_ || _)%bool = true |- _ => apply orb_true_iff in H as [? | ?]
         | H : negb _ = true |- _ => apply negb_true_iff in H
         | H : (_ <=? _)%N = true |- _ => apply N.leb_le in H
         | H : (_ <? _)%N = true |- _ => apply N.ltb_lt in H
         | H : (_ <? _)%N = false |- _ => apply N.ltb_ge in H
         | H : (_ =? _)%N = true |- _ => apply N.eqb_eq in H
         | H : (_ =? _)%N = false |- _ => apply N.eqb_neq in H
         end.

Lemma same_letter_latin1 (b : bool) (k c : ascii) :
  same_letter b k c = true ->
  ((128 <=? N_of_ascii k) && (N_of_ascii k <=? 191))%N = true ->
  ((128 <=? N_of_ascii c) && (N_of_ascii c <=? 191))%N = true.
Proof.
  unfold same_letter. intros H Hr.
  apply andb_true_iff; split; apply N.leb_le; bools; lia.
Qed.

(** ... and is text of whole code points when the word is. *)
Lemma any_case_latin1 (kw : string) :
  forall st b t, latin1_from st kw = true -> any_case_from b kw t = true ->
                 latin1_from st t = true.
Proof.
  induction kw as [|k kw IH]; intros st b [|c t] Hk H; cbn [any_case_from] in H;
    try discriminate H; [exact Hk|].
  apply andb_true_iff in H as [Hc Ht].
  cbn [latin1_from] in *. destruct st.
  - apply andb_true_iff in Hk as [Hr Hk].
    rewrite (same_letter_latin1 b k c Hc Hr). cbn [andb]. now apply (IH false (is_c3 k)).
  - unfold same_letter in Hc.
    destruct (N_of_ascii k <? 128)%N eqn:E1.
    + assert (E : (N_of_ascii c <? 128)%N = true)
        by (apply N.ltb_lt; bools; lia).
      rewrite E. now apply (IH false (is_c3 k)).
    + destruct ((N_of_ascii k =? 194) || (N_of_ascii k =? 195))%N eqn:E2;
        [|discriminate].
      assert (E : N_of_ascii c = N_of_ascii k) by (bools; lia).
      rewrite E, E1, E2. now apply (IH true (is_c3 k)).
Qed.

Lemma N_of_ascii_plus_32 (c : ascii) :
  (N_of_ascii c <= 158)%N ->
  N_of_ascii (ascii_of_N (N_of_ascii c + 32)) = (N_of_ascii c + 32)%N.
Proof. intros H. apply N_ascii_embedding. lia. Qed.

(** Conversely, every byte stands for the byte it is lower-cased to. *)
Lemma lower_byte_same_letter (b : bool) (c : ascii) :
  same_letter b (lower_byte b c) c = true /\
  is_c3 (lower_byte b c) = is_c3 c.
Proof.
  unfold same_letter, lower_byte, is_c3.
  destruct ((65 <=? N_of_ascii c) && (N_of_ascii c <=? 90))%N eqn:E1.
  - bools. rewrite N_of_ascii_plus_32 by lia. split.
    + apply orb_true_iff. left. apply orb_true_iff. right.
      repeat (apply andb_true_iff; split);
        [apply N.leb_le; lia | apply N.leb_le; lia | apply N.eqb_eq; reflexivity].
    + replace (N_of_ascii c =? 195)%N with false by (symmetry; apply N.eqb_neq; lia).
      apply N.eqb_neq. lia.
  - destruct (b && (128 <=? N_of_ascii c) && (N_of_ascii c <=? 158)
              && negb (N_of_ascii c =? 151))%N eqn:E2.
    + bools. rewrite N_of_ascii_plus_32 by lia. split.
      * apply orb_true_iff. right. subst b. cbn [andb].
        repeat (apply andb_true_iff; split);
          [apply N.leb_le; lia | apply N.leb_le; lia
          | apply negb_true_iff, N.eqb_neq; lia | apply N.eqb_eq; reflexivity].
      * replace (N_of_ascii c =? 195)%N with false by (symmetry; apply N.eqb_neq; lia).
        apply N.eqb_neq. lia.
    + split; [|reflexivity]. rewrite N.eqb_refl. reflexivity.
Qed.

Lemma lower_any_case (t : string) :
  forall b, any_case_from b (lower_from b t) t = true.
Proof.
  induction t as [|c t IH]; intros b; cbn [lower_from any_case_from]; [reflexivity|].
  destruct (lower_byte_same_letter b c) as [H1 H2].
  rewrite H1, H2. apply IH.
Qed.

Lemma any_case_anywhere (kw t : string) (b : bool) :
  head_plain kw = true -> any_case_from b kw t = true -> any_case kw t = true.
Proof.
  unfold any_case. destruct kw as [|k kw], t as [|c t]; cbn [any_case_from head_plain];
    try (intros; assumption).
  intros Hk H. apply andb_true_iff in H as [Hc Ht]. rewrite Ht, andb_true_r.
  unfold same_letter in *. destruct b; [|exact Hc].
  apply negb_true_iff in Hk.
  apply orb_true_iff in Hc as [Hc | Hc]; [rewrite Hc; reflexivity|].
  cbn [andb] in Hc. rewrite Hk in Hc. discriminate Hc.
Qed.

Lemma append_empty (s : string) : (s ++ "")%string = s.
Proof. induction s as [|c s IH]; cbn [append]; [reflexivity | now rewrite IH]. Qed.

Lemma prefix_inv (kw x : string) :
  prefix kw x = true -> exists post, x = (kw ++ post)%string.
Proof.
  revert x. induction kw as [|k kw IH]; intros x H.
  - now exists x.
  - destruct x as [|c x]; [discriminate H|]. cbn [prefix] in H.
    destruct (ascii_dec k c) as [->|]; [|discriminate H].
    destruct (IH x H) as [post ->]. now exists post.
Qed.

Lemma contains_inv (kw x : string) :
  contains kw x = true -> exists pre post, x = (pre ++ kw ++ post)%string.
Proof.
  induction x as [|c x IH]; cbn [contains]; intros H.
  - rewrite orb_false_r in H. destruct (prefix_inv _ _ H) as [post ->].
    now exists "", post.
  - apply orb_true_iff in H as [H | H].
    + destruct (prefix_inv _ _ H) as [post ->]. now exists "", post.
    + destruct (IH H) as (pre & post & ->). now exists (String c pre), post.
Qed.

Lemma lower_from_split (x y : string) :
  forall b s, lower_from b s = (x ++ y)%string ->
  exists s1 s2, s = (s1 ++ s2)%string /\ lower_from b s1 = x /\
                lower_from (c3_after b s1) s2 = y.
Proof.
  induction x as [|k x IH]; intros b s H.
  - now exists "", s.
  - destruct s as [|c s]; [discriminate H|].
    cbn [lower_from append] in H. injection H as Hk H.
    destruct (IH _ _ H) as (s1 & s2 & -> & H1 & H2).
    exists (String c s1), s2. cbn [append lower_from c3_after].
    now rewrite Hk, H1.
Qed.

(** The keywords are lower-case text of whole code points. *)
Lemma keywords_lower_case (kw : string) :
  In kw (bus_keywords ++ van_keywords ++ truck_keywords ++ motorcycle_keywords) ->
  lower_latin1 kw = kw /\ latin1 kw = true /\ head_plain kw = true.
Proof.
  simpl. intros H.
  repeat (destruct H as [<-|H]; [repeat split; reflexivity|]).
  contradiction.
Qed.

(** A word found in lower-cased text stands in the text in some mix of
    cases. *)
Lemma contains_occurs (kw s : string) :
  head_plain kw = true ->
  contains kw (lower_latin1 s) = true -> occurs_in_any_case kw s.
Proof.
  intros Hk H. destruct (contains_inv _ _ H) as (pre' & post' & E).
  destruct (lower_from_split pre' (kw ++ post') false s E) as (pre & rest & -> & _ & E2).
  destruct (lower_from_split kw post' _ rest E2) as (t & post & -> & E3 & _).
  exists pre, t, post. split; [reflexivity|].
  apply (any_case_anywhere kw t (c3_after false pre) Hk).
  rewrite <- E3. apply lower_any_case.
Qed.

Section Classification.

Variable lower : string -> string.

Lemma occurs_contains (kw s : string) :
  lowers_latin1 lower ->
  In kw (bus_keywords ++ van_keywords ++ truck_keywords ++ motorcycle_keywords) ->
  occurs_in_any_case kw s -> contains kw (lower s) = true.
Proof.
  intros Hl Hin (pre & t & post & -> & Ht).
  destruct (keywords_lower_case kw Hin) as (Hk1 & Hk2 & _).
  assert (E : lower_latin1 t = kw) by (apply any_case_lower; assumption).
  assert (L : latin1 t = true) by (apply (any_case_latin1 kw false false); assumption).
  destruct (Hl pre t post L) as (pre' & post' & -> & _).
  rewrite E. apply contains_append.
Qed.

Lemma mentions_existsb (keywords : list string) (s : string) :
  existsb (fun keyword => contains keyword (lower s)) keywords = true <->
  mentions lower keywords s.
Proof.
  unfold mentions. rewrite existsb_exists. reflexivity.
Qed.

Lemma not_mentions_existsb (keywords : list string) (s : string) :
  existsb (fun keyword => contains keyword (lower s)) keywords = false <->
  ~ mentions lower keywords s.
Proof.
  rewrite <- mentions_existsb.
  destruct (existsb _ keywords); split; intros; congruence.
Qed.

(** The classifier on a string that is not empty, as a cascade over the
    lower-cased model. *)
Lemma get_vehicle_type_str (s : string) :
  s <> "" ->
  get_vehicle_type lower (PStr s) =
  Ok (if existsb (fun k => contains k (lower s)) bus_keywords then "bus"
      else if existsb (fun k => contains k (lower s)) van_keywords then "van"
      else if existsb (fun k => contains k (lower s)) truck_keywords then "truck"
      else if existsb (fun k => contains k (lower s)) motorcycle_keywords then "motorcycle"
      else "car").
Proof.
  destruct s as [|c s]; [congruence|]. intros _.
  unfold get_vehicle_type.
  change (truthy (PStr (String c s))) with true. cbv beta iota.
  unfold rbind, bus_keywords, van_keywords, truck_keywords, motorcycle_keywords.
  repeat match goal with
         | |- context [if ?b then _ else _] => destruct b
         end; reflexivity.
Qed.

(** Whatever [str.lower] returns, the class is one of the five. *)
Lemma vehicle_type_range (model : pyval) (t : string) :
  get_vehicle_type lower model = Ok t ->
  In t ["car"; "bus"; "van"; "truck"; "motorcycle"].
Proof.
  unfold get_vehicle_type, rbind.
  destruct (if truthy model then _ else _) as [text|x]; [|discriminate].
  repeat match goal with
         | |- context [if ?b then _ else _] => destruct b
         end; intros [= <-]; simpl; tauto.
Qed.

Ltac classify_cases s Hs :=
  rewrite (get_vehicle_type_str s Hs);
  rewrite <- ?mentions_existsb;
  destruct (existsb (fun k => contains k (lower s)) bus_keywords);
  destruct (existsb (fun k => contains k (lower s)) van_keywords);
  destruct (existsb (fun k => contains k (lower s)) truck_keywords);
  destruct (existsb (fun k => contains k (lower s)) motorcycle_keywords);
  intuition (try discriminate; try congruence).

(** C8. A vehicle model string, the empty string and None included, is
    classified as one of car, bus, van, truck, motorcycle.  For a model that
    is not empty the keyword sets are matched as substrings of the
    lower-cased model, in the order bus, van, truck, motorcycle, the first
    set with a match deciding, and a model matching no keyword is a car.
    With [str.lower] lower-casing Latin letters where they stand, a keyword
    written in any mix of upper and lower case is matched, so that a model
    containing bus, onibus or ônibus in any case is a bus; and in a model of
    code points below U+0100 nothing else is matched. *)
Theorem C8_vehicle_type_classification :
  (forall s, exists t, get_vehicle_type lower (PStr s) = Ok t /\
                       In t ["car"; "bus"; "van"; "truck"; "motorcycle"]) /\
  get_vehicle_type lower PNone = Ok "car" /\
  get_vehicle_type lower (PStr "") = Ok "car" /\
  (forall s, s <> "" ->
     (get_vehicle_type lower (PStr s) = Ok "bus" <-> mentions lower bus_keywords s) /\
     (get_vehicle_type lower (PStr s) = Ok "van" <->
        ~ mentions lower bus_keywords s /\ mentions lower van_keywords s) /\
     (get_vehicle_type lower (PStr s) = Ok "truck" <->
        ~ mentions lower bus_keywords s /\ ~ mentions lower van_keywords s /\
        mentions lower truck_keywords s) /\
     (get_vehicle_type lower (PStr s) = Ok "motorcycle" <->
        ~ mentions lower bus_keywords s /\ ~ mentions lower van_keywords s /\
        ~ mentions lower truck_keywords s /\ mentions lower motorcycle_keywords s) /\
     (get_vehicle_type lower (PStr s) = Ok "car" <->
        ~ mentions lower bus_keywords s /\ ~ mentions lower van_keywords s /\
        ~ mentions lower truck_keywords s /\ ~ mentions lower motorcycle_keywords s)) /\
  (lowers_latin1 lower ->
     (forall s kw,
         In kw (bus_keywords ++ van_keywords ++ truck_keywords ++ motorcycle_keywords) ->
         occurs_in_any_case kw s -> contains kw (lower s) = true) /\
     (forall s kw, In kw ["bus"; "onibus"; "ônibus"] -> occurs_in_any_case kw s ->
                   get_vehicle_type lower (PStr s) = Ok "bus") /\
     (forall s keywords,
         latin1 s = true ->
         In keywords [bus_keywords; van_keywords; truck_keywords; motorcycle_keywords] ->
         (mentions lower keywords s <->
          exists kw, In kw keywords /\ occurs_in_any_case kw s))).
Proof.
  repeat apply conj; try reflexivity.
  - intros s. destruct (get_vehicle_type lower (PStr s)) as [t|x] eqn:E.
    + exists t. split; [reflexivity|]. exact (vehicle_type_range _ _ E).
    + exfalso. destruct s as [|c s]; [discriminate E|].
      rewrite get_vehicle_type_str in E by discriminate. discriminate E.
  - intros s Hs. repeat apply conj; classify_cases s Hs.
  - intros Hl. repeat apply conj.
    + intros s kw Hin Ho. now apply occurs_contains.
    + intros s kw Hin Ho.
      assert (Hs : s <> "").
      { destruct Ho as (pre & t & post & -> & Ht). intros E.
        destruct pre; [|discriminate E]. destruct t; [|discriminate E].
        simpl in Hin.
        destruct Hin as [<- | [<- | [<- | []]]]; discriminate Ht. }
      assert (Hb : In kw bus_keywords) by (unfold bus_keywords; simpl in *; tauto).
      assert (Hm : mentions lower bus_keywords s).
      { exists kw. split; [exact Hb|]. apply occurs_contains; [exact Hl| |exact Ho].
        apply in_or_app. now left. }
      revert Hm. classify_cases s Hs.
    + intros s keywords Hs Hks.
      assert (Hsub : forall kw, In kw keywords ->
                In kw (bus_keywords ++ van_keywords ++ truck_keywords
                       ++ motorcycle_keywords)).
      { intros kw Hin. simpl in Hks.
        destruct Hks as [<- | [<- | [<- | [<- | []]]]]; simpl in *; tauto. }
      assert (El : lower s = lower_latin1 s).
      { destruct (Hl "" s "" Hs) as (pre' & post' & E & Hp & Hq).
        rewrite (Hp eq_refl), (Hq eq_refl) in E. cbn [append] in E.
        rewrite !append_empty in E. exact E. }
      unfold mentions. rewrite El. split; intros (kw & Hin & H); exists kw;
        (split; [exact Hin|]).
      * apply contains_occurs; [|exact H].
        now destruct (keywords_lower_case kw (Hsub kw Hin)) as (_ & _ & ?).
      * rewrite <- El. apply occurs_contains; auto.
Qed.

End Classification.

Lemma C8_vehicle_type_classification_witness :
  lowers_latin1 lower_latin1 /\
  occurs_in_any_case "ônibus" "Micro-ÔNIBUS Volare" /\
  get_vehicle_type lower_latin1 (PStr "Micro-ÔNIBUS Volare") = Ok "bus".
Proof.
  assert (H : occurs_in_any_case "ônibus" "Micro-ÔNIBUS Volare")
    by (exists "Micro-", "ÔNIBUS", " Volare"; split; reflexivity).
  split; [exact lower_latin1_lowers|]. split; [exact H|].
  apply (proj1 (proj2 (proj2 (proj2 (proj2 (proj2
           (C8_vehicle_type_classification lower_latin1)))) lower_latin1_lowers))
           "Micro-ÔNIBUS Volare" "ônibus").
  - simpl. tauto.
  - exact H.
Defined.

(** * Colours *)

Lemma palette_no_duplicates : NoDup DISTINCT_COLORS.
Proof.
  unfold DISTINCT_COLORS.
  repeat (constructor; [simpl; intuition discriminate|]).
  constructor.
Qed.

Lemma palette_length : Z.of_nat (List.length DISTINCT_COLORS) = 20.
Proof. reflexivity. Qed.

Lemma index_mod_palette (i : Z) :
  index_mod DISTINCT_COLORS i "" = palette_at (i mod 20).
Proof. unfold index_mod, palette_at. rewrite palette_length. reflexivity. Qed.

Lemma palette_at_inj (a b : Z) :
  0 <= a < 20 -> 0 <= b < 20 -> palette_at a = palette_at b -> a = b.
Proof.
  intros Ha Hb H. unfold palette_at in H.
  assert (Hn : Z.to_nat a = Z.to_nat b).
  { apply (proj1 (NoDup_nth DISTINCT_COLORS "") palette_no_duplicates).
    - change (List.length DISTINCT_COLORS) with 20%nat. lia.
    - change (List.length DISTINCT_COLORS) with 20%nat. lia.
    - exact H. }
  lia.
Qed.

Lemma palette_at_in (a : Z) : 0 <= a < 20 -> In (palette_at a) DISTINCT_COLORS.
Proof.
  intros Ha. unfold palette_at. apply nth_In.
  change (List.length DISTINCT_COLORS) with 20%nat. lia.
Qed.

Section Colours.

Variable lower : string -> string.
Variable py_str : pyval -> string.
Variable md5_int : string -> Z.

(** C7, amended. A route id with a truth value (not None, not zero, not
    empty) fixes the colour: the palette entry at its MD5 digest modulo 20,
    whatever the index.  Without such an id the colour is the palette entry
    at the index modulo 20, which cycles with period exactly 20.  The result
    is always one of the 20 palette entries. *)
Theorem C7_color_for_route :
  (forall index index' route_id,
      truthy route_id = true ->
      get_color_for_route py_str md5_int index route_id =
        palette_at (md5_int (py_str route_id) mod 20) /\
      get_color_for_route py_str md5_int index route_id =
        get_color_for_route py_str md5_int index' route_id) /\
  (forall index route_id,
      truthy route_id = false ->
      get_color_for_route py_str md5_int index route_id = palette_at (index mod 20)) /\
  (forall index,
      get_color_for_route py_str md5_int index PNone = palette_at (index mod 20)) /\
  (forall index,
      get_color_for_route py_str md5_int (index + 20) PNone =
      get_color_for_route py_str md5_int index PNone) /\
  (forall i j,
      get_color_for_route py_str md5_int i PNone =
      get_color_for_route py_str md5_int j PNone <-> i mod 20 = j mod 20) /\
  (forall index route_id,
      In (get_color_for_route py_str md5_int index route_id) DISTINCT_COLORS).
Proof.
  repeat apply conj.
  - intros index index' rid Ht. unfold get_color_for_route. rewrite Ht.
    cbv zeta. rewrite index_mod_palette. split; reflexivity.
  - intros index rid Hf. unfold get_color_for_route. rewrite Hf.
    apply index_mod_palette.
  - intros index. unfold get_color_for_route. simpl truthy. cbv iota.
    apply index_mod_palette.
  - intros index. unfold get_color_for_route. simpl truthy. cbv iota.
    rewrite !index_mod_palette. f_equal.
    replace (index + 20) with (index + 1 * 20) by ring.
    apply Z.mod_add. discriminate.
  - intros i j. unfold get_color_for_route. simpl truthy. cbv iota.
    rewrite !index_mod_palette. split.
    + apply palette_at_inj; apply Z.mod_pos_bound; reflexivity.
    + intros ->. reflexivity.
  - intros index rid. unfold get_color_for_route.
    destruct (truthy rid); cbv zeta; rewrite index_mod_palette;
      apply palette_at_in; apply Z.mod_pos_bound; reflexivity.
Qed.

End Colours.

Lemma C7_color_for_route_witness :
  truthy (PStr "R-17") = true /\
  get_color_for_route sample_str sample_md5 0 (PStr "R-17") = "#6633CC" /\
  get_color_for_route sample_str sample_md5 0 (PStr "R-17") =
  get_color_for_route sample_str sample_md5 5 (PStr "R-17").
Proof.
  split; [reflexivity|].
  destruct (proj1 (C7_color_for_route sample_str sample_md5) 0 5 (PStr "R-17")
              eq_refl) as [H1 H2].
  split; [rewrite H1; vm_compute; reflexivity | exact H2].
Defined.

(** The route id 0 is given, yet the colour follows the index: whatever the
    digest function, indices 0 and 1 give the first and the second palette
    entry. *)
Lemma C7_route_id_zero_follows_index :
  PInt 0 <> PNone /\
  get_color_for_route sample_str sample_md5 0 (PInt 0) = "#3366CC" /\
  get_color_for_route sample_str sample_md5 1 (PInt 0) = "#DC3912" /\
  palette_at (sample_md5 (sample_str (PInt 0)) mod 20) = "#994499".
Proof.
  split; [discriminate|]. repeat split.
Qed.

(** * The world and the retry loop *)

#[local] Arguments contains : simpl never.
#[local] Arguments String.eqb !s1 !s2.

Lemma emitted_nil (w : world) : emitted w [] = w.
Proof. destruct w. unfold emitted. simpl. now rewrite app_nil_r. Qed.

Lemma emitted_emitted (w : world) (a b : list event) :
  emitted (emitted w a) b = emitted w (a ++ b).
Proof. unfold emitted. simpl. now rewrite app_assoc. Qed.

Lemma emit_run (e : event) (w : world) : emit e w = (Ok tt, emitted w [e]).
Proof. reflexivity. Qed.

Lemma requests_get_run (url : string) (params : list (string * string)) (w : world) :
  requests_get url params w =
  (Ok (network w (sent w)), advanced w 1 [HttpGet url params]).
Proof. reflexivity. Qed.

Lemma advanced_emitted (w : world) (n : nat) (a b : list event) :
  emitted (advanced w n a) b = advanced w n (a ++ b).
Proof. unfold emitted, advanced. simpl. now rewrite app_assoc. Qed.

Lemma advanced_advanced (w : world) (n m : nat) (a b : list event) :
  advanced (advanced w n a) m b = advanced w (m + n) (a ++ b).
Proof. unfold advanced. simpl. now rewrite app_assoc, Nat.add_assoc. Qed.

Lemma emitted_advanced (w : world) (n : nat) (a b : list event) :
  advanced (emitted w a) n b = advanced w n (a ++ b).
Proof. unfold emitted, advanced. simpl. now rewrite app_assoc. Qed.

Ltac destruct_scrutinee :=
  first
    [ match goal with
      | |- context [match ?x with _ => _ end] =>
          lazymatch x with
          | context [match _ with _ => _ end] => fail
          | _ => destruct x eqn:?
          end
      end
    | match goal with
      | |- context [match ?x with _ => _ end] => destruct x eqn:?
      end ].


Ltac settle :=
  cbn;
  repeat match goal with
         | |- context [dict_get ?d "message"] => destruct (dict_get d "message")
         end;
  cbn; do 2 eexists; reflexivity.

Section Fetch.

Variable lower : string -> string.
Variable py_str : pyval -> string.

(** Reading a response never escapes the handler, writes one log record and
    hands the body back exactly when it is usable. *)
Lemma inspect_response_run (data : pyval) (w : world) :
  exists lv msg,
    try_except (inspect_response data) unexpected w =
    (Ok (if usable_response data then Some data else None),
     emitted w [Log lv msg]).
Proof.
  unfold try_except, inspect_response, unexpected, bind, lift, ret.
  unfold usable_response.
  destruct data as [| b | z | f | s | l | d]; cbn; try (settle).
  - destruct (contains "features" s); cbn; settle.
  - destruct (existsb (fun v => is_str v "features") l); cbn;
      settle.
  - destruct (dict_get d "features") as [fs|]; cbn;
      [|settle].
    destruct fs as [| b | z | f | s | l | d']; cbn;
      try (settle).
    + destruct (code_points s) as [|p ps]; cbn; [settle|].
      destruct (contains "geometry" p); cbn;
        settle.
    + destruct l as [|feature rest]; cbn; [settle|].
      destruct feature as [| b | z | f | s | l | fd]; cbn;
        try (settle).
      * destruct (contains "geometry" s); cbn; settle.
      * destruct (existsb (fun v => is_str v "geometry") l); cbn;
          settle.
      * destruct (dict_get fd "geometry") as [g|]; cbn;
          [|settle].
        destruct g as [| b | z | f | s | l | gd]; cbn;
          try (settle).
        destruct (dict_get gd "type") as [ty|]; cbn;
          [|settle].
        destruct ty as [| b | z | f | t | l | d']; cbn;
          try (settle).
        destruct (String.eqb t "LineString"); cbn;
          [|settle].
        destruct (dict_get gd "coordinates") as [cs|]; cbn;
          [|settle].
        destruct cs; cbn; settle.
    + destruct d' as [|kv d']; cbn; settle.
Qed.

Variable params : list (string * string).

Lemma attempt_timeout (a : nat) (rest : list nat) (d : Z) (w : world) :
  network w (sent w) = Timeout ->
  attempt_loop params (a :: rest) d w =
  if Z.of_nat a <? max_retries - 1
  then attempt_loop params rest (d * 2)
         (advanced w 1 [HttpGet routing_url params;
                        Log WARNING "Timeout na tentativa"; Sleep d])
  else attempt_loop params rest d
         (advanced w 1 [HttpGet routing_url params;
                        Log WARNING "Timeout na tentativa"]).
Proof.
  intros H. cbn [attempt_loop]. unfold bind at 1.
  rewrite requests_get_run, H. unfold bind at 1. rewrite emit_run.
  rewrite advanced_emitted. cbn [app].
  destruct (Z.of_nat a <? max_retries - 1); [|reflexivity].
  unfold bind at 1. rewrite emit_run, advanced_emitted. reflexivity.
Qed.

Lemma attempt_settles (a : nat) (rest : list nat) (d : Z) (w : world) :
  timed_out (network w (sent w)) = false ->
  exists lv msg,
    attempt_loop params (a :: rest) d w =
    (Ok (settled (network w (sent w))),
     advanced w 1 [HttpGet routing_url params; Log lv msg]).
Proof.
  intros H. cbn [attempt_loop]. unfold bind at 1. rewrite requests_get_run.
  destruct (network w (sent w)) as [| | | data]; [discriminate| | |].
  - exists ERROR, "Erro HTTP na API de routing".
    unfold bind. rewrite emit_run, advanced_emitted. reflexivity.
  - exists ERROR, "Erro inesperado na chamada à API".
    unfold bind. rewrite emit_run, advanced_emitted. reflexivity.
  - destruct (inspect_response_run data
                (advanced w 1 [HttpGet routing_url params])) as (lv & msg & E).
    exists lv, msg. unfold unexpected in E. cbn [settled].
    rewrite E, advanced_emitted. reflexivity.
Qed.

Lemma leading_timeouts_stop (net : nat -> http_outcome) (from l : nat) :
  timed_out (net from) = false -> leading_timeouts net from (S l) = O.
Proof. cbn. destruct (net from); [discriminate|reflexivity..]. Qed.

Lemma leading_timeouts_go (net : nat -> http_outcome) (from l : nat) :
  timed_out (net from) = true ->
  leading_timeouts net from (S l) = S (leading_timeouts net (S from) l).
Proof. cbn. destruct (net from); [reflexivity|discriminate..]. Qed.

Lemma timed_out_true (o : http_outcome) : timed_out o = true -> o = Timeout.
Proof. destruct o; [reflexivity|discriminate..]. Qed.

(** The whole loop: one request per leading timeout and one more if fewer
    than three timed out; a sleep of 2 after the first timeout and of 4 after
    the second; the value is settled by the first attempt that did not time
    out, and is None after three timeouts. *)
Lemma retry_loop_run (w : world) :
  let t := leading_timeouts (network w) (sent w) 3 in
  exists new,
    attempt_loop params [0; 1; 2]%nat 2 w =
    (Ok (if (t <? 3)%nat then settled (network w (t + sent w)) else None),
     advanced w (Nat.min (t + 1) 3) new) /\
    requests new = Nat.min (t + 1) 3 /\
    sleep_seconds new = firstn t [2; 4] /\
    (t = 3%nat ->
     new = [HttpGet routing_url params; Log WARNING "Timeout na tentativa"; Sleep 2;
            HttpGet routing_url params; Log WARNING "Timeout na tentativa"; Sleep 4;
            HttpGet routing_url params; Log WARNING "Timeout na tentativa"]) /\
    (t = 0%nat -> exists lv msg, new = [HttpGet routing_url params; Log lv msg]) /\
    (exists rest, new = HttpGet routing_url params :: rest) /\
    polylines new = [].
Proof.
  cbv zeta.
  destruct (timed_out (network w (sent w))) eqn:E0.
  2:{ rewrite (leading_timeouts_stop _ _ _ E0).
      destruct (attempt_settles 0 [1; 2]%nat 2 w E0) as (lv & msg & ->).
      eexists. repeat split; try discriminate; try (eexists; reflexivity).
      intros _. now exists lv, msg. }
  rewrite (leading_timeouts_go _ _ _ E0).
  rewrite (attempt_timeout 0 [1; 2]%nat 2 w (timed_out_true _ E0)).
  change (Z.of_nat 0 <? max_retries - 1) with true. cbv iota.
  set (w1 := advanced w 1 _).
  change (network w) with (network w1).
  change (S (sent w)) with (sent w1).
  destruct (timed_out (network w1 (sent w1))) eqn:E1.
  2:{ rewrite (leading_timeouts_stop _ _ _ E1).
      destruct (attempt_settles 1 [2]%nat (2 * 2) w1 E1) as (lv & msg & ->).
      subst w1. rewrite advanced_advanced.
      eexists. repeat split; try discriminate; try (eexists; reflexivity). }
  rewrite (leading_timeouts_go _ _ _ E1).
  rewrite (attempt_timeout 1 [2]%nat (2 * 2) w1 (timed_out_true _ E1)).
  change (Z.of_nat 1 <? max_retries - 1) with true. cbv iota.
  set (w2 := advanced w1 1 _).
  change (network w1) with (network w2).
  change (S (sent w1)) with (sent w2).
  destruct (timed_out (network w2 (sent w2))) eqn:E2.
  2:{ rewrite (leading_timeouts_stop _ _ _ E2).
      destruct (attempt_settles 2 []%nat (2 * 2 * 2) w2 E2) as (lv & msg & ->).
      subst w2 w1. rewrite !advanced_advanced.
      eexists. repeat split; try discriminate; try (eexists; reflexivity). }
  rewrite (leading_timeouts_go _ _ _ E2).
  rewrite (attempt_timeout 2 []%nat (2 * 2 * 2) w2 (timed_out_true _ E2)).
  change (Z.of_nat 2 <? max_retries - 1) with false. cbv iota.
  cbn [attempt_loop leading_timeouts]. unfold ret.
  subst w2 w1. rewrite !advanced_advanced.
  eexists. repeat split; try discriminate; try (eexists; reflexivity).
Qed.

End Fetch.

Section FetchRun.

Variable lower : string -> string.
Variable py_str : pyval -> string.

Lemma mapR_ok {A B} (f : A -> result B) (g : A -> B) (l : list A) :
  (forall x, In x l -> f x = Ok (g x)) -> mapR f l = Ok (map g l).
Proof.
  induction l as [|x l IH]; intros H; cbn.
  - reflexivity.
  - rewrite (H x (or_introl eq_refl)). cbn.
    rewrite IH by (intros y Hy; apply H; now right). reflexivity.
Qed.

Lemma point_str_ok (p : pyval) :
  has_lat_lon p = true -> point_str py_str p = Ok (coord_text py_str p).
Proof.
  destruct p as [| | | | | |d]; try discriminate.
  unfold point_str, coord_text, getitem, has_lat_lon, rbind.
  destruct (dict_get d "lat"), (dict_get d "lon"); try discriminate.
  reflexivity.
Qed.

Lemma valid_has_lat_lon (p : pyval) :
  valid_waypoint p = true -> has_lat_lon p = true.
Proof.
  destruct p as [| | | | | |d]; try discriminate.
  unfold valid_waypoint, has_lat_lon.
  destruct (dict_get d "lat"), (dict_get d "lon"); try discriminate.
  reflexivity.
Qed.

Lemma has_lat_lon_dict (p : pyval) : has_lat_lon p = true -> is_dict p = true.
Proof. destruct p; try discriminate. reflexivity. Qed.

Lemma request_points_text (s e : pyval) (wps : list pyval) :
  has_lat_lon s = true -> has_lat_lon e = true ->
  mapR (point_str py_str) (request_points s e wps) =
  Ok (map (coord_text py_str) ([s] ++ filter valid_waypoint wps ++ [e])).
Proof.
  intros Hs He. apply mapR_ok. intros p Hp. apply point_str_ok.
  unfold request_points in Hp. cbn in Hp.
  destruct Hp as [<-|Hp]; [exact Hs|].
  apply in_app_or in Hp as [Hp|[<-|[]]]; [|exact He].
  apply filter_In in Hp as [_ Hp]. now apply valid_has_lat_lon.
Qed.

(** A ready call is the retry loop after the announcement. *)
Lemma fetch_run (w : world) (s e : pyval) (wps : list pyval) (v k : string) :
  api_key w = Some k -> k <> "" ->
  has_lat_lon s = true -> has_lat_lon e = true ->
  let params := request_params lower py_str s e wps v k in
  let t := leading_timeouts (network w) (sent w) 3 in
  exists new,
    get_route_geometry lower py_str s e wps (PStr v) w =
    (Ok (if (t <? 3)%nat then settled (network w (t + sent w)) else None),
     advanced w (Nat.min (t + 1) 3) (info_request :: new)) /\
    requests new = Nat.min (t + 1) 3 /\
    sleep_seconds new = firstn t [2; 4] /\
    (t = 3%nat ->
     new = [HttpGet routing_url params; Log WARNING "Timeout na tentativa"; Sleep 2;
            HttpGet routing_url params; Log WARNING "Timeout na tentativa"; Sleep 4;
            HttpGet routing_url params; Log WARNING "Timeout na tentativa"]) /\
    (t = 0%nat -> exists lv msg, new = [HttpGet routing_url params; Log lv msg]) /\
    (exists rest, new = HttpGet routing_url params :: rest) /\
    polylines new = [].
Proof.
  intros Hk Hne Hs He params t.
  destruct (retry_loop_run params (emitted w [info_request]))
    as (new & Hrun & Hrest).
  exists new. split; [|exact Hrest].
  clear Hrest.
  unfold get_route_geometry, getenv.
  unfold bind at 1. rewrite Hk.
  apply String.eqb_neq in Hne. rewrite Hne.
  unfold bind at 1. cbn [str_lower lift].
  rewrite (has_lat_lon_dict s Hs), (has_lat_lon_dict e He), Hs, He.
  cbn [negb orb].
  unfold bind at 1. unfold lift at 1. rewrite (request_points_text s e wps Hs He).
  unfold try_except, bind at 1. rewrite emit_run.
  change (attempt_loop _ _ 2 _)
    with (attempt_loop params [0; 1; 2]%nat 2 (emitted w [info_request])).
  rewrite Hrun. cbn [network sent emitted]. fold t.
  f_equal. unfold advanced, emitted. cbn. now rewrite <- app_assoc.
Qed.

End FetchRun.


(** * The routing request *)

Section FetchClaims.

Variable lower : string -> string.
Variable py_str : pyval -> string.

Lemma fetch_without_key (start_point end_point : pyval) (waypoints : list pyval)
    (vehicle_type : pyval) (w : world) :
  api_key w = None \/ api_key w = Some "" ->
  get_route_geometry lower py_str start_point end_point waypoints vehicle_type w =
  (Ok None,
   emitted w
     [Log WARNING
        "API key Geoapify não encontrada no ambiente. Trajeto seguirá linha reta.";
      St WARNING
        "API key não configurada. Configure a variável de ambiente GEOAPIFY_API_KEY para obter rotas reais."]).
Proof.
  intros Hk. unfold get_route_geometry, getenv. unfold bind at 1.
  destruct Hk as [-> | ->]; cbn [String.eqb];
    unfold bind; rewrite !emit_run, emitted_emitted; reflexivity.
Qed.

(** C5. Without a configured, non-empty GEOAPIFY_API_KEY the fetcher returns
    None at once, whatever its arguments: it writes one logged and one
    user-visible warning and makes no request. *)
Theorem C5_missing_key_no_request :
  forall (start_point end_point : pyval) (waypoints : list pyval)
         (vehicle_type : pyval) (w : world),
    api_key w = None \/ api_key w = Some "" ->
    get_route_geometry lower py_str start_point end_point waypoints vehicle_type w =
      (Ok None,
       emitted w
         [Log WARNING
            "API key Geoapify não encontrada no ambiente. Trajeto seguirá linha reta.";
          St WARNING
            "API key não configurada. Configure a variável de ambiente GEOAPIFY_API_KEY para obter rotas reais."]) /\
    sent (snd (get_route_geometry lower py_str start_point end_point waypoints vehicle_type w)) = sent w /\
    requests
      (skipn (List.length (trace w))
         (trace (snd (get_route_geometry lower py_str start_point end_point waypoints vehicle_type w)))) = O.
Proof.
  intros s e wps vt w Hk.
  pose proof (fetch_without_key s e wps vt w Hk) as E.
  rewrite E. cbn [snd emitted sent trace]. repeat split.
  rewrite skipn_app, skipn_all, Nat.sub_diag. reflexivity.
Qed.

(** C4. A call that reaches the network makes one request per timeout met in
    a row and one more if fewer than three timed out, so three at most; it
    sleeps 2 seconds after the first timeout and 4 after the second, and
    nothing else makes it sleep or ask again; three timeouts in a row end in
    None after exactly three requests; an HTTP error or any other exception
    on the first attempt ends in None after that one request, with no sleep;
    whichever attempt did not time out settles the result. *)
Theorem C4_retry_policy :
  forall (w : world) (start_point end_point : pyval) (waypoints : list pyval)
         (vehicle_type : pyval),
    ready w start_point end_point vehicle_type ->
    let t := leading_timeouts (network w) (sent w) 3 in
    exists r new,
      get_route_geometry lower py_str start_point end_point waypoints vehicle_type w =
        (Ok r, advanced w (requests new) (info_request :: new)) /\
      (requests new <= 3)%nat /\
      requests new = Nat.min (t + 1) 3 /\
      sleep_seconds new = firstn t [2; 4] /\
      (t = 3%nat ->
       r = None /\ requests new = 3%nat /\ sleep_seconds new = [2; 4] /\
       exists params,
         new = [HttpGet routing_url params; Log WARNING "Timeout na tentativa"; Sleep 2;
                HttpGet routing_url params; Log WARNING "Timeout na tentativa"; Sleep 4;
                HttpGet routing_url params; Log WARNING "Timeout na tentativa"]) /\
      (network w (sent w) = HTTPError \/ network w (sent w) = OtherError ->
       r = None /\ requests new = 1%nat /\ sleep_seconds new = []) /\
      ((t < 3)%nat -> r = settled (network w (t + sent w))).
Proof.
  intros w s e wps vt ((k & Hk & Hne) & (v & ->) & Hs & He) t.
  destruct (fetch_run lower py_str w s e wps v k Hk Hne Hs He)
    as (new & Hrun & Hreq & Hsl & H3 & H0 & _ & _).
  fold t in Hrun, Hreq, Hsl, H3, H0.
  exists (if (t <? 3)%nat then settled (network w (t + sent w)) else None), new.
  rewrite Hreq. split; [exact Hrun|].
  split; [apply Nat.le_min_r|].
  split; [reflexivity|].
  split; [exact Hsl|].
  split; [|split].
  - intros Et. rewrite Et in *. repeat split; try assumption.
    eexists. apply H3. reflexivity.
  - intros Ho.
    assert (Et : t = 0%nat).
    { unfold t. apply leading_timeouts_stop.
      destruct Ho as [-> | ->]; reflexivity. }
    rewrite Et in *. cbn [Nat.ltb Nat.leb Nat.add].
    destruct Ho as [-> | ->]; repeat split; assumption.
  - intros Ht. apply Nat.ltb_lt in Ht. rewrite Ht. reflexivity.
Qed.

Lemma usable_response_shape (data : pyval) :
  usable_response data = true <->
  exists d fd rest gd,
    data = PDict d /\
    dict_get d "features" = Some (PList (PDict fd :: rest)) /\
    dict_get fd "geometry" = Some (PDict gd) /\
    (dict_get gd "type" = Some (PStr "LineString") ->
     forall cs, dict_get gd "coordinates" = Some cs -> sized cs = true).
Proof.
  split.
  - destruct data as [| | | | | |d]; try discriminate. cbn.
    destruct (dict_get d "features") as [[| | | | |[|[| | | | | |fd] rest]|]|] eqn:Hf;
      try discriminate.
    destruct (dict_get fd "geometry") as [[| | | | | |gd]|] eqn:Hg; try discriminate.
    intros H. exists d, fd, rest, gd. repeat split; try assumption.
    intros Hty cs Hcs. rewrite Hty, Hcs in H. exact H.
  - intros (d & fd & rest & gd & -> & Hf & Hg & H). cbn. rewrite Hf, Hg.
    destruct (dict_get gd "type") as [[| | | |t| |]|] eqn:Hty; try reflexivity.
    destruct (String.eqb t "LineString") eqn:Et; [|reflexivity].
    apply String.eqb_eq in Et. subst t.
    destruct (dict_get gd "coordinates") as [cs|] eqn:Hcs; [|reflexivity].
    now apply (H eq_refl).
Qed.

(** C6, amended. When an attempt ends in a decoded body, the fetcher returns
    that whole body if and only if it is usable: a dict whose 'features' is a
    non-empty list, whose first feature is a dict with a 'geometry' that is
    itself a dict (and whose coordinates, for a LineString, have a length).
    Every other shape gives None: no 'features', an empty 'features', a first
    feature without 'geometry'. *)
Theorem C6_response_shape :
  forall (w : world) (start_point end_point : pyval) (waypoints : list pyval)
         (vehicle_type data : pyval),
    ready w start_point end_point vehicle_type ->
    let t := leading_timeouts (network w) (sent w) 3 in
    (t < 3)%nat ->
    network w (t + sent w) = Json data ->
    (fst (get_route_geometry lower py_str start_point end_point waypoints vehicle_type w) = Ok (Some data) <->
     usable_response data = true) /\
    (usable_response data = false ->
     fst (get_route_geometry lower py_str start_point end_point waypoints vehicle_type w) = Ok None) /\
    (usable_response data = true <->
     exists d fd rest gd,
       data = PDict d /\
       dict_get d "features" = Some (PList (PDict fd :: rest)) /\
       dict_get fd "geometry" = Some (PDict gd) /\
       (dict_get gd "type" = Some (PStr "LineString") ->
        forall cs, dict_get gd "coordinates" = Some cs -> sized cs = true)) /\
    (forall d, data = PDict d -> dict_get d "features" = None ->
               usable_response data = false) /\
    (forall d, data = PDict d -> dict_get d "features" = Some (PList []) ->
               usable_response data = false) /\
    (forall d fd rest, data = PDict d ->
               dict_get d "features" = Some (PList (PDict fd :: rest)) ->
               dict_get fd "geometry" = None ->
               usable_response data = false).
Proof.
  intros w s e wps vt data ((k & Hk & Hne) & (v & ->) & Hs & He) t Ht Hdata.
  destruct (fetch_run lower py_str w s e wps v k Hk Hne Hs He)
    as (new & Hrun & _).
  fold t in Hrun. rewrite Hrun. cbn [fst].
  apply Nat.ltb_lt in Ht. rewrite Ht, Hdata. cbn [settled].
  repeat apply conj.
  - destruct (usable_response data); [reflexivity | discriminate].
  - destruct (usable_response data); [reflexivity | discriminate].
  - intros ->. reflexivity.
  - apply usable_response_shape.
  - apply usable_response_shape.
  - intros d -> Hf. cbn. now rewrite Hf.
  - intros d -> Hf. cbn. now rewrite Hf.
  - intros d fd rest -> Hf Hg. cbn. now rewrite Hf, Hg.
Qed.

(** C10. The intermediates kept for the request are exactly the waypoints
    that are dicts holding both 'lat' and 'lon' with a truth value; the first
    request of a ready call carries, in its 'waypoints' parameter, the texts
    "lat,lon" of the start, of the kept intermediates in their order and of
    the end, joined by a pipe; so a waypoint whose latitude or longitude is
    0, 0.0, None or the empty string is left out of the requested path. *)
Theorem C10_request_path :
  (forall wps wp,
      In wp (filter valid_waypoint wps) <->
      In wp wps /\
      exists d la lo,
        wp = PDict d /\ dict_get d "lat" = Some la /\ dict_get d "lon" = Some lo /\
        truthy la = true /\ truthy lo = true) /\
  (forall w s e wps vt,
      ready w s e vt ->
      exists v k rest,
        vt = PStr v /\ api_key w = Some k /\
        trace (snd (get_route_geometry lower py_str s e wps vt w)) =
        trace w ++ info_request ::
          HttpGet routing_url
            [("waypoints",
              join "|" (map (coord_text py_str)
                            ([s] ++ filter valid_waypoint wps ++ [e])));
             ("mode", mode_get vehicle_to_mode (lower v) "drive");
             ("details", "instruction_details,route_details");
             ("apiKey", k)] :: rest) /\
  (forall d v,
      dict_get d "lat" = Some v \/ dict_get d "lon" = Some v ->
      truthy v = false ->
      valid_waypoint (PDict d) = false /\
      forall s e pre post,
        request_points s e (pre ++ PDict d :: post) = request_points s e (pre ++ post)) /\
  truthy (PInt 0) = false /\ truthy (PFloat 0) = false /\
  truthy PNone = false /\ truthy (PStr "") = false.
Proof.
  repeat apply conj; try reflexivity.
  - intros wps wp. rewrite filter_In. split.
    + intros [Hin Hv]. split; [exact Hin|].
      destruct wp as [| | | | | |d]; try discriminate.
      unfold valid_waypoint in Hv.
      destruct (dict_get d "lat") as [la|] eqn:Hla; [|discriminate].
      destruct (dict_get d "lon") as [lo|] eqn:Hlo; [|discriminate].
      apply andb_true_iff in Hv as [H1 H2].
      exists d, la, lo. repeat split; assumption.
    + intros [Hin (d & la & lo & -> & Hla & Hlo & H1 & H2)].
      split; [exact Hin|]. unfold valid_waypoint. now rewrite Hla, Hlo, H1, H2.
  - intros w s e wps vt ((k & Hk & Hne) & (v & ->) & Hs & He).
    destruct (fetch_run lower py_str w s e wps v k Hk Hne Hs He)
      as (new & Hrun & _ & _ & _ & _ & (rest & ->) & _).
    exists v, k, rest. repeat split; [exact Hk|].
    rewrite Hrun. reflexivity.
  - intros d v Hv Hf.
    assert (Hno : valid_waypoint (PDict d) = false).
    { unfold valid_waypoint.
      destruct (dict_get d "lat") as [la|] eqn:Hla; [|reflexivity].
      destruct (dict_get d "lon") as [lo|] eqn:Hlo; [|reflexivity].
      destruct Hv as [Hv|Hv]; inversion Hv; subst; rewrite Hf;
        [reflexivity | apply andb_false_r]. }
    split; [exact Hno|].
    intros s e pre post. unfold request_points.
    rewrite !filter_app. cbn [filter]. now rewrite Hno.
Qed.

End FetchClaims.

(** * Extraction of coordinates *)


Lemma swap_coords_positions (l : list (pyval * pyval)) :
  swap_coords (positions l) = Ok (map swap l).
Proof.
  unfold swap_coords, positions. cbn [py_iter rbind].
  induction l as [|[lon lat] l IH]; cbn.
  - reflexivity.
  - cbn in IH. rewrite IH. reflexivity.
Qed.


Lemma mapR_lat_lon_points (l : list (pyval * pyval)) :
  mapR lat_lon (map (fun p => PDict [("lat", fst p); ("lon", snd p)]) l) = Ok l.
Proof.
  induction l as [|[la lo] l IH]; cbn.
  - reflexivity.
  - cbn in IH. rewrite IH. reflexivity.
Qed.

Lemma first_line_geometry_passed (skipped rest : list pyval) :
  forallb passed_over skipped = true ->
  first_line_geometry (skipped ++ rest) = first_line_geometry rest.
Proof.
  induction skipped as [|f skipped IH]; intros H; [reflexivity|].
  cbn [forallb] in H. apply andb_true_iff in H as [Hf Hs].
  cbn [app first_line_geometry]. unfold passed_over in Hf.
  destruct (contains_key "geometry" f) as [[|]|]; cbn [rbind];
    [| now apply IH | discriminate].
  destruct (getitem f "geometry") as [geom|]; [|discriminate]. cbn [rbind].
  destruct (getitem geom "type") as [ty|]; [|discriminate]. cbn [rbind].
  unfold is_line_type in Hf. apply negb_true_iff, orb_false_iff in Hf as [H1 H2].
  rewrite H1, H2. now apply IH.
Qed.

Lemma first_line_geometry_none (fs : list pyval) :
  forallb passed_over fs = true -> first_line_geometry fs = Ok None.
Proof.
  intros H. rewrite <- (app_nil_r fs).
  now rewrite first_line_geometry_passed.
Qed.

Section Extract.

Variable polyline_decode : pyval -> option (list (pyval * pyval)).

(** The search of shape (a) comes back empty-handed. *)
Lemma no_line_feature_found (d : list (string * pyval)) :
  no_line_feature d -> feature_geometry (PDict d) = Ok None.
Proof.
  intros [H | (fs & H & Hp)]; unfold feature_geometry; cbn; rewrite H; cbn.
  - reflexivity.
  - now apply first_line_geometry_none.
Qed.

Lemma extract_after_features (d : list (string * pyval)) :
  no_line_feature d ->
  extract_body polyline_decode (PDict d) = path_or_polyline polyline_decode (PDict d).
Proof.
  intros H. unfold extract_body.
  rewrite (no_line_feature_found d H). reflexivity.
Qed.



End Extract.

(** * Drawing routes *)


Lemma bind_run {A B} (m : M A) (k : A -> M B) (w w' : world) (a : A) :
  m w = (Ok a, w') -> bind m k w = k a w'.
Proof. intros H. unfold bind. now rewrite H. Qed.

Lemma bind_raise {A B} (m : M A) (k : A -> M B) (w w' : world) (e : exn) :
  m w = (Raise e, w') -> bind m k w = (Raise e, w').
Proof. intros H. unfold bind. now rewrite H. Qed.

Lemma advanced_zero (w : world) : advanced w 0 [] = w.
Proof. destruct w. unfold advanced. cbn. now rewrite app_nil_r. Qed.

Lemma lift_run {A} (r : result A) (w : world) : lift r w = (r, w).
Proof. reflexivity. Qed.

Lemma located_getitem (p la lo : pyval) :
  located p la lo -> getitem p "lat" = Ok la /\ getitem p "lon" = Ok lo.
Proof. intros (d & -> & H1 & H2). cbn. now rewrite H1, H2. Qed.

Lemma located_get (p la lo : pyval) (k : string) (dflt : pyval) :
  located p la lo -> exists v, py_get p k dflt = Ok v.
Proof.
  intros (d & -> & _). cbn. destruct (dict_get d k); eexists; reflexivity.
Qed.

Lemma located_lat_lon (p la lo : pyval) :
  located p la lo -> lat_lon p = Ok (la, lo).
Proof.
  intros H. destruct (located_getitem p la lo H) as [H1 H2].
  unfold lat_lon. now rewrite H1, H2.
Qed.

Lemma located_has_lat_lon (p la lo : pyval) :
  located p la lo -> has_lat_lon p = true.
Proof. intros (d & -> & H1 & H2). cbn. now rewrite H1, H2. Qed.

Lemma base_map_run (s e sla slo ela elo : pyval) (w : world) :
  located s sla slo -> located e ela elo ->
  midpoint_check sla ela = Ok tt -> midpoint_check slo elo = Ok tt ->
  base_map s e w = (Ok tt, emitted w [AddMarker sla slo; AddMarker ela elo]).
Proof.
  intros Hs He Hla Hlo.
  destruct (located_getitem _ _ _ Hs) as [Hs1 Hs2].
  destruct (located_getitem _ _ _ He) as [He1 He2].
  unfold base_map, bind, lift. rewrite Hs1, He1, Hla, Hs2, He2, Hlo.
  rewrite !emit_run, emitted_emitted. reflexivity.
Qed.

Lemma waypoint_marker_run (wp la lo : pyval) (w : world) :
  located wp la lo -> waypoint_marker wp w = (Ok tt, emitted w [AddMarker la lo]).
Proof.
  intros H. destruct (located_getitem _ _ _ H) as [H1 H2].
  destruct (located_get _ _ _ "name" (PStr "Não informado") H) as [v1 Hv1].
  destruct (located_get _ _ _ "person_id" (PStr "N/A") H) as [v2 Hv2].
  unfold waypoint_marker, bind, lift. rewrite Hv1, Hv2, H1, H2.
  apply emit_run.
Qed.

Lemma for_flag_unchanged {A} (l : list A) (body : A -> bool -> M bool)
    (flag : bool) (w : world) :
  (forall x, In x l -> body x flag w = (Ok flag, w)) ->
  for_flag l body flag w = (Ok flag, w).
Proof.
  induction l as [|x l IH]; intros H; cbn [for_flag].
  - reflexivity.
  - rewrite (bind_run _ _ _ _ _ (H x (or_introl eq_refl))).
    apply IH. intros y Hy. apply H. now right.
Qed.

Section Display.

Variable lower : string -> string.
Variable py_str : pyval -> string.

(** Either the fetcher stops before the network, with None or with the
    AttributeError of a vehicle type that is no string, or the call is
    ready. *)
Lemma fetch_cases (s e : pyval) (wps : list pyval) (vt : pyval) (w : world) :
  (exists r evs,
      get_route_geometry lower py_str s e wps vt w = (r, emitted w evs) /\
      (r = Ok None \/ r = Raise AttributeError) /\ polylines evs = []) \/
  (exists k v,
      api_key w = Some k /\ k <> "" /\ vt = PStr v /\
      has_lat_lon s = true /\ has_lat_lon e = true).
Proof.
  destruct (api_key w) as [k|] eqn:Hk.
  2:{ left. eexists _, _. rewrite (fetch_without_key lower py_str s e wps vt w (or_introl Hk)).
      repeat split. now left. }
  destruct (String.eqb k "") eqn:Hne.
  { apply String.eqb_eq in Hne. subst k.
    left. eexists _, _. rewrite (fetch_without_key lower py_str s e wps vt w (or_intror Hk)).
    repeat split. now left. }
  destruct vt as [| | | |v| |];
    try (left; exists (Raise AttributeError), [];
         split; [|split; [now right | reflexivity]];
         unfold get_route_geometry, getenv; unfold bind at 1; rewrite Hk, Hne;
         unfold bind at 1; cbn [str_lower lift]; now rewrite emitted_nil).
  destruct (has_lat_lon s) eqn:Hs.
  2:{ left. unfold get_route_geometry, getenv. unfold bind at 1. rewrite Hk, Hne.
      unfold bind at 1. cbn [str_lower lift]. rewrite Hs.
      destruct (negb (is_dict s) || negb (is_dict e));
        cbn [negb orb]; unfold bind, ret; rewrite emit_run;
        exists (Ok None); eexists; repeat split; now left. }
  destruct (has_lat_lon e) eqn:He.
  2:{ left. unfold get_route_geometry, getenv. unfold bind at 1. rewrite Hk, Hne.
      unfold bind at 1. cbn [str_lower lift]. rewrite Hs, He.
      destruct (negb (is_dict s) || negb (is_dict e));
        cbn [negb orb]; unfold bind, ret; rewrite emit_run;
        exists (Ok None); eexists; repeat split; now left. }
  right. apply String.eqb_neq in Hne. exists k, v. repeat split; assumption.
Qed.

(** The fetcher changes the world by some requests and events, none of
    which draws a line. *)
Lemma fetch_frame (s e : pyval) (wps : list pyval) (vt : pyval) (w : world) :
  exists r n new,
    get_route_geometry lower py_str s e wps vt w = (r, advanced w n new) /\
    polylines new = [].
Proof.
  destruct (fetch_cases s e wps vt w)
    as [(r & evs & E & _ & Hp) | (k & v & Hk & Hne & -> & Hs & He)].
  - exists r, 0%nat, evs. split; [exact E | exact Hp].
  - destruct (fetch_run lower py_str w s e wps v k Hk Hne Hs He)
      as (new & Hrun & _ & _ & _ & _ & _ & Hp).
    eexists _, _, _. split; [exact Hrun | exact Hp].
Qed.

(** What is known when the fetcher hands a body back. *)
Lemma fetch_some_inv (s e : pyval) (wps : list pyval) (vt data : pyval)
    (w w1 : world) :
  get_route_geometry lower py_str s e wps vt w = (Ok (Some data), w1) ->
  usable_response data = true /\
  has_lat_lon s = true /\ has_lat_lon e = true /\
  (exists n, network w n = Json data) /\
  exists n new, w1 = advanced w n new /\ polylines new = [].
Proof.
  intros H.
  destruct (fetch_cases s e wps vt w)
    as [(r & evs & E & [-> | ->] & Hp) | (k & v & Hk & Hne & -> & Hs & He)];
    try (rewrite E in H; discriminate).
  destruct (fetch_run lower py_str w s e wps v k Hk Hne Hs He)
    as (new & Hrun & _ & _ & _ & _ & _ & Hp).
  remember (leading_timeouts (network w) (sent w) 3) as t eqn:Et.
  clear Et. rewrite Hrun in H. apply pair_equal_spec in H as [Hr Hw].
  injection Hr as Hr. subst w1.
  revert Hr.
  destruct (t <? 3)%nat; [|discriminate].
  set (n := (t + sent w)%nat).
  destruct (network w n) as [| | | body] eqn:Hn; try discriminate.
  cbn [settled].
  destruct (usable_response body) eqn:Hu; [|discriminate].
  intros [= <-].
  repeat split; try assumption.
  - now exists n.
  - eexists _, _. split; [reflexivity | exact Hp].
Qed.

Lemma py_get_vehicle_type (rd : list (string * pyval)) :
  py_get (PDict rd) "vehicle_type" (PStr "car") = Ok (vehicle_type_of rd).
Proof. unfold vehicle_type_of. cbn. destruct (dict_get rd "vehicle_type"); reflexivity. Qed.

Lemma api_line_none (rd : list (string * pyval)) (s e : pyval)
    (wps : list pyval) (color : string) (w w' : world) :
  get_route_geometry lower py_str s e wps (vehicle_type_of rd) w = (Ok None, w') ->
  api_line lower py_str (PDict rd) s e wps color w = (Ok false, w').
Proof.
  intros H. unfold api_line, try_except.
  rewrite (bind_run _ _ w w (vehicle_type_of rd))
    by (rewrite lift_run, py_get_vehicle_type; reflexivity).
  rewrite (bind_run _ _ _ _ _ H). reflexivity.
Qed.

Lemma embedded_line_none (rd : list (string * pyval)) (color : string) (w : world) :
  no_embedded_line rd ->
  embedded_line (PDict rd) color false w = (Ok false, w).
Proof.
  intros [H | (fs & H & Hfs)]; unfold embedded_line; cbn [negb];
    unfold bind at 1; rewrite lift_run; cbn [contains_key]; rewrite H; cbn [is_some].
  - reflexivity.
  - unfold bind at 1. rewrite lift_run. cbn [getitem]. rewrite H.
    unfold bind at 1. rewrite lift_run. cbn [py_iter].
    apply for_flag_unchanged. intros f Hf.
    rewrite forallb_forall in Hfs. specialize (Hfs f Hf). unfold no_line in Hfs.
    unfold bind. rewrite lift_run.
    destruct (has_line_geometry f) as [[|]|]; try discriminate. reflexivity.
Qed.

Lemma fallback_line_run (s e : pyval) (wps : list pyval) (color : string)
    (pts : list (pyval * pyval)) (w : world) :
  straight_points s e wps = Ok pts ->
  fallback_line s e wps color false w =
  (Ok true,
   emitted w [AddPolyLine pts color (mkStyle 3 0.5 (Some "5, 5"));
              AddHtml warning_html; St WARNING fallback_warning]).
Proof.
  intros H. unfold fallback_line, try_except. cbn [negb].
  unfold bind, lift. rewrite H, !emit_run, !emitted_emitted. reflexivity.
Qed.

(** C9. When the fetcher yields no geometry and the route data embed none,
    a route with exactly one waypoint is drawn as one dashed polyline
    ('5, 5') through start, waypoint and end, in that order: it is the only
    polyline on the map, the warning box and the user-visible warning follow
    it, and the flag [line_added] ends up true. *)
Theorem C9_one_waypoint_fallback :
  forall (rd : list (string * pyval)) (s e wp : pyval) (color : string)
         (w : world) (sla slo ela elo wla wlo : pyval),
    located s sla slo -> located e ela elo -> located wp wla wlo ->
    midpoint_check sla ela = Ok tt -> midpoint_check slo elo = Ok tt ->
    no_embedded_line rd ->
    let markers := [AddMarker sla slo; AddMarker ela elo; AddMarker wla wlo] in
    fst (get_route_geometry lower py_str s e [wp] (vehicle_type_of rd)
           (emitted w markers)) = Ok None ->
    exists n new,
      display_route_on_map lower py_str (PDict rd) s e [wp] color w =
      (Ok true,
       advanced w n
         (markers ++ new ++
          [AddPolyLine [(sla, slo); (wla, wlo); (ela, elo)] color
             (mkStyle 3 0.5 (Some "5, 5"));
           AddHtml warning_html;
           St WARNING fallback_warning])) /\
      polylines new = [].
Proof.
  intros rd s e wp color w sla slo ela elo wla wlo Hs He Hwp Hla Hlo Hrd markers Hfetch.
  destruct (fetch_frame s e [wp] (vehicle_type_of rd) (emitted w markers))
    as (r & n & new & Hrun & Hnew).
  rewrite Hrun in Hfetch. cbn [fst] in Hfetch. subst r.
  exists n, new. split; [|exact Hnew].
  unfold display_route_on_map.
  rewrite (bind_run _ _ _ _ _ (base_map_run s e sla slo ela elo w Hs He Hla Hlo)).
  cbn [for_each].
  rewrite (bind_run _ _ _ _ tt
             (bind_run _ _ _ _ _ (waypoint_marker_run wp wla wlo _ Hwp))).
  unfold ret at 1. rewrite emitted_emitted. cbn [app]. fold markers.
  rewrite (bind_run _ _ _ _ _ (api_line_none rd s e [wp] color _ _ Hrun)).
  rewrite (bind_run _ _ _ _ _ (embedded_line_none rd color _ Hrd)).
  assert (Hpts : straight_points s e [wp] = Ok [(sla, slo); (wla, wlo); (ela, elo)]).
  { unfold straight_points. cbn [mapR].
    rewrite (located_lat_lon _ _ _ Hs), (located_lat_lon _ _ _ He),
      (located_lat_lon _ _ _ Hwp). reflexivity. }
  rewrite (bind_run _ _ _ _ _ (fallback_line_run s e [wp] color _ _ Hpts)).
  unfold ret. f_equal. rewrite emitted_advanced, advanced_emitted.
  now rewrite <- app_assoc.
Qed.

Lemma fetch_some_shape (s e : pyval) (wps : list pyval) (vt data : pyval)
    (w w1 : world) :
  get_route_geometry lower py_str s e wps vt w = (Ok (Some data), w1) ->
  exists d,
    data = PDict d /\ is_some (dict_get d "features") = true /\
    truthy data = true /\
    (exists n, network w n = Json data) /\
    polylines (skipn (List.length (trace w)) (trace w1)) = [].
Proof.
  intros H.
  destruct (fetch_some_inv s e wps vt data w w1 H)
    as (Hu & _ & _ & Hn & (n & new & -> & Hp)).
  apply usable_response_shape in Hu as (d & fd & rest & gd & -> & Hf & _).
  exists d. repeat split; try assumption.
  - now rewrite Hf.
  - cbn. destruct d; [discriminate | reflexivity].
  - cbn [advanced trace]. now rewrite skipn_app, skipn_all, Nat.sub_diag.
Qed.

Lemma route_map_api_run (s e : pyval) (wps : list pyval)
    (d : list (string * pyval)) (w w1 : world) :
  get_route_geometry lower py_str s e wps (PStr "car") w = (Ok (Some (PDict d)), w1) ->
  truthy (PDict d) = true ->
  top_type_not_line d ->
  exists msgs,
    route_map_api lower py_str s e wps false w = (Ok false, emitted w1 msgs) /\
    polylines msgs = [].
Proof.
  intros H Ht Hd. unfold route_map_api, try_except. cbn [negb].
  rewrite (bind_run _ _ _ _ _ H). rewrite Ht.
  unfold bind at 1. rewrite lift_run. cbn [getitem].
  destruct Hd as [Hd | (ty & Hd & Hty)]; rewrite Hd.
  - exists [St WARNING "Erro ao obter rota da API"].
    unfold bind. rewrite emit_run. split; reflexivity.
  - unfold is_line_type in Hty. apply orb_false_iff in Hty as [H1 H2].
    rewrite H1, H2. exists []. rewrite emitted_nil. split; reflexivity.
Qed.

Lemma route_map_fallback_run (s e : pyval) (wps : list pyval)
    (pts : list (pyval * pyval)) (w : world) :
  straight_points s e wps = Ok pts ->
  route_map_fallback s e wps false w =
  (Ok tt, emitted w [AddPolyLine pts "blue" (mkStyle 3 0.5 (Some "5, 5"));
                     AddHtml warning_html; St WARNING route_map_warning]).
Proof.
  intros H. unfold route_map_fallback. cbn [negb].
  unfold bind, lift. rewrite H, !emit_run, !emitted_emitted. reflexivity.
Qed.

Lemma method3_run (s e route_data vehicle model : pyval) (vtype : string)
    (passengers : list pyval) (color : string) (style : line_style)
    (d : list (string * pyval)) (w w1 : world) :
  getitem vehicle "model" = Ok model ->
  get_vehicle_type lower model = Ok vtype ->
  get_route_geometry lower py_str s e passengers (PStr vtype) w = (Ok (Some (PDict d)), w1) ->
  truthy (PDict d) = true ->
  top_type_not_line d ->
  exists msgs,
    method3 lower py_str s e route_data vehicle passengers color style false w =
      (Ok false, emitted w1 msgs) /\
    polylines msgs = [].
Proof.
  intros Hm Hv H Ht Hd. unfold method3, try_except. cbn [negb].
  assert (Hhas : contains_key "model" vehicle = Ok true).
  { destruct vehicle; try discriminate. cbn in *.
    destruct (dict_get d0 "model"); [reflexivity | discriminate]. }
  unfold bind at 1. rewrite lift_run, Hhas.
  unfold bind at 1. unfold bind at 1. rewrite lift_run, Hm, lift_run, Hv.
  rewrite (bind_run _ _ _ _ _ H). rewrite Ht.
  unfold bind at 1. rewrite lift_run. cbn [getitem].
  destruct Hd as [Hd | (ty & Hd & Hty)]; rewrite Hd.
  - exists [St WARNING "Erro ao obter rota da API para rota"].
    unfold bind. rewrite emit_run. split; reflexivity.
  - unfold is_line_type in Hty. apply orb_false_iff in Hty as [H1 H2].
    rewrite H1, H2. exists []. rewrite emitted_nil. split; reflexivity.
Qed.

Lemma method4_run (s e : pyval) (passengers : list pyval) (color : string)
    (style : line_style) (pts : list (pyval * pyval)) (w : world) :
  straight_points s e passengers = Ok pts ->
  method4 s e passengers color style false w =
  (Ok false,
   emitted w [AddPolyLine pts color (mkStyle (weight style) 0.5 (Some "5, 5"));
              St WARNING multi_route_warning]).
Proof.
  intros H. unfold method4, try_except. cbn [negb].
  unfold bind, lift. rewrite H, !emit_run, !emitted_emitted. reflexivity.
Qed.

(** C2. In step 2 of display_route_map and in method 3 of
    display_multiple_routes_on_map, what the fetcher hands back is the whole
    decoded body of a response, a dict with a 'features' key.  With the
    top-level 'type' of that body neither LineString nor MultiLineString (a
    FeatureCollection, as the routing API answers), the caller's tests of
    route_geom['type'] do not match: no line is drawn from the API answer,
    the flag stays false and the dashed straight line is drawn next. *)
Theorem C2_api_answer_read_as_geometry :
  (forall s e wps w data w1 pts,
      get_route_geometry lower py_str s e wps (PStr "car") w = (Ok (Some data), w1) ->
      straight_points s e wps = Ok pts ->
      exists d,
        data = PDict d /\ is_some (dict_get d "features") = true /\
        (exists n, network w n = Json data) /\
        polylines (skipn (List.length (trace w)) (trace w1)) = [] /\
        (top_type_not_line d ->
         exists msgs,
           route_map_api lower py_str s e wps false w = (Ok false, emitted w1 msgs) /\
           polylines msgs = [] /\
           route_map_fallback s e wps false (emitted w1 msgs) =
           (Ok tt,
            emitted w1
              (msgs ++ [AddPolyLine pts "blue" (mkStyle 3 0.5 (Some "5, 5"));
                        AddHtml warning_html; St WARNING route_map_warning])))) /\
  (forall s e route_data vehicle model vtype passengers color style w data w1 pts,
      getitem vehicle "model" = Ok model ->
      get_vehicle_type lower model = Ok vtype ->
      get_route_geometry lower py_str s e passengers (PStr vtype) w = (Ok (Some data), w1) ->
      straight_points s e passengers = Ok pts ->
      exists d,
        data = PDict d /\ is_some (dict_get d "features") = true /\
        (exists n, network w n = Json data) /\
        polylines (skipn (List.length (trace w)) (trace w1)) = [] /\
        (top_type_not_line d ->
         exists msgs,
           method3 lower py_str s e route_data vehicle passengers color style false w =
             (Ok false, emitted w1 msgs) /\
           polylines msgs = [] /\
           method4 s e passengers color style false (emitted w1 msgs) =
           (Ok false,
            emitted w1
              (msgs ++ [AddPolyLine pts color
                          (mkStyle (weight style) 0.5 (Some "5, 5"));
                        St WARNING multi_route_warning])))).
Proof.
  split.
  - intros s e wps w data w1 pts H Hpts.
    destruct (fetch_some_shape s e wps _ data w w1 H)
      as (d & -> & Hf & Ht & Hn & Hp).
    exists d. repeat split; try assumption.
    intros Hd.
    destruct (route_map_api_run s e wps d w w1 H Ht Hd) as (msgs & Hrun & Hm).
    exists msgs. repeat split; try assumption.
    rewrite (route_map_fallback_run s e wps pts _ Hpts), emitted_emitted.
    reflexivity.
  - intros s e route_data vehicle model vtype passengers color style w data w1 pts
           Hmodel Hv H Hpts.
    destruct (fetch_some_shape s e passengers _ data w w1 H)
      as (d & -> & Hf & Ht & Hn & Hp).
    exists d. repeat split; try assumption.
    intros Hd.
    destruct (method3_run s e route_data vehicle model vtype passengers color
                style d w w1 Hmodel Hv H Ht Hd) as (msgs & Hrun & Hm).
    exists msgs. repeat split; try assumption.
    rewrite (method4_run s e passengers color style pts _ Hpts), emitted_emitted.
    reflexivity.
Qed.

End Display.

(** * The flag [line_added] *)

Lemma bind_ok_inv {A B} (m : M A) (k : A -> M B) (w w'' : world) (b : B) :
  bind m k w = (Ok b, w'') ->
  exists a w', m w = (Ok a, w') /\ k a w' = (Ok b, w'').
Proof.
  unfold bind. destruct (m w) as [[a|e] w']; [|discriminate].
  intros H. now exists a, w'.
Qed.

Lemma base_map_ok_inv (s e : pyval) (w w' : world) :
  base_map s e w = (Ok tt, w') ->
  (exists p, lat_lon s = Ok p) /\ (exists p, lat_lon e = Ok p).
Proof.
  unfold base_map, lat_lon, bind, lift.
  destruct (getitem s "lat") as [sla|]; [|discriminate].
  destruct (getitem e "lat") as [ela|]; [|discriminate].
  destruct (midpoint_check sla ela); [|discriminate].
  destruct (getitem s "lon") as [slo|]; [|discriminate].
  destruct (getitem e "lon") as [elo|]; [|discriminate].
  intros _. split; eexists; reflexivity.
Qed.

Lemma waypoint_marker_ok_inv (wp : pyval) (w w' : world) :
  waypoint_marker wp w = (Ok tt, w') -> exists p, lat_lon wp = Ok p.
Proof.
  unfold waypoint_marker, lat_lon, bind, lift.
  destruct (py_get wp "name" _); [|discriminate].
  destruct (py_get wp "person_id" _); [|discriminate].
  destruct (getitem wp "lat"); [|discriminate].
  destruct (getitem wp "lon"); [|discriminate].
  intros _. eexists; reflexivity.
Qed.

Lemma markers_ok_inv (wps : list pyval) (w w' : world) :
  for_each wps waypoint_marker w = (Ok tt, w') ->
  exists l, mapR lat_lon wps = Ok l.
Proof.
  revert w. induction wps as [|wp wps IH]; intros w H; cbn [for_each mapR] in *.
  - now exists [].
  - apply bind_ok_inv in H as ([] & w1 & H1 & H2).
    destruct (waypoint_marker_ok_inv wp w w1 H1) as [p ->].
    destruct (IH w1 H2) as [l ->]. eexists; reflexivity.
Qed.

Section LineAdded.

Variable lower : string -> string.
Variable py_str : pyval -> string.

(** Whenever [display_route_on_map] gets to display its map, the flag
    [line_added] is true: its last resort sets the flag after drawing. *)
Lemma display_route_on_map_line_added (route_data s e : pyval)
    (wps : list pyval) (color : string) (w w' : world) (flag : bool) :
  display_route_on_map lower py_str route_data s e wps color w = (Ok flag, w') ->
  flag = true.
Proof.
  unfold display_route_on_map. intros H.
  apply bind_ok_inv in H as ([] & w1 & Hbase & H).
  apply bind_ok_inv in H as ([] & w2 & Hmarks & H).
  apply bind_ok_inv in H as (f1 & w3 & _ & H).
  apply bind_ok_inv in H as (f2 & w4 & _ & H).
  apply bind_ok_inv in H as (f3 & w5 & Hfall & H).
  unfold ret in H. injection H as <- _.
  destruct (base_map_ok_inv s e w w1 Hbase) as [[ps Hs] [pe He]].
  destruct (markers_ok_inv wps w1 w2 Hmarks) as [l Hl].
  destruct f2.
  - unfold fallback_line in Hfall. cbn [negb] in Hfall. unfold ret in Hfall.
    now injection Hfall as <- _.
  - assert (Hpts : straight_points s e wps = Ok ([ps] ++ l ++ [pe]))
      by (unfold straight_points; now rewrite Hs, Hl, He).
    rewrite (fallback_line_run s e wps color _ w4 Hpts) in Hfall.
    now injection Hfall as <- _.
Qed.

End LineAdded.

(** C1, at route data whose feature is a MultiLineString without segments.
    Both entry points set [line_added] after their loop over the segments
    although the loop has drawn nothing, and skip every later step: the map
    gets the markers and no polyline at all, and nothing tells the user
    that the path is missing ([display_route_on_map] only repeats the
    warnings of the missing key).  Besides, where the multi-route renderer
    does draw its dashed straight line, the flag is still false at the end
    of the route. *)
Theorem C1_empty_multiline_omits_the_path :
  display_route_on_map lower_latin1 sample_str (PDict empty_multiline_data)
    garage plant [stop_ana] "blue" world_without_key =
  (Ok true,
   emitted world_without_key
     ([AddMarker (PInt (-23)) (PInt (-46)); AddMarker (PInt (-22)) (PInt (-47));
       AddMarker (PInt (-24)) (PInt (-45))] ++ key_warnings)) /\
  display_multiple_routes_on_map lower_latin1 sample_str sample_md5
    [route_empty_multiline] garage plant (world_with_key offline) =
  (Ok [true],
   emitted (world_with_key offline)
     [AddMarker (PInt (-23)) (PInt (-46)); AddMarker (PInt (-22)) (PInt (-47));
      AddMarker (PInt (-24)) (PInt (-45))]) /\
  fst (display_multiple_routes_on_map lower_latin1 sample_str sample_md5 [route_van]
         garage plant world_without_key) = Ok [false] /\
  polylines (trace (snd (display_multiple_routes_on_map lower_latin1 sample_str
                           sample_md5 [route_van] garage plant world_without_key))) =
    [([(PInt (-23), PInt (-46)); (PInt (-24), PInt (-45)); (PInt (-22), PInt (-47))],
      "#6633CC", mkStyle 4 0.5 (Some "5, 5"))].
Proof. repeat split; vm_compute; reflexivity. Qed.

(** * The theorems at concrete inputs *)

Lemma ready_with_key (net : nat -> http_outcome) (v : string) :
  ready (world_with_key net) garage plant (PStr v).
Proof.
  repeat split.
  - exists "k3y". split; [reflexivity | discriminate].
  - now exists v.
Defined.

Lemma C5_missing_key_no_request_witness :
  api_key world_without_key = None /\
  fst (get_route_geometry lower_latin1 sample_str garage plant [stop_ana] (PStr "car")
         world_without_key) = Ok None /\
  sent (snd (get_route_geometry lower_latin1 sample_str garage plant [stop_ana] (PStr "car")
               world_without_key)) = O.
Proof.
  split; [reflexivity|].
  destruct (C5_missing_key_no_request lower_latin1 sample_str garage plant [stop_ana]
              (PStr "car") world_without_key (or_introl eq_refl)) as (E & Hs & _).
  rewrite E. split; reflexivity.
Defined.

Lemma C4_retry_policy_witness :
  ready (world_with_key offline) garage plant (PStr "car") /\
  exists r new,
    get_route_geometry lower_latin1 sample_str garage plant [stop_ana] (PStr "car")
      (world_with_key offline) =
    (Ok r, advanced (world_with_key offline) (requests new) (info_request :: new)) /\
    requests new = 3%nat /\ sleep_seconds new = [2; 4] /\ r = None.
Proof.
  split; [apply ready_with_key|].
  destruct (C4_retry_policy lower_latin1 sample_str (world_with_key offline) garage plant
              [stop_ana] (PStr "car") (ready_with_key offline "car"))
    as (r & new & Hrun & _ & _ & _ & H3 & _).
  destruct (H3 eq_refl) as (Hr & Hreq & Hsl & _).
  exists r, new. repeat split; assumption.
Defined.

Lemma C6_response_shape_witness :
  usable_response feature_collection = true /\
  fst (get_route_geometry lower_latin1 sample_str garage plant [stop_ana] (PStr "car")
         (world_with_key (answering feature_collection))) =
  Ok (Some feature_collection).
Proof.
  split; [reflexivity|].
  apply (proj1 (C6_response_shape lower_latin1 sample_str
                  (world_with_key (answering feature_collection))
                  garage plant [stop_ana] (PStr "car") feature_collection
                  (ready_with_key _ "car") (Nat.lt_0_succ 2) eq_refl)).
  reflexivity.
Defined.

(** A body whose features list is not empty and whose first feature has a
    'geometry' key, null as GeoJSON allows, is answered with None. *)
Lemma C6_null_geometry_is_refused :
  getitem null_geometry_body "features" = Ok (PList [PDict [("geometry", PNone)]]) /\
  contains_key "geometry" (PDict [("geometry", PNone)]) = Ok true /\
  get_route_geometry lower_latin1 sample_str garage plant [] (PStr "car")
    (world_with_key (answering null_geometry_body)) =
  (Ok None,
   advanced (world_with_key (answering null_geometry_body)) 1
     [info_request;
      HttpGet routing_url
        [("waypoints", "-23,-46|-22,-47"); ("mode", "drive");
         ("details", "instruction_details,route_details"); ("apiKey", "k3y")];
      Log ERROR "Erro inesperado na chamada à API"]).
Proof. repeat split. Qed.

Lemma C10_request_path_witness :
  ready (world_with_key offline) garage plant (PStr "Van") /\
  valid_waypoint stop_rui = false /\
  exists k rest,
    api_key (world_with_key offline) = Some k /\
    trace (snd (get_route_geometry lower_latin1 sample_str garage plant [stop_rui; stop_ana]
                  (PStr "Van") (world_with_key offline))) =
    trace (world_with_key offline) ++ info_request ::
      HttpGet routing_url
        [("waypoints", "-23,-46|-24,-45|-22,-47"); ("mode", "drive");
         ("details", "instruction_details,route_details"); ("apiKey", k)] :: rest.
Proof.
  split; [apply ready_with_key|]. split; [reflexivity|].
  destruct (proj1 (proj2 (C10_request_path lower_latin1 sample_str))
              (world_with_key offline) garage plant [stop_rui; stop_ana] (PStr "Van")
              (ready_with_key offline "Van")) as (v & k & rest & Hv & Hk & Htr).
  injection Hv as <-.
  exists k, rest. split; [exact Hk | exact Htr].
Defined.


Lemma C9_one_waypoint_fallback_witness :
  fst (get_route_geometry lower_latin1 sample_str garage plant [stop_ana] (PStr "car")
         (emitted world_without_key
            [AddMarker (PInt (-23)) (PInt (-46)); AddMarker (PInt (-22)) (PInt (-47));
             AddMarker (PInt (-24)) (PInt (-45))])) = Ok None /\
  exists n new,
    display_route_on_map lower_latin1 sample_str (PDict []) garage plant [stop_ana] "blue"
      world_without_key =
    (Ok true,
     advanced world_without_key n
       ([AddMarker (PInt (-23)) (PInt (-46)); AddMarker (PInt (-22)) (PInt (-47));
         AddMarker (PInt (-24)) (PInt (-45))] ++ new ++
        [AddPolyLine
           [(PInt (-23), PInt (-46)); (PInt (-24), PInt (-45)); (PInt (-22), PInt (-47))]
           "blue" (mkStyle 3 0.5 (Some "5, 5"));
         AddHtml warning_html; St WARNING fallback_warning])) /\
    polylines new = [].
Proof.
  split; [reflexivity|].
  apply (C9_one_waypoint_fallback lower_latin1 sample_str [] garage plant stop_ana "blue"
           world_without_key (PInt (-23)) (PInt (-46)) (PInt (-22)) (PInt (-47))
           (PInt (-24)) (PInt (-45))).
  - eexists. repeat split.
  - eexists. repeat split.
  - eexists. repeat split.
  - reflexivity.
  - reflexivity.
  - left. reflexivity.
  - reflexivity.
Defined.

Lemma C2_api_answer_read_as_geometry_witness :
  get_route_geometry lower_latin1 sample_str garage plant [stop_ana] (PStr "car")
    (world_with_key (answering feature_collection)) =
  (Ok (Some feature_collection),
   snd (get_route_geometry lower_latin1 sample_str garage plant [stop_ana] (PStr "car")
          (world_with_key (answering feature_collection)))) /\
  fst (route_map_api lower_latin1 sample_str garage plant [stop_ana] false
         (world_with_key (answering feature_collection))) = Ok false /\
  polylines
    (trace (snd (route_map_api lower_latin1 sample_str garage plant [stop_ana] false
                   (world_with_key (answering feature_collection))))) = [].
Proof.
  assert (H : get_route_geometry lower_latin1 sample_str garage plant [stop_ana] (PStr "car")
                (world_with_key (answering feature_collection)) =
              (Ok (Some feature_collection),
               snd (get_route_geometry lower_latin1 sample_str garage plant [stop_ana] (PStr "car")
                      (world_with_key (answering feature_collection)))))
    by (vm_compute; reflexivity).
  split; [exact H|].
  destruct (proj1 (C2_api_answer_read_as_geometry lower_latin1 sample_str)
              garage plant [stop_ana] _ feature_collection _
              [(PInt (-23), PInt (-46)); (PInt (-24), PInt (-45));
               (PInt (-22), PInt (-47))] H eq_refl)
    as (d & Hd & _ & _ & _ & Himp).
  injection Hd as <-.
  destruct Himp as (msgs & Hrun & _).
  - right. exists (PStr "FeatureCollection"). split; reflexivity.
  - split; [rewrite Hrun; reflexivity | vm_compute; reflexivity].
Defined.

(** * The effects of a call *)

Lemma requests_app (a b : list event) :
  requests (a ++ b) = (requests a + requests b)%nat.
Proof.
  induction a as [|e a IH]; [reflexivity|].
  destruct e; cbn; rewrite IH; reflexivity.
Qed.

Lemma sleep_seconds_app (a b : list event) :
  sleep_seconds (a ++ b) = sleep_seconds a ++ sleep_seconds b.
Proof.
  induction a as [|e a IH]; [reflexivity|].
  destruct e; cbn; rewrite IH; reflexivity.
Qed.

Lemma sleep_total_app (a b : list event) :
  sleep_total (a ++ b) = sleep_total a + sleep_total b.
Proof.
  unfold sleep_total. rewrite sleep_seconds_app.
  induction (sleep_seconds a) as [|x l IH]; cbn; [reflexivity | lia].
Qed.

Lemma costs_weaken {A} (m : M A) (r r' : nat) (s s' : Z) :
  costs m r s -> (r <= r')%nat -> s <= s' -> costs m r' s'.
Proof.
  intros H Hr Hs w. destruct (H w) as (n & evs & E & Hn & Hle & Hsl).
  exists n, evs. repeat split; try assumption; lia.
Qed.

Lemma costs_ret {A} (a : A) : costs (ret a) 0 0.
Proof.
  intros w. exists 0%nat, []. cbn [ret snd]. rewrite advanced_zero.
  repeat split; cbn; lia.
Qed.

Lemma costs_lift {A} (x : result A) : costs (lift x) 0 0.
Proof.
  intros w. exists 0%nat, []. cbn [lift snd]. rewrite advanced_zero.
  repeat split; cbn; lia.
Qed.

Lemma costs_emit (e : event) :
  requests [e] = 0%nat -> sleep_total [e] = 0 -> costs (emit e) 0 0.
Proof.
  intros Hr Hs w. exists 0%nat, [e]. rewrite emit_run. cbn [snd].
  repeat split; try assumption; lia.
Qed.

Lemma costs_bind {A B} (m : M A) (k : A -> M B) (r1 r2 : nat) (s1 s2 : Z) :
  costs m r1 s1 -> (forall a, costs (k a) r2 s2) -> 0 <= s2 ->
  costs (bind m k) (r1 + r2) (s1 + s2).
Proof.
  intros Hm Hk Hs2 w. destruct (Hm w) as (n & evs & E & Hn & Hle & Hsl).
  unfold bind. destruct (m w) as [[a|e] w1]; cbn [snd] in E; subst w1.
  - destruct (Hk a (advanced w n evs)) as (n' & evs' & E' & Hn' & Hle' & Hsl').
    exists (n' + n)%nat, (evs ++ evs'). rewrite E', advanced_advanced.
    rewrite requests_app, sleep_total_app. repeat split; lia.
  - exists n, evs. cbn [snd]. repeat split; lia.
Qed.

Lemma quiet_bind {A B} (m : M A) (k : A -> M B) :
  costs m 0 0 -> (forall a, costs (k a) 0 0) -> costs (bind m k) 0 0.
Proof. intros Hm Hk. exact (costs_bind m k 0 0 0 0 Hm Hk (Z.le_refl 0)). Qed.

Lemma costs_try {A} (m : M A) (h : exn -> M A) (r : nat) (s : Z) :
  costs m r s -> (forall e, costs (h e) 0 0) -> costs (try_except m h) r s.
Proof.
  intros Hm Hh w. destruct (Hm w) as (n & evs & E & Hn & Hle & Hsl).
  unfold try_except. destruct (m w) as [[a|e] w1]; cbn [snd] in E; subst w1.
  - exists n, evs. cbn [snd]. repeat split; lia.
  - destruct (Hh e (advanced w n evs)) as (n' & evs' & E' & Hn' & Hle' & Hsl').
    exists (n' + n)%nat, (evs ++ evs'). rewrite E', advanced_advanced.
    rewrite requests_app, sleep_total_app. repeat split; lia.
Qed.

Lemma quiet_for_each {A} (l : list A) (body : A -> M unit) :
  (forall x, costs (body x) 0 0) -> costs (for_each l body) 0 0.
Proof.
  intros H. induction l as [|x l IH]; cbn [for_each].
  - apply costs_ret.
  - apply quiet_bind; [apply H | intros _; exact IH].
Qed.

Lemma quiet_for_flag {A} (l : list A) (body : A -> bool -> M bool) (flag : bool) :
  (forall x f, costs (body x f) 0 0) -> costs (for_flag l body flag) 0 0.
Proof.
  intros H. revert flag. induction l as [|x l IH]; intros flag; cbn [for_flag].
  - apply costs_ret.
  - apply quiet_bind; [apply H | intros f; apply IH].
Qed.

(** Steps that neither ask the network nor sleep. *)
Ltac quiet :=
  repeat first
    [ apply costs_ret
    | apply costs_lift
    | apply costs_emit; reflexivity
    | apply quiet_for_each; intros
    | apply quiet_for_flag; intros
    | apply quiet_bind; [|intros]
    | apply costs_try; [|intros]
    | match goal with
      | |- costs (if ?b then _ else _) _ _ => destruct b
      | |- costs (match ?x with _ => _ end) _ _ => destruct x
      end ].

Lemma quiet_base_map (s e : pyval) : costs (base_map s e) 0 0.
Proof. unfold base_map. quiet. Qed.

Lemma quiet_waypoint_marker (wp : pyval) : costs (waypoint_marker wp) 0 0.
Proof. unfold waypoint_marker. quiet. Qed.

Lemma quiet_draw_segments (cs : pyval) (color : string) (style : line_style) :
  costs (draw_segments cs color style) 0 0.
Proof. unfold draw_segments. quiet. Qed.

Lemma quiet_embedded_line (rd : pyval) (color : string) (flag : bool) :
  costs (embedded_line rd color flag) 0 0.
Proof. unfold embedded_line. quiet; apply quiet_draw_segments. Qed.

Lemma quiet_fallback_line (s e : pyval) (wps : list pyval) (color : string)
    (flag : bool) :
  costs (fallback_line s e wps color flag) 0 0.
Proof. unfold fallback_line. quiet. Qed.

Lemma quiet_getenv (dflt : string) : costs (getenv dflt) 0 0.
Proof.
  intros w. exists 0%nat, []. cbn [getenv snd]. rewrite advanced_zero.
  repeat split; cbn; lia.
Qed.

Lemma firstn_sleeps_total (t : nat) (evs : list event) :
  sleep_seconds evs = firstn t [2; 4] -> 0 <= sleep_total evs <= 6.
Proof.
  unfold sleep_total. intros ->.
  destruct t as [|[|[|t]]]; cbn; lia.
Qed.

Lemma costs_retry_loop (params : list (string * string)) :
  costs (attempt_loop params [0; 1; 2]%nat 2) 3 6.
Proof.
  intros w.
  destruct (retry_loop_run params w) as (new & Hrun & Hreq & Hsl & _).
  rewrite Hrun. cbn [snd]. eexists _, new. split; [reflexivity|].
  split; [now rewrite Hreq|]. split; [apply Nat.le_min_r|].
  exact (firstn_sleeps_total _ _ Hsl).
Qed.

Lemma quiet_route_map_geometry (rd : pyval) : costs (route_map_geometry rd) 0 0.
Proof. unfold route_map_geometry. quiet; apply quiet_draw_segments. Qed.

Lemma quiet_route_map_fallback (s e : pyval) (wps : list pyval) (flag : bool) :
  costs (route_map_fallback s e wps flag) 0 0.
Proof. unfold route_map_fallback. quiet. Qed.

Lemma quiet_method1 (rd vehicle : pyval) (color : string) (style : line_style) :
  costs (method1 rd vehicle color style) 0 0.
Proof. unfold method1. quiet; apply quiet_draw_segments. Qed.

Lemma quiet_method2 (rd vehicle : pyval) (color : string) (style : line_style)
    (flag : bool) :
  costs (method2 rd vehicle color style flag) 0 0.
Proof. unfold method2. quiet. Qed.

Lemma quiet_method4 (s e : pyval) (ps : list pyval) (color : string)
    (style : line_style) (flag : bool) :
  costs (method4 s e ps color style flag) 0 0.
Proof. unfold method4. quiet. Qed.

Section Budgets.

Variable lower : string -> string.
Variable py_str : pyval -> string.
Variable md5_int : string -> Z.

Lemma costs_fetch (s e : pyval) (wps : list pyval) (vt : pyval) :
  costs (get_route_geometry lower py_str s e wps vt) 3 6.
Proof.
  unfold get_route_geometry.
  apply (costs_bind _ _ 0 3 0 6); [apply quiet_getenv | | lia].
  intros k. destruct (String.eqb k "").
  { apply (costs_weaken _ 0 3 0 6); [quiet | lia | lia]. }
  apply (costs_bind _ _ 0 3 0 6); [apply costs_lift | | lia].
  intros vt0. destruct (negb (is_dict s) || negb (is_dict e)).
  { apply (costs_weaken _ 0 3 0 6); [quiet | lia | lia]. }
  destruct (negb (has_lat_lon s) || negb (has_lat_lon e)).
  { apply (costs_weaken _ 0 3 0 6); [quiet | lia | lia]. }
  apply (costs_bind _ _ 0 3 0 6); [apply costs_lift | | lia].
  intros strs. apply costs_try; [|intros; quiet].
  apply (costs_bind _ _ 0 3 0 6); [apply costs_emit; reflexivity | | lia].
  intros _. apply costs_retry_loop.
Qed.

Lemma costs_api_line (rd s e : pyval) (wps : list pyval) (color : string) :
  costs (api_line lower py_str rd s e wps color) 3 6.
Proof.
  unfold api_line. apply costs_try; [|intros; quiet].
  apply (costs_bind _ _ 0 3 0 6); [apply costs_lift | | lia].
  intros vt. apply (costs_bind _ _ 3 0 6 0); [apply costs_fetch | | lia].
  intros r. quiet; apply quiet_draw_segments.
Qed.

Lemma costs_display_route_on_map (rd s e : pyval) (wps : list pyval)
    (color : string) :
  costs (display_route_on_map lower py_str rd s e wps color) 3 6.
Proof.
  unfold display_route_on_map.
  apply (costs_bind _ _ 0 3 0 6); [apply quiet_base_map | | lia]. intros _.
  apply (costs_bind _ _ 0 3 0 6);
    [apply quiet_for_each; intros; apply quiet_waypoint_marker | | lia].
  intros _.
  apply (costs_bind _ _ 3 0 6 0); [apply costs_api_line | | lia]. intros f1.
  apply quiet_bind; [apply quiet_embedded_line|]. intros f2.
  apply quiet_bind; [apply quiet_fallback_line|]. intros f3.
  apply costs_ret.
Qed.

Lemma costs_route_map_api (s e : pyval) (wps : list pyval) (flag : bool) :
  costs (route_map_api lower py_str s e wps flag) 3 6.
Proof.
  unfold route_map_api. destruct (negb flag).
  2:{ apply (costs_weaken _ 0 3 0 6); [quiet | lia | lia]. }
  apply costs_try; [|intros; quiet].
  apply (costs_bind _ _ 3 0 6 0); [apply costs_fetch | | lia].
  intros r. quiet; apply quiet_draw_segments.
Qed.

Lemma costs_display_route_map (rd : pyval) :
  costs (display_route_map lower py_str rd) 3 6.
Proof.
  unfold display_route_map. apply costs_try; [|intros; quiet].
  apply (costs_bind _ _ 0 3 0 6); [apply costs_lift | | lia].
  intros has. destruct has.
  - apply (costs_bind _ _ 0 3 0 6); [apply costs_lift | | lia]. intros wps.
    apply (costs_bind _ _ 0 3 0 6); [apply costs_lift | | lia]. intros n.
    destruct (2 <=? n)%nat.
    2:{ apply (costs_weaken _ 0 3 0 6); [quiet | lia | lia]. }
    apply (costs_bind _ _ 0 3 0 6); [apply costs_lift | | lia]. intros first.
    apply (costs_bind _ _ 0 3 0 6); [apply costs_lift | | lia]. intros sc.
    apply (costs_bind _ _ 0 3 0 6); [apply costs_lift | | lia]. intros last.
    apply (costs_bind _ _ 0 3 0 6); [apply costs_lift | | lia]. intros ec.
    apply (costs_bind _ _ 0 3 0 6); [apply costs_lift | | lia]. intros middle.
    apply (costs_bind _ _ 0 3 0 6); [apply costs_lift | | lia]. intros stops.
    apply (costs_bind _ _ 0 3 0 6); [apply quiet_base_map | | lia]. intros _.
    apply (costs_bind _ _ 0 3 0 6); [quiet | | lia]. intros _.
    apply (costs_bind _ _ 0 3 0 6); [apply quiet_route_map_geometry | | lia].
    intros f1.
    apply (costs_bind _ _ 3 0 6 0); [apply costs_route_map_api | | lia].
    intros f2. apply quiet_route_map_fallback.
  - apply (costs_bind _ _ 3 0 6 0); [apply costs_display_route_on_map | | lia].
    intros _. apply costs_ret.
Qed.

Lemma quiet_route_header (i : Z) (route_info : pyval) :
  costs (route_header py_str md5_int i route_info) 0 0.
Proof. unfold route_header. quiet. Qed.

Lemma costs_method3 (s e rd vehicle : pyval) (ps : list pyval) (color : string)
    (style : line_style) (flag : bool) :
  costs (method3 lower py_str s e rd vehicle ps color style flag) 3 6.
Proof.
  unfold method3. destruct (negb flag).
  2:{ apply (costs_weaken _ 0 3 0 6); [quiet | lia | lia]. }
  apply costs_try; [|intros; quiet].
  apply (costs_bind _ _ 0 3 0 6); [apply costs_lift | | lia]. intros has.
  apply (costs_bind _ _ 0 3 0 6); [quiet | | lia]. intros vt.
  apply (costs_bind _ _ 3 0 6 0); [apply costs_fetch | | lia].
  intros r. quiet; apply quiet_draw_segments.
Qed.

Lemma costs_display_one_route (s e : pyval) (i : Z) (route_info : pyval) :
  costs (display_one_route lower py_str md5_int s e i route_info) 3 6.
Proof.
  unfold display_one_route.
  apply (costs_bind _ _ 0 3 0 6); [apply quiet_route_header | | lia].
  intros [[[[color style] vehicle] rd] ps].
  apply (costs_bind _ _ 0 3 0 6); [apply quiet_method1 | | lia]. intros f1.
  apply (costs_bind _ _ 0 3 0 6); [apply quiet_method2 | | lia]. intros f2.
  apply (costs_bind _ _ 3 0 6 0); [apply costs_method3 | | lia]. intros f3.
  apply quiet_bind; [apply quiet_method4|]. intros f4. apply costs_ret.
Qed.

Lemma costs_display_routes_from (s e : pyval) (routes : list pyval) (i : Z) :
  costs (display_routes_from lower py_str md5_int s e i routes)
        (3 * List.length routes) (6 * Z.of_nat (List.length routes)).
Proof.
  revert i. induction routes as [|route routes IH]; intros i.
  - cbn [display_routes_from]. apply costs_ret.
  - cbn [display_routes_from].
    apply (costs_weaken _ (3 + (3 * List.length routes + 0)) _
                          (6 + (6 * Z.of_nat (List.length routes) + 0)) _);
      [|cbn [List.length]; lia | cbn [List.length]; lia].
    apply costs_bind; [apply costs_display_one_route | | lia].
    intros flag. apply costs_bind; [apply IH | | lia].
    intros flags. apply costs_ret.
Qed.

End Budgets.

(** * Line styles and the request of the fetcher *)

(** X1. The line style depends on the index modulo 4 only and the four
    styles are pairwise different, so the styles cycle with period exactly 4,
    for negative indices too; every style has weight 4. *)
Theorem line_style_cycle :
  (forall i, In (get_line_style i) LINE_STYLES) /\
  (forall i, get_line_style (i + 4) = get_line_style i) /\
  (forall i j, get_line_style i = get_line_style j <-> i mod 4 = j mod 4) /\
  (forall i, weight (get_line_style i) = 4).
Proof.
  assert (Hcase : forall i, get_line_style i = nth (Z.to_nat (i mod 4)) LINE_STYLES
                                                  (mkStyle 4 0.8 None)) by reflexivity.
  assert (Hr : forall i, i mod 4 = 0 \/ i mod 4 = 1 \/ i mod 4 = 2 \/ i mod 4 = 3).
  { intros i. pose proof (Z.mod_pos_bound i 4 eq_refl). lia. }
  repeat apply conj.
  - intros i. rewrite Hcase.
    destruct (Hr i) as [-> | [-> | [-> | ->]]]; cbn; tauto.
  - intros i. rewrite !Hcase. f_equal. f_equal.
    replace (i + 4) with (i + 1 * 4) by ring. apply Z.mod_add. discriminate.
  - intros i j. rewrite !Hcase. split.
    + destruct (Hr i) as [-> | [-> | [-> | ->]]];
        destruct (Hr j) as [-> | [-> | [-> | ->]]]; cbn;
        intros H; try reflexivity; discriminate H.
    + intros ->. reflexivity.
  - intros i. rewrite Hcase.
    destruct (Hr i) as [-> | [-> | [-> | ->]]]; reflexivity.
Qed.

Section Requests.

Variable lower : string -> string.
Variable py_str : pyval -> string.

Lemma travel_mode_cases (v : string) :
  (lower v = "truck" /\ travel_mode lower v = "truck") \/
  (lower v = "motorcycle" /\ travel_mode lower v = "motorcycle") \/
  (lower v <> "truck" /\ lower v <> "motorcycle" /\ travel_mode lower v = "drive").
Proof.
  unfold travel_mode, vehicle_to_mode. cbn [mode_get].
  destruct (String.eqb_spec "car" (lower v)) as [E|_].
  { right. right. rewrite <- E. repeat split; discriminate. }
  destruct (String.eqb_spec "bus" (lower v)) as [E|_].
  { right. right. rewrite <- E. repeat split; discriminate. }
  destruct (String.eqb_spec "van" (lower v)) as [E|_].
  { right. right. rewrite <- E. repeat split; discriminate. }
  destruct (String.eqb_spec "truck" (lower v)) as [E|N1].
  { left. now split. }
  destruct (String.eqb_spec "motorcycle" (lower v)) as [E|N2].
  { right. left. now split. }
  right. right. repeat split; congruence.
Qed.

(** With [str.lower] as it is on Latin text, text of code points below
    U+0100 is lower-cased by the table. *)
Lemma lower_of_latin1 (v : string) :
  lowers_latin1 lower -> latin1 v = true -> lower v = lower_latin1 v.
Proof.
  intros Hl Hv. destruct (Hl "" v "" Hv) as (pre' & post' & E & Hp & Hq).
  rewrite (Hp eq_refl), (Hq eq_refl) in E. cbn [append] in E.
  rewrite !append_empty in E. exact E.
Qed.

Lemma lower_of_any_case (kw v : string) :
  lowers_latin1 lower -> lower_latin1 kw = kw -> latin1 kw = true ->
  any_case kw v = true -> lower v = kw.
Proof.
  intros Hl Hk1 Hk2 Hv.
  rewrite (lower_of_latin1 v Hl (any_case_latin1 kw false false v Hk2 Hv)).
  now apply any_case_lower.
Qed.

(** X2. The travel mode of a request is decided by the vehicle type
    whatever its letter case is ([str.lower] lower-casing Latin letters where
    they stand): truck and motorcycle, in any mix of upper and lower case,
    are asked for as such, and every other text of code points below U+0100
    is asked for as drive; so of the five classes of [get_vehicle_type], car,
    bus and van are routed as drive.  The first request of a call with a key
    and endpoints holding lat and lon carries this mode, the pipe-joined
    texts of start, valid waypoints and end, the fixed details and the
    configured key. *)
Theorem travel_mode_of_request :
  lowers_latin1 lower ->
  (forall v, any_case "truck" v = true -> travel_mode lower v = "truck") /\
  (forall v, any_case "motorcycle" v = true -> travel_mode lower v = "motorcycle") /\
  (forall v, latin1 v = true ->
             any_case "truck" v = false -> any_case "motorcycle" v = false ->
             travel_mode lower v = "drive") /\
  (forall model t,
      get_vehicle_type lower model = Ok t ->
      (travel_mode lower t = "drive" <-> t = "car" \/ t = "bus" \/ t = "van") /\
      (travel_mode lower t = "truck" <-> t = "truck") /\
      (travel_mode lower t = "motorcycle" <-> t = "motorcycle")) /\
  (forall w s e wps v k,
      api_key w = Some k -> k <> "" ->
      has_lat_lon s = true -> has_lat_lon e = true ->
      exists rest,
        trace (snd (get_route_geometry lower py_str s e wps (PStr v) w)) =
        trace w ++ info_request ::
          HttpGet routing_url
            [("waypoints",
              join "|" (map (coord_text py_str)
                            ([s] ++ filter valid_waypoint wps ++ [e])));
             ("mode", travel_mode lower v);
             ("details", "instruction_details,route_details");
             ("apiKey", k)] :: rest).
Proof.
  intros Hl.
  assert (Hword : forall kw v, lower_latin1 kw = kw -> latin1 kw = true ->
                               any_case kw v = true -> lower v = kw)
    by (intros kw v; now apply lower_of_any_case).
  assert (Hfix : forall t, lower_latin1 t = t -> latin1 t = true -> lower t = t).
  { intros t H1 H2. rewrite (lower_of_latin1 t Hl H2). exact H1. }
  repeat apply conj.
  - intros v Hv. pose proof (Hword "truck" v eq_refl eq_refl Hv) as E.
    unfold travel_mode. rewrite E. reflexivity.
  - intros v Hv. pose proof (Hword "motorcycle" v eq_refl eq_refl Hv) as E.
    unfold travel_mode. rewrite E. reflexivity.
  - intros v Hv N1 N2.
    assert (Ha : forall kw, lower v = kw -> any_case kw v = true).
    { intros kw <-. rewrite (lower_of_latin1 v Hl Hv). apply lower_any_case. }
    destruct (travel_mode_cases v) as [[H1 _] | [[H1 _] | (_ & _ & H3)]].
    + rewrite (Ha _ H1) in N1. discriminate N1.
    + rewrite (Ha _ H1) in N2. discriminate N2.
    + exact H3.
  - intros model t Ht. apply vehicle_type_range in Ht. cbn in Ht.
    unfold travel_mode.
    destruct Ht as [<- | [<- | [<- | [<- | [<- | []]]]]];
      match goal with
      | |- context [lower ?t] => rewrite (Hfix t eq_refl eq_refl)
      end;
      repeat split; intros H; try reflexivity; try discriminate H;
      try (cbn; tauto);
      try (destruct H as [H | [H | H]]; discriminate H).
  - intros w s e wps v k Hk Hne Hs He.
    destruct (fetch_run lower py_str w s e wps v k Hk Hne Hs He)
      as (new & Hrun & _ & _ & _ & _ & (rest & ->) & _).
    exists rest. rewrite Hrun. reflexivity.
Qed.

Lemma fetch_bad_endpoints :
  forall w s e wps v,
    key_configured w ->
    has_lat_lon s = false \/ has_lat_lon e = false ->
    exists msg,
      get_route_geometry lower py_str s e wps (PStr v) w =
      (Ok None, emitted w [Log ERROR msg]) /\
      (msg = "Pontos de início ou fim inválidos" \/
       msg = "Pontos de início ou fim sem coordenadas lat/lon") /\
      (is_dict s = true -> is_dict e = true ->
       msg = "Pontos de início ou fim sem coordenadas lat/lon").
Proof.
  intros w s e wps v (k & Hk & Hne) Hbad.
  apply String.eqb_neq in Hne.
  unfold get_route_geometry, getenv. unfold bind at 1. rewrite Hk, Hne.
  unfold bind at 1. cbn [str_lower lift].
  destruct (negb (is_dict s) || negb (is_dict e)) eqn:Hd.
  - eexists. unfold bind, ret. rewrite emit_run. split; [reflexivity|].
    split; [now left|]. intros H1 H2. rewrite H1, H2 in Hd. discriminate.
  - assert (Hll : negb (has_lat_lon s) || negb (has_lat_lon e) = true)
      by (destruct Hbad as [-> | ->]; [reflexivity | apply orb_true_r]).
    rewrite Hll. eexists. unfold bind, ret. rewrite emit_run.
    split; [reflexivity|]. split; [now right | reflexivity].
Qed.

(** X3. With a key configured and a string for vehicle type, a start or end
    point that is no dict or lacks 'lat' or 'lon' ends the call at once with
    None: one error is logged, nothing is shown to the user and no request is
    made. *)
Theorem fetch_rejects_bad_endpoints :
  forall w s e wps v,
    key_configured w ->
    has_lat_lon s = false \/ has_lat_lon e = false ->
    exists msg,
      get_route_geometry lower py_str s e wps (PStr v) w =
      (Ok None, emitted w [Log ERROR msg]) /\
      (msg = "Pontos de início ou fim inválidos" \/
       msg = "Pontos de início ou fim sem coordenadas lat/lon") /\
      (is_dict s = true -> is_dict e = true ->
       msg = "Pontos de início ou fim sem coordenadas lat/lon").
Proof. exact fetch_bad_endpoints. Qed.

(** X4. The fetcher lets one exception out only: the AttributeError of a
    vehicle type that is not a string, raised before any request and only
    when a key is configured; with a string for vehicle type it always
    returns, whatever the network does and whatever the body holds. *)
Theorem fetch_raises_only_on_vehicle_type :
  forall s e wps vt w,
    (is_string vt = true ->
     exists r, fst (get_route_geometry lower py_str s e wps vt w) = Ok r) /\
    (is_string vt = false -> key_configured w ->
     get_route_geometry lower py_str s e wps vt w = (Raise AttributeError, w)) /\
    (forall x, fst (get_route_geometry lower py_str s e wps vt w) = Raise x ->
               x = AttributeError /\ is_string vt = false /\ key_configured w).
Proof.
  intros s e wps vt w.
  assert (Hnokey : api_key w = None \/ api_key w = Some "" ->
            (is_string vt = true ->
             exists r, fst (get_route_geometry lower py_str s e wps vt w) = Ok r) /\
            (is_string vt = false -> key_configured w ->
             get_route_geometry lower py_str s e wps vt w = (Raise AttributeError, w)) /\
            (forall x, fst (get_route_geometry lower py_str s e wps vt w) = Raise x ->
                       x = AttributeError /\ is_string vt = false /\ key_configured w)).
  { intros Hk. rewrite (fetch_without_key lower py_str s e wps vt w Hk). cbn [fst].
    repeat apply conj.
    - intros _. eexists; reflexivity.
    - intros _ (k & Hk' & Hne). destruct Hk as [Hk | Hk]; congruence.
    - discriminate. }
  destruct (api_key w) as [k|] eqn:Hk; [|apply Hnokey; now left].
  destruct (String.eqb_spec k "") as [-> | Hne]; [apply Hnokey; now right|].
  clear Hnokey.
  assert (Hkey : key_configured w) by (exists k; now split).
  destruct (is_string vt) eqn:Hvt.
  - destruct vt as [| | | |v| |]; try discriminate.
    assert (Hok : exists r, fst (get_route_geometry lower py_str s e wps (PStr v) w) = Ok r).
    { destruct (has_lat_lon s) eqn:Hs; [destruct (has_lat_lon e) eqn:He|].
      - destruct (fetch_run lower py_str w s e wps v k Hk Hne Hs He) as (new & -> & _).
        eexists; reflexivity.
      - destruct (fetch_bad_endpoints w s e wps v Hkey (or_intror He))
          as (msg & -> & _). eexists; reflexivity.
      - destruct (fetch_bad_endpoints w s e wps v Hkey (or_introl Hs))
          as (msg & -> & _). eexists; reflexivity. }
    destruct Hok as [r Hr]. repeat apply conj.
    + intros _. now exists r.
    + discriminate.
    + intros x Hx. rewrite Hr in Hx. discriminate.
  - assert (E : get_route_geometry lower py_str s e wps vt w = (Raise AttributeError, w)).
    { apply String.eqb_neq in Hne.
      unfold get_route_geometry, getenv. unfold bind at 1. rewrite Hk, Hne.
      unfold bind at 1. destruct vt; try discriminate; reflexivity. }
    rewrite E. cbn [fst]. repeat apply conj.
    + discriminate.
    + reflexivity.
    + intros x [= <-]. repeat split. exact Hkey.
Qed.


End Requests.

(** * The single-route renderers *)

Lemma mapR_length {A B} (f : A -> result B) (l : list A) (r : list B) :
  mapR f l = Ok r -> List.length r = List.length l.
Proof.
  revert r. induction l as [|a l IH]; intros r; cbn [mapR].
  - intros [= <-]. reflexivity.
  - destruct (f a); [|discriminate]. cbn [rbind].
    destruct (mapR f l) as [r'|]; [|discriminate]. cbn [rbind].
    intros [= <-]. cbn [List.length]. now rewrite (IH r' eq_refl).
Qed.

Lemma py_get_dict (d : list (string * pyval)) (k : string) (dflt : pyval) :
  py_get (PDict d) k dflt = Ok (dict_value d k dflt).
Proof. unfold py_get, dict_value. destruct (dict_get d k); reflexivity. Qed.

Lemma getitem_some (d : list (string * pyval)) (k : string) (v : pyval) :
  dict_get d k = Some v -> getitem (PDict d) k = Ok v.
Proof. intros H. unfold getitem. now rewrite H. Qed.

Lemma getitem_none (d : list (string * pyval)) (k : string) :
  dict_get d k = None -> getitem (PDict d) k = Raise KeyError.
Proof. intros H. unfold getitem. now rewrite H. Qed.

Lemma contains_key_some (d : list (string * pyval)) (k : string) (v : pyval) :
  dict_get d k = Some v -> contains_key k (PDict d) = Ok true.
Proof. intros H. unfold contains_key. now rewrite H. Qed.

Lemma contains_key_none (d : list (string * pyval)) (k : string) :
  dict_get d k = None -> contains_key k (PDict d) = Ok false.
Proof. intros H. unfold contains_key. now rewrite H. Qed.

Lemma for_each_markers_run (wps : list pyval) (coords : list (pyval * pyval))
    (w : world) :
  all_located wps coords ->
  for_each wps waypoint_marker w = (Ok tt, emitted w (markers_at coords)).
Proof.
  intros H. revert w. induction H as [|wp c wps coords Hwp _ IH]; intros w.
  - cbn. now rewrite emitted_nil.
  - cbn [for_each markers_at map].
    rewrite (bind_run _ _ _ _ _ (waypoint_marker_run wp _ _ w Hwp)).
    rewrite IH, emitted_emitted. reflexivity.
Qed.

Lemma for_each_markers_raise (good rest : list pyval)
    (coords : list (pyval * pyval)) (bd : list (string * pyval)) (w : world) :
  all_located good coords ->
  dict_get bd "lat" = None \/ dict_get bd "lon" = None ->
  for_each (good ++ PDict bd :: rest) waypoint_marker w =
  (Raise KeyError, emitted w (markers_at coords)).
Proof.
  intros H Hbad. revert w. induction H as [|wp c wps coords Hwp _ IH]; intros w.
  - cbn [app for_each markers_at map]. rewrite emitted_nil.
    apply bind_raise. unfold waypoint_marker, bind, lift. cbn [py_get getitem].
    destruct (dict_get bd "name"), (dict_get bd "person_id");
      destruct Hbad as [-> | Hlon]; try reflexivity;
      destruct (dict_get bd "lat"); try reflexivity; rewrite Hlon; reflexivity.
  - cbn [app for_each markers_at map].
    rewrite (bind_run _ _ _ _ _ (waypoint_marker_run wp _ _ w Hwp)).
    rewrite IH, emitted_emitted. reflexivity.
Qed.

Lemma draw_segments_run (segments : list (list (pyval * pyval)))
    (color : string) (style : line_style) (w : world) :
  draw_segments (PList (map positions segments)) color style w =
  (Ok tt, emitted w (lines_of segments color style)).
Proof.
  unfold draw_segments. unfold bind at 1. rewrite lift_run. cbn [py_iter].
  revert w.
  induction segments as [|l segments IH]; intros w; cbn [map for_each lines_of].
  - unfold ret. now rewrite emitted_nil.
  - unfold bind at 1. unfold bind at 1. rewrite lift_run, swap_coords_positions.
    rewrite emit_run. rewrite IH, emitted_emitted. reflexivity.
Qed.

Lemma draw_segments_partial (good : list (list (pyval * pyval))) (bad : pyval)
    (rest : list pyval) (x : exn) (color : string) (style : line_style)
    (w : world) :
  swap_coords bad = Raise x ->
  draw_segments (PList (map positions good ++ bad :: rest)) color style w =
  (Raise x, emitted w (lines_of good color style)).
Proof.
  intros Hbad. unfold draw_segments. unfold bind at 1. rewrite lift_run.
  cbn [py_iter]. revert w.
  induction good as [|l good IH]; intros w; cbn [map app for_each lines_of].
  - unfold bind at 1. unfold bind at 1. rewrite lift_run, Hbad.
    now rewrite emitted_nil.
  - unfold bind at 1. unfold bind at 1. rewrite lift_run, swap_coords_positions.
    rewrite emit_run. rewrite IH, emitted_emitted. reflexivity.
Qed.

Section Renderers.

Variable lower : string -> string.
Variable py_str : pyval -> string.

(** X5. Whenever [display_route_on_map] gets to display its map, the flag
    [line_added] is true, and its last resort has not failed: the run is the
    markers, the step that asks the API and the step that reads the route
    data, followed, exactly when neither of them has set the flag, by the
    dashed straight line through start, every waypoint and end with its
    warning box and warning.  (A step sets the flag after its loop over the
    segments of a MultiLineString, also when there is no segment.) *)
Theorem single_route_line_added :
  forall route_data s e wps color w w' flag,
    display_route_on_map lower py_str route_data s e wps color w = (Ok flag, w') ->
    flag = true /\
    exists pts f1 f2 w2 w3 w4,
      straight_points s e wps = Ok pts /\
      List.length pts = (2 + List.length wps)%nat /\
      (base_map s e ;; for_each wps waypoint_marker) w = (Ok tt, w2) /\
      api_line lower py_str route_data s e wps color w2 = (Ok f1, w3) /\
      embedded_line route_data color f1 w3 = (Ok f2, w4) /\
      w' = if f2 then w4
           else emitted w4 [AddPolyLine pts color (mkStyle 3 0.5 (Some "5, 5"));
                            AddHtml warning_html; St WARNING fallback_warning].
Proof.
  intros route_data s e wps color w w' flag H.
  split; [exact (display_route_on_map_line_added lower py_str _ _ _ _ _ _ _ _ H)|].
  unfold display_route_on_map in H.
  apply bind_ok_inv in H as ([] & w1 & Hbase & H).
  apply bind_ok_inv in H as ([] & w2 & Hmarks & H).
  apply bind_ok_inv in H as (f1 & w3 & Hapi & H).
  apply bind_ok_inv in H as (f2 & w4 & Hemb & H).
  apply bind_ok_inv in H as (f3 & w5 & Hfall & H).
  unfold ret in H. injection H as _ <-.
  destruct (base_map_ok_inv s e w w1 Hbase) as [[ps Hs] [pe He]].
  destruct (markers_ok_inv wps w1 w2 Hmarks) as [l Hl].
  assert (Hpts : straight_points s e wps = Ok ([ps] ++ l ++ [pe]))
    by (unfold straight_points; now rewrite Hs, Hl, He).
  exists ([ps] ++ l ++ [pe]), f1, f2, w2, w3, w4.
  repeat apply conj; try assumption.
  - rewrite !length_app, (mapR_length _ _ _ Hl). cbn [List.length]. lia.
  - now rewrite (bind_run _ _ _ _ _ Hbase).
  - destruct f2.
    + unfold fallback_line in Hfall. cbn [negb] in Hfall. unfold ret in Hfall.
      now injection Hfall as _ <-.
    + rewrite (fallback_line_run s e wps color _ w4 Hpts) in Hfall.
      now injection Hfall as _ <-.
Qed.

(** The answer of the API is drawn as one line. *)
Lemma api_line_linestring (rd d fd gd pd : list (string * pyval)) (s e : pyval)
    (wps rest : list pyval) (l : list (pyval * pyval)) (color : string)
    (w w1 : world) :
  get_route_geometry lower py_str s e wps (vehicle_type_of rd) w =
    (Ok (Some (PDict d)), w1) ->
  dict_get d "features" = Some (PList (PDict fd :: rest)) ->
  dict_get fd "geometry" = Some (PDict gd) ->
  dict_get gd "type" = Some (PStr "LineString") ->
  dict_get gd "coordinates" = Some (positions l) ->
  dict_get fd "properties" = Some (PDict pd) ->
  truediv_check (dict_value pd "distance" (dict_value d "distance" (PInt 0))) 1000 = Ok tt ->
  truediv_check (dict_value pd "time" (dict_value d "time" (PInt 0))) 60 = Ok tt ->
  api_line lower py_str (PDict rd) s e wps color w =
  (Ok true,
   emitted w1 [AddPolyLine (map swap l) color (mkStyle 5 0.8 None);
               St SUCCESS success_message]).
Proof.
  intros Hrun Hf Hg Hty Hcs Hp Hdist Htime.
  unfold api_line, try_except.
  rewrite (bind_run _ _ w w (vehicle_type_of rd))
    by (rewrite lift_run, py_get_vehicle_type; reflexivity).
  rewrite (bind_run _ _ _ _ _ Hrun).
  assert (Hhas : has_features (PDict d) = Ok true).
  { unfold has_features. cbn. destruct d; [discriminate|].
    rewrite Hf. reflexivity. }
  unfold bind, lift, ret.
  rewrite Hhas; cbv beta iota.
  rewrite (getitem_some d _ _ Hf); cbv beta iota.
  cbn [getindex nth_error].
  rewrite (contains_key_some fd _ _ Hg); cbv beta iota.
  rewrite (getitem_some fd _ _ Hg); cbv beta iota.
  rewrite (getitem_some gd _ _ Hty); cbv beta iota.
  change (is_str (PStr "LineString") "LineString") with true; cbv beta iota.
  rewrite (getitem_some gd _ _ Hcs); cbv beta iota.
  rewrite swap_coords_positions; cbv beta iota.
  rewrite !py_get_dict; cbv beta iota.
  rewrite (contains_key_some fd _ _ Hp); cbv beta iota.
  rewrite (getitem_some fd _ _ Hp); cbv beta iota.
  rewrite !py_get_dict; cbv beta iota.
  rewrite Hdist; cbv beta iota.
  rewrite Htime; cbv beta iota.
  rewrite !emit_run, emitted_emitted. reflexivity.
Qed.

Lemma embedded_line_skipped (rd : pyval) (color : string) (w : world) :
  embedded_line rd color true w = (Ok true, w).
Proof. reflexivity. Qed.

Lemma fallback_line_skipped (s e : pyval) (wps : list pyval) (color : string)
    (w : world) :
  fallback_line s e wps color true w = (Ok true, w).
Proof. reflexivity. Qed.

(** X6. When the routing API answers with a LineString,
    [display_route_on_map] draws that line, solid, with weight 5, latitude
    first, and reports success; whatever geometry the route data embed is not
    drawn and no straight line is added: the live answer takes precedence. *)
Theorem api_geometry_takes_precedence :
  forall (rd d fd gd pd : list (string * pyval)) (s e : pyval)
         (wps rest : list pyval) (coords l : list (pyval * pyval))
         (color : string) (w w1 : world) (sla slo ela elo : pyval),
    located s sla slo -> located e ela elo -> all_located wps coords ->
    midpoint_check sla ela = Ok tt -> midpoint_check slo elo = Ok tt ->
    get_route_geometry lower py_str s e wps (vehicle_type_of rd)
      (emitted w (AddMarker sla slo :: AddMarker ela elo :: markers_at coords)) =
      (Ok (Some (PDict d)), w1) ->
    dict_get d "features" = Some (PList (PDict fd :: rest)) ->
    dict_get fd "geometry" = Some (PDict gd) ->
    dict_get gd "type" = Some (PStr "LineString") ->
    dict_get gd "coordinates" = Some (positions l) ->
    dict_get fd "properties" = Some (PDict pd) ->
    truediv_check (dict_value pd "distance" (dict_value d "distance" (PInt 0))) 1000 = Ok tt ->
    truediv_check (dict_value pd "time" (dict_value d "time" (PInt 0))) 60 = Ok tt ->
    display_route_on_map lower py_str (PDict rd) s e wps color w =
    (Ok true,
     emitted w1 [AddPolyLine (map swap l) color (mkStyle 5 0.8 None);
                 St SUCCESS success_message]).
Proof.
  intros rd d fd gd pd s e wps rest coords l color w w1 sla slo ela elo
         Hs He Hwps Hla Hlo Hrun Hf Hg Hty Hcs Hp Hdist Htime.
  unfold display_route_on_map.
  rewrite (bind_run _ _ _ _ _ (base_map_run s e sla slo ela elo w Hs He Hla Hlo)).
  rewrite (bind_run _ _ _ _ _ (for_each_markers_run wps coords _ Hwps)).
  rewrite emitted_emitted. cbn [app].
  rewrite (bind_run _ _ _ _ _
             (api_line_linestring rd d fd gd pd s e wps rest l color _ w1
                Hrun Hf Hg Hty Hcs Hp Hdist Htime)).
  rewrite (bind_run _ _ _ _ _ (embedded_line_skipped _ _ _)).
  rewrite (bind_run _ _ _ _ _ (fallback_line_skipped _ _ _ _ _)).
  reflexivity.
Qed.

(** X7. A waypoint without 'lat' or 'lon' makes [display_route_on_map]
    raise KeyError, uncaught, while the markers are placed: the markers of
    start, end and the waypoints before it are on the map, no request has
    been made and no line of any kind is drawn. *)
Theorem waypoint_without_coordinates_raises :
  forall (rd s e : pyval) (good rest : list pyval)
         (coords : list (pyval * pyval)) (bd : list (string * pyval))
         (color : string) (w : world) (sla slo ela elo : pyval),
    located s sla slo -> located e ela elo -> all_located good coords ->
    midpoint_check sla ela = Ok tt -> midpoint_check slo elo = Ok tt ->
    dict_get bd "lat" = None \/ dict_get bd "lon" = None ->
    display_route_on_map lower py_str rd s e (good ++ PDict bd :: rest) color w =
    (Raise KeyError,
     emitted w (AddMarker sla slo :: AddMarker ela elo :: markers_at coords)).
Proof.
  intros rd s e good rest coords bd color w sla slo ela elo
         Hs He Hgood Hla Hlo Hbad.
  unfold display_route_on_map.
  rewrite (bind_run _ _ _ _ _ (base_map_run s e sla slo ela elo w Hs He Hla Hlo)).
  rewrite (bind_raise _ _ _ _ _
             (for_each_markers_raise good rest coords bd _ Hgood Hbad)).
  now rewrite emitted_emitted.
Qed.

End Renderers.

(** X8. Step 1 of [display_route_map] draws a MultiLineString segment by
    segment.  When every segment reads, each is one blue polyline and the
    flag is set, also when there is no segment at all, so that nothing is
    drawn and no fallback follows.  When a segment does not read, the
    polylines of the segments before it stay on the map, a warning is
    shown and the flag stays false, so that the later steps draw on top. *)
Theorem multiline_is_drawn_segment_by_segment :
  forall (rd gd : list (string * pyval)) (w : world),
    dict_get rd "geometry" = Some (PDict gd) ->
    dict_get gd "type" = Some (PStr "MultiLineString") ->
    (forall segments,
        dict_get gd "coordinates" = Some (PList (map positions segments)) ->
        route_map_geometry (PDict rd) w =
        (Ok true, emitted w (lines_of segments "blue" (mkStyle 4 0.8 None)))) /\
    (dict_get gd "coordinates" = Some (PList []) ->
     route_map_geometry (PDict rd) w = (Ok true, w)) /\
    (forall good bad rest x,
        dict_get gd "coordinates" = Some (PList (map positions good ++ bad :: rest)) ->
        swap_coords bad = Raise x ->
        route_map_geometry (PDict rd) w =
        (Ok false,
         emitted w (lines_of good "blue" (mkStyle 4 0.8 None) ++
                    [St WARNING "Erro ao processar geometria"]))).
Proof.
  intros rd gd w Hg Hty.
  assert (Hfull : forall segments,
             dict_get gd "coordinates" = Some (PList (map positions segments)) ->
             route_map_geometry (PDict rd) w =
             (Ok true, emitted w (lines_of segments "blue" (mkStyle 4 0.8 None)))).
  { intros segments Hcs. unfold route_map_geometry, try_except.
    unfold bind at 1. rewrite lift_run, (contains_key_some rd _ _ Hg).
    unfold bind at 1. rewrite lift_run, (getitem_some rd _ _ Hg).
    unfold bind at 1. rewrite lift_run, (getitem_some gd _ _ Hty).
    change (is_str (PStr "MultiLineString") "LineString") with false.
    change (is_str (PStr "MultiLineString") "MultiLineString") with true.
    cbv iota.
    unfold bind at 1. rewrite lift_run, (getitem_some gd _ _ Hcs).
    unfold bind at 1. rewrite draw_segments_run. reflexivity. }
  repeat apply conj.
  - exact Hfull.
  - intros Hcs. rewrite (Hfull [] Hcs). cbn [lines_of map]. now rewrite emitted_nil.
  - intros good bad rest x Hcs Hbad. unfold route_map_geometry, try_except.
    unfold bind at 1. rewrite lift_run, (contains_key_some rd _ _ Hg).
    unfold bind at 1. rewrite lift_run, (getitem_some rd _ _ Hg).
    unfold bind at 1. rewrite lift_run, (getitem_some gd _ _ Hty).
    change (is_str (PStr "MultiLineString") "LineString") with false.
    change (is_str (PStr "MultiLineString") "MultiLineString") with true.
    cbv iota.
    unfold bind at 1. rewrite lift_run, (getitem_some gd _ _ Hcs).
    unfold bind at 1. rewrite (draw_segments_partial good bad rest x _ _ _ Hbad).
    unfold bind, ret. rewrite emit_run, emitted_emitted. reflexivity.
Qed.

(** * Unreadable data and [display_route_map] *)

Lemma mapR_raises {A B} (f : A -> result B) (l : list A) (p : A) (x : exn) :
  In p l -> f p = Raise x -> exists x', mapR f l = Raise x'.
Proof.
  induction l as [|a l IH]; intros Hin Hp; [contradiction|].
  cbn [mapR]. destruct Hin as [-> | Hin].
  - rewrite Hp. eexists; reflexivity.
  - destruct (f a); [|eexists; reflexivity]. cbn [rbind].
    destruct (IH Hin Hp) as [x' ->]. eexists; reflexivity.
Qed.

Section ExtractEdges.

Variable polyline_decode : pyval -> option (list (pyval * pyval)).

(** X9. The extractor gives up on data it cannot read, without trying the
    later shapes: a feature with a 'geometry' whose 'type' cannot be read
    (no such key, or a geometry that is no dict) makes the result None even
    when a valid 'path' or 'polyline' is there, and so does a path point
    without 'lat' or 'lon'. *)
Theorem extract_gives_up_on_unreadable_data :
  (forall d skipped f rest g x,
      dict_get d "features" = Some (PList (skipped ++ f :: rest)) ->
      forallb passed_over skipped = true ->
      contains_key "geometry" f = Ok true ->
      getitem f "geometry" = Ok g ->
      getitem g "type" = Raise x ->
      extract_route_coordinates polyline_decode (PDict d) = None) /\
  (forall d points p x,
      no_line_feature d ->
      dict_get d "path" = Some (PList points) ->
      In p points -> lat_lon p = Raise x ->
      extract_route_coordinates polyline_decode (PDict d) = None).
Proof.
  split.
  - intros d skipped f rest g x Hf Hs Hhas Hg Hty.
    unfold extract_route_coordinates, extract_body, feature_geometry.
    rewrite (contains_key_some d _ _ Hf). cbn [rbind].
    rewrite (getitem_some d _ _ Hf). cbn [rbind py_iter].
    rewrite (first_line_geometry_passed skipped _ Hs).
    cbn [first_line_geometry]. rewrite Hhas. cbn [rbind]. rewrite Hg. cbn [rbind].
    rewrite Hty. reflexivity.
  - intros d points p x Hn Hp Hin Hbad.
    unfold extract_route_coordinates.
    rewrite (extract_after_features polyline_decode d Hn).
    unfold path_or_polyline.
    rewrite (contains_key_some d _ _ Hp). cbn [rbind].
    rewrite (getitem_some d _ _ Hp). cbn [rbind py_len py_iter].
    destruct points as [|q points]; [contradiction|].
    cbn [List.length Nat.ltb Nat.leb rbind].
    destruct (mapR_raises lat_lon (q :: points) p x Hin Hbad) as [x' ->].
    reflexivity.
Qed.

End ExtractEdges.

Lemma extends_refl (w : world) : extends w w.
Proof. exists 0%nat, []. now rewrite advanced_zero. Qed.

Lemma extends_trans (w1 w2 w3 : world) :
  extends w1 w2 -> extends w2 w3 -> extends w1 w3.
Proof.
  intros (n & evs & ->) (n' & evs' & ->). rewrite advanced_advanced.
  now eexists _, _.
Qed.

Lemma costs_extends {A} (m : M A) (r : nat) (s : Z) (w : world) :
  costs m r s -> extends w (snd (m w)).
Proof. intros H. destruct (H w) as (n & evs & E & _). now exists n, evs. Qed.

Lemma bind_extends {A B} (m : M A) (k : A -> M B) (r : nat) (s : Z)
    (w w1 : world) :
  extends w1 (snd (m w)) -> (forall a, costs (k a) r s) ->
  extends w1 (snd (bind m k w)).
Proof.
  intros Hm Hk. unfold bind. destruct (m w) as [[a|x] w2]; cbn [snd] in *.
  - eapply extends_trans; [exact Hm|]. exact (costs_extends _ _ _ _ (Hk a)).
  - exact Hm.
Qed.

Lemma try_extends {A} (m : M A) (h : exn -> M A) (w w1 : world) :
  extends w1 (snd (m w)) -> (forall x, costs (h x) 0 0) ->
  extends w1 (snd (try_except m h w)).
Proof.
  intros Hm Hh. unfold try_except. destruct (m w) as [[a|x] w2]; cbn [snd] in *.
  - exact Hm.
  - eapply extends_trans; [exact Hm|]. exact (costs_extends _ _ _ _ (Hh x)).
Qed.

Section RouteMap.

Variable lower : string -> string.
Variable py_str : pyval -> string.

(** X10. [display_route_map] never raises: every exception of its body is
    caught and shown as one error.  Route data in which 'waypoints' cannot
    be looked up (None, a number) give that error and nothing else; with
    fewer than two waypoints nothing is drawn and nothing asked, the
    function only warns that the data are insufficient. *)
Theorem display_route_map_edges :
  (forall rd w, fst (display_route_map lower py_str rd w) = Ok tt) /\
  (forall rd x w,
     contains_key "waypoints" rd = Raise x ->
     display_route_map lower py_str rd w =
     (Ok tt, emitted w [St ERROR "Erro ao exibir o mapa da rota"])) /\
  (forall rd l w,
     dict_get rd "waypoints" = Some (PList l) ->
     (List.length l < 2)%nat ->
     display_route_map lower py_str (PDict rd) w =
     (Ok tt,
      emitted w [St WARNING "Dados insuficientes para exibir a rota no mapa."])).
Proof.
  repeat apply conj.
  - intros rd w. unfold display_route_map, try_except.
    match goal with
    | |- fst (match ?m with _ => _ end) = _ => destruct m as [[[]|x] w']
    end.
    + reflexivity.
    + rewrite emit_run. reflexivity.
  - intros rd x w Hx. unfold display_route_map, try_except.
    unfold bind at 1. rewrite lift_run, Hx. rewrite emit_run. reflexivity.
  - intros rd l w Hw Hlen. unfold display_route_map, try_except.
    unfold bind at 1. rewrite lift_run, (contains_key_some rd _ _ Hw).
    unfold bind at 1. rewrite lift_run, (getitem_some rd _ _ Hw).
    unfold bind at 1. rewrite lift_run. cbn [py_len].
    apply Nat.leb_gt in Hlen. rewrite Hlen. rewrite emit_run. reflexivity.
Qed.

Lemma origin_located : located origin (PInt 0) (PInt 0).
Proof. exists [("lat", PInt 0); ("lon", PInt 0)]. repeat split. Qed.

(** X11. Route data without 'waypoints' are handed to
    [display_route_on_map] with start and end at (0, 0); with a key
    configured, the routing API is then asked for a route from (0, 0) to
    (0, 0) before the route data are looked at. *)
Theorem route_map_without_waypoints_asks_from_origin :
  forall rd v w,
    dict_get rd "waypoints" = None ->
    key_configured w ->
    vehicle_type_of rd = PStr v ->
    exists k n rest,
      api_key w = Some k /\
      snd (display_route_map lower py_str (PDict rd) w) =
      advanced w n
        ([AddMarker (PInt 0) (PInt 0); AddMarker (PInt 0) (PInt 0);
          info_request;
          HttpGet routing_url
            [("waypoints",
              ((py_str (PInt 0) ++ "," ++ py_str (PInt 0)) ++ "|" ++
               (py_str (PInt 0) ++ "," ++ py_str (PInt 0)))%string);
             ("mode", travel_mode lower v);
             ("details", "instruction_details,route_details");
             ("apiKey", k)]] ++ rest).
Proof.
  intros rd v w Hw (k & Hk & Hne) Hv.
  set (w0 := emitted w [AddMarker (PInt 0) (PInt 0); AddMarker (PInt 0) (PInt 0)]).
  destruct (fetch_run lower py_str w0 origin origin [] v k Hk Hne eq_refl eq_refl)
    as (new & Hrun & _ & _ & _ & _ & (rest1 & ->) & _).
  set (w1 := advanced w0 _ _) in Hrun.
  assert (Hext : extends w1 (snd (display_route_map lower py_str (PDict rd) w))).
  { unfold display_route_map. apply try_extends; [|intros; quiet].
    unfold bind at 1. rewrite lift_run, (contains_key_none rd _ Hw).
    eapply bind_extends; [|intros; apply costs_ret].
    unfold display_route_on_map.
    rewrite (bind_run _ _ _ _ _
               (base_map_run origin origin _ _ _ _ w origin_located origin_located
                  eq_refl eq_refl)).
    fold w0. cbn [for_each]. unfold bind at 1. unfold ret at 1.
    eapply bind_extends.
    2:{ intros f1. apply quiet_bind; [apply quiet_embedded_line|]. intros f2.
        apply quiet_bind; [apply quiet_fallback_line|]. intros f3. apply costs_ret. }
    unfold api_line. apply try_extends; [|intros; quiet].
    rewrite (bind_run _ _ w0 w0 (vehicle_type_of rd))
      by (rewrite lift_run, py_get_vehicle_type; reflexivity).
    rewrite Hv. eapply bind_extends.
    - change (PDict [("lat", PInt 0); ("lon", PInt 0)]) with origin. rewrite Hrun. apply extends_refl.
    - intros r. quiet; apply quiet_draw_segments. }
  destruct Hext as (n & evs & ->).
  subst w1 w0. rewrite advanced_advanced, emitted_advanced.
  exists k. eexists _, (rest1 ++ evs). split; [exact Hk|].
  reflexivity.
Qed.

End RouteMap.

(** * The methods of the multi-route renderer *)

Lemma for_flag_app {A} (a b : list A) (body : A -> bool -> M bool)
    (flag : bool) (w : world) :
  for_flag (a ++ b) body flag w =
  bind (for_flag a body flag) (for_flag b body) w.
Proof.
  revert flag w. induction a as [|x a IH]; intros flag w; cbn [app for_flag].
  - reflexivity.
  - unfold bind.
    destruct (body x flag w) as [[f|ex] w']; [|reflexivity].
    rewrite IH. reflexivity.
Qed.

Lemma no_line_In (fs : list pyval) (f : pyval) :
  forallb no_line fs = true -> In f fs -> has_line_geometry f = Ok false.
Proof.
  intros H Hin. rewrite forallb_forall in H. specialize (H f Hin).
  unfold no_line in H. destruct (has_line_geometry f) as [[|]|]; congruence.
Qed.

(** Method 1 on a LineString feature among features without a line. *)
(** The popup and the polyline of a LineString feature in method 1. *)
Lemma method1_line_tail (route_data feature vehicle : pyval)
    (line_coords : list (pyval * pyval)) (route_color : string)
    (style : line_style) (w : world) :
  (distance <- lift (py_get route_data "total_distance_km" (PInt 0)) ;;
   hasp <- lift (if py_eq0 distance
                 then contains_key "properties" feature
                 else Ok false) ;;
   (if hasp : bool
    then props <- lift (getitem feature "properties") ;;
         d <- lift (py_get props "distance" (PInt 0)) ;;
         lift (truediv_check d 1000)
    else ret tt) ;;
   duration <- lift (py_get route_data "total_duration_minutes" (PInt 0)) ;;
   hasp' <- lift (if py_eq0 duration
                  then contains_key "properties" feature
                  else Ok false) ;;
   (if hasp' : bool
    then props <- lift (getitem feature "properties") ;;
         d <- lift (py_get props "time" (PInt 0)) ;;
         lift (truediv_check d 60)
    else ret tt) ;;
   lift (popup_vehicle vehicle true) ;;
   (if hasp : bool then ret tt else lift (format_f_check distance)) ;;
   emit (AddPolyLine line_coords route_color style) ;;
   ret true) w =
  match method1_popup route_data feature vehicle with
  | Ok _ => (Ok true, emitted w [AddPolyLine line_coords route_color style])
  | Raise x => (Raise x, w)
  end.
Proof.
  unfold method1_popup, bind, lift, ret, rbind.
  destruct (py_get route_data "total_distance_km" (PInt 0)) as [distance|];
    [|reflexivity].
  destruct (if py_eq0 distance then contains_key "properties" feature else Ok false)
    as [hasp|]; [|reflexivity].
  destruct hasp.
  - destruct (getitem feature "properties") as [props|]; [|reflexivity].
    destruct (py_get props "distance" (PInt 0)) as [d|]; [|reflexivity].
    destruct (truediv_check d 1000) as [[]|]; [|reflexivity].
    destruct (py_get route_data "total_duration_minutes" (PInt 0)) as [duration|];
      [|reflexivity].
    destruct (if py_eq0 duration then contains_key "properties" feature else Ok false)
      as [[|]|]; [| |reflexivity].
    + destruct (py_get props "time" (PInt 0)) as [d'|]; [|reflexivity].
      destruct (truediv_check d' 60) as [[]|]; [|reflexivity].
      destruct (popup_vehicle vehicle true) as [[]|]; [|reflexivity].
      rewrite emit_run. reflexivity.
    + destruct (popup_vehicle vehicle true) as [[]|]; [|reflexivity].
      rewrite emit_run. reflexivity.
  - destruct (py_get route_data "total_duration_minutes" (PInt 0)) as [duration|];
      [|reflexivity].
    destruct (if py_eq0 duration then contains_key "properties" feature else Ok false)
      as [[|]|]; [| |reflexivity].
    + destruct (getitem feature "properties") as [props|]; [|reflexivity].
      destruct (py_get props "time" (PInt 0)) as [d'|]; [|reflexivity].
      destruct (truediv_check d' 60) as [[]|]; [|reflexivity].
      destruct (popup_vehicle vehicle true) as [[]|]; [|reflexivity].
      destruct (format_f_check distance) as [[]|]; [|reflexivity].
      rewrite emit_run. reflexivity.
    + destruct (popup_vehicle vehicle true) as [[]|]; [|reflexivity].
      destruct (format_f_check distance) as [[]|]; [|reflexivity].
      rewrite emit_run. reflexivity.
Qed.

(** Method 1 on route data whose only line feature is a LineString. *)
Lemma method1_linestring (rd fd gd : list (string * pyval))
    (before after : list pyval) (l : list (pyval * pyval)) (vehicle : pyval)
    (color : string) (style : line_style) (w : world) :
  dict_get rd "features" = Some (PList (before ++ PDict fd :: after)) ->
  forallb no_line before = true ->
  forallb no_line after = true ->
  dict_get fd "geometry" = Some (PDict gd) ->
  dict_get gd "type" = Some (PStr "LineString") ->
  dict_get gd "coordinates" = Some (positions l) ->
  method1 (PDict rd) vehicle color style w =
  match method1_popup (PDict rd) (PDict fd) vehicle with
  | Ok _ => (Ok true, emitted w [AddPolyLine (map swap l) color style])
  | Raise _ =>
      (Ok false, emitted w [St WARNING "Erro ao processar geometria para rota"])
  end.
Proof.
  intros Hf Hb Ha Hg Hty Hcs. unfold method1.
  unfold bind at 1. rewrite lift_run, (contains_key_some rd _ _ Hf).
  unfold bind at 1. rewrite lift_run, (getitem_some rd _ _ Hf).
  unfold bind at 1. rewrite lift_run. cbn [py_iter].
  rewrite for_flag_app.
  rewrite (bind_run _ _ w w false).
  2:{ apply for_flag_unchanged. intros f Hin.
      unfold bind at 1. rewrite lift_run, (no_line_In _ _ Hb Hin). reflexivity. }
  cbn [for_flag].
  assert (Hline : has_line_geometry (PDict fd) = Ok true).
  { unfold has_line_geometry. rewrite (contains_key_some fd _ _ Hg). cbn [rbind].
    rewrite (getitem_some fd _ _ Hg). cbn [rbind]. rewrite py_get_dict.
    unfold dict_value. rewrite Hty. reflexivity. }
  unfold bind at 1. unfold bind at 1. rewrite lift_run, Hline.
  unfold try_except.
  unfold bind at 1. rewrite lift_run, (getitem_some fd _ _ Hg).
  unfold bind at 1. rewrite lift_run, (getitem_some gd _ _ Hty).
  change (is_str (PStr "LineString") "LineString") with true. cbv iota.
  unfold bind at 1. rewrite lift_run, (getitem_some gd _ _ Hcs).
  unfold bind at 1. rewrite lift_run, swap_coords_positions.
  rewrite method1_line_tail.
  destruct (method1_popup (PDict rd) (PDict fd) vehicle) as [u|x].
  - apply for_flag_unchanged. intros f Hin.
    unfold bind at 1. rewrite lift_run, (no_line_In _ _ Ha Hin). reflexivity.
  - unfold bind at 1. rewrite emit_run. unfold ret.
    apply for_flag_unchanged. intros f Hin.
    unfold bind at 1. rewrite lift_run, (no_line_In _ _ Ha Hin). reflexivity.
Qed.

Section Routes.

Variable lower : string -> string.
Variable py_str : pyval -> string.
Variable md5_int : string -> Z.

(** X12. Method 2 of the multi-route renderer draws the 'path' of the route
    data only when it has more than one point, and draws it as it is (no
    swap of the pairs); a path of one point is left to the later methods,
    although [extract_route_coordinates] accepts it.  A vehicle without
    'license_plate' makes the method give up with a warning, and a line
    already added makes it do nothing. *)
Theorem path_needs_two_points :
  forall rd vehicle color style w,
    (forall p, dict_get rd "path" = Some (PList [p]) ->
       method2 (PDict rd) vehicle color style false w = (Ok false, w)) /\
    (forall c decode,
       no_line_feature rd ->
       dict_get rd "path" = Some (path_points [c]) ->
       extract_route_coordinates decode (PDict rd) = Some [c]) /\
    (forall c1 c2 cs,
       dict_get rd "path" = Some (path_points (c1 :: c2 :: cs)) ->
       popup_vehicle vehicle false = Ok tt ->
       format_f_check (dict_value rd "total_distance_km" (PInt 0)) = Ok tt ->
       format_f_check (dict_value rd "total_duration_minutes" (PInt 0)) = Ok tt ->
       method2 (PDict rd) vehicle color style false w =
       (Ok true, emitted w [AddPolyLine (c1 :: c2 :: cs) color style])) /\
    (forall c1 c2 cs vd,
       dict_get rd "path" = Some (path_points (c1 :: c2 :: cs)) ->
       vehicle = PDict vd -> dict_get vd "license_plate" = None ->
       method2 (PDict rd) vehicle color style false w =
       (Ok false, emitted w [St WARNING "Erro ao processar path para rota"])) /\
    method2 (PDict rd) vehicle color style true w = (Ok true, w).
Proof.
  intros rd vehicle color style w. repeat apply conj.
  - intros p Hp. unfold method2. cbn [negb].
    unfold bind, lift, ret.
    rewrite (contains_key_some rd _ _ Hp), (getitem_some rd _ _ Hp). reflexivity.
  - intros c decode Hn Hp. unfold extract_route_coordinates.
    rewrite (extract_after_features decode rd Hn).
    unfold path_or_polyline.
    rewrite (contains_key_some rd _ _ Hp). cbn [rbind].
    rewrite (getitem_some rd _ _ Hp). unfold path_points.
    cbn [rbind py_len py_iter]. rewrite length_map.
    cbn [List.length Nat.ltb Nat.leb rbind].
    rewrite (mapR_lat_lon_points [c]). reflexivity.
  - intros c1 c2 cs Hp Hv Hd Ht. unfold method2, try_except. cbn [negb].
    unfold bind, lift, ret.
    rewrite (contains_key_some rd _ _ Hp), (getitem_some rd _ _ Hp).
    unfold path_points. cbn [py_len py_iter]. rewrite length_map.
    cbn [List.length Nat.ltb Nat.leb].
    rewrite (mapR_lat_lon_points (c1 :: c2 :: cs)). cbv beta iota.
    rewrite !py_get_dict. cbv beta iota.
    rewrite Hv. cbv beta iota. rewrite Hd. cbv beta iota. rewrite Ht. cbv beta iota.
    rewrite emit_run. reflexivity.
  - intros c1 c2 cs vd Hp -> Hl. unfold method2, try_except. cbn [negb].
    unfold bind, lift, ret.
    rewrite (contains_key_some rd _ _ Hp), (getitem_some rd _ _ Hp).
    unfold path_points. cbn [py_len py_iter]. rewrite length_map.
    cbn [List.length Nat.ltb Nat.leb].
    rewrite (mapR_lat_lon_points (c1 :: c2 :: cs)). cbv beta iota.
    rewrite !py_get_dict. cbv beta iota.
    assert (E : popup_vehicle (PDict vd) false = Raise KeyError).
    { unfold popup_vehicle. rewrite (getitem_none vd _ Hl).
      unfold getitem. destruct (dict_get vd "model"); reflexivity. }
    rewrite E. cbv beta iota. rewrite emit_run. reflexivity.
  - reflexivity.
Qed.

(** X13. In the multi-route renderer, route data that embed one LineString
    feature are drawn by method 1 in the route's colour and style when the
    popup of the line can be built (metrics that are numbers, a vehicle with
    model and license plate), and methods 2 to 4 then do nothing: neither the
    'path' is drawn nor the routing API asked, whatever key is configured.
    When building the popup raises, method 1 draws nothing and shows its
    warning, and the later methods run as for a route without geometry. *)
Theorem embedded_line_takes_precedence_in_multi_route :
  forall s e i route_info color style vehicle rd fd gd before after l stops w w0,
    route_header py_str md5_int i route_info w =
      (Ok (color, style, vehicle, PDict rd, stops), w0) ->
    dict_get rd "features" = Some (PList (before ++ PDict fd :: after)) ->
    forallb no_line before = true ->
    forallb no_line after = true ->
    dict_get fd "geometry" = Some (PDict gd) ->
    dict_get gd "type" = Some (PStr "LineString") ->
    dict_get gd "coordinates" = Some (positions l) ->
    (method1_popup (PDict rd) (PDict fd) vehicle = Ok tt ->
     display_one_route lower py_str md5_int s e i route_info w =
     (Ok true, emitted w0 [AddPolyLine (map swap l) color style])) /\
    (forall x,
        method1_popup (PDict rd) (PDict fd) vehicle = Raise x ->
        method1 (PDict rd) vehicle color style w0 =
        (Ok false,
         emitted w0 [St WARNING "Erro ao processar geometria para rota"]) /\
        display_one_route lower py_str md5_int s e i route_info w =
        (line_added <- method2 (PDict rd) vehicle color style false ;;
         line_added <- method3 lower py_str s e (PDict rd) vehicle stops color
                         style line_added ;;
         line_added <- method4 s e stops color style line_added ;;
         ret line_added)
          (emitted w0 [St WARNING "Erro ao processar geometria para rota"])).
Proof.
  intros s e i route_info color style vehicle rd fd gd before after l stops w w0
         Hh Hf Hb Ha Hg Hty Hcs.
  pose proof (method1_linestring rd fd gd before after l vehicle color style w0
                Hf Hb Ha Hg Hty Hcs) as H1.
  split.
  - intros Hp. rewrite Hp in H1. unfold display_one_route.
    rewrite (bind_run _ _ _ _ _ Hh). cbv beta iota.
    rewrite (bind_run _ _ _ _ _ H1). reflexivity.
  - intros x Hp. rewrite Hp in H1. split; [exact H1|].
    unfold display_one_route.
    rewrite (bind_run _ _ _ _ _ Hh). cbv beta iota.
    rewrite (bind_run _ _ _ _ _ H1). reflexivity.
Qed.

(** X14. A vehicle model that has a truth value and is no string (a number
    read from a spreadsheet, say) makes [get_vehicle_type] raise
    AttributeError; method 3 of the multi-route renderer then gives up with
    a warning before any request is sent. *)
Theorem model_that_is_no_string_skips_the_request :
  forall s e rd vd model passengers color style w,
    dict_get vd "model" = Some model ->
    truthy model = true -> is_string model = false ->
    get_vehicle_type lower model = Raise AttributeError /\
    method3 lower py_str s e rd (PDict vd) passengers color style false w =
    (Ok false, emitted w [St WARNING "Erro ao obter rota da API para rota"]).
Proof.
  intros s e rd vd model passengers color style w Hm Ht Hs.
  assert (E : get_vehicle_type lower model = Raise AttributeError).
  { unfold get_vehicle_type. rewrite Ht. destruct model; try discriminate Hs; reflexivity. }
  split; [exact E|].
  unfold method3, try_except. cbn [negb].
  unfold bind, lift, ret.
  rewrite (contains_key_some vd _ _ Hm), (getitem_some vd _ _ Hm), E.
  cbv beta iota. rewrite emit_run. reflexivity.
Qed.

(** X15. Whatever the arguments and whatever the network answers, one call
    of [get_route_geometry], of [display_route_on_map] or of
    [display_route_map] sends at most three requests and sleeps at most six
    seconds, and changes the world only by sending requests and appending
    events. *)
Theorem single_route_effect_budget :
  (forall s e wps vt, costs (get_route_geometry lower py_str s e wps vt) 3 6) /\
  (forall rd s e wps color, costs (display_route_on_map lower py_str rd s e wps color) 3 6) /\
  (forall rd, costs (display_route_map lower py_str rd) 3 6).
Proof.
  repeat apply conj.
  - intros. apply costs_fetch.
  - intros. apply costs_display_route_on_map.
  - intros. apply costs_display_route_map.
Qed.

(** X16. [display_multiple_routes_on_map] sends at most three requests and
    sleeps at most six seconds per route, whatever the routes hold and
    whatever the network answers. *)
Theorem multi_route_effect_budget :
  forall routes s e,
    costs (display_multiple_routes_on_map lower py_str md5_int routes s e)
          (3 * List.length routes) (6 * Z.of_nat (List.length routes)).
Proof.
  intros routes s e. unfold display_multiple_routes_on_map.
  apply (costs_weaken _ (0 + 3 * List.length routes) _
                        (0 + 6 * Z.of_nat (List.length routes)) _); [|lia|lia].
  apply costs_bind; [apply quiet_base_map| |lia].
  intros _. apply costs_display_routes_from.
Qed.

End Routes.

Lemma for_each_ok_inv {A} (l : list A) (body : A -> M unit)
    (f : A -> result (pyval * pyval)) (w w' : world) :
  (forall x w1 w2, body x w1 = (Ok tt, w2) -> exists p, f x = Ok p) ->
  for_each l body w = (Ok tt, w') ->
  exists pts, mapR f l = Ok pts.
Proof.
  intros Hbody. revert w. induction l as [|x l IH]; intros w H; cbn [for_each mapR] in *.
  - now exists [].
  - apply bind_ok_inv in H as ([] & w1 & H1 & H2).
    destruct (Hbody x w w1 H1) as [p ->].
    destruct (IH w1 H2) as [pts ->]. eexists; reflexivity.
Qed.

Section RouteList.

Variable lower : string -> string.
Variable py_str : pyval -> string.
Variable md5_int : string -> Z.

(** The passengers a route's header has placed all have coordinates. *)
Lemma route_header_ok_inv (i : Z) (route_info : pyval) (color : string)
    (style : line_style) (vehicle rd : pyval) (stops : list pyval) (w w' : world) :
  route_header py_str md5_int i route_info w =
    (Ok (color, style, vehicle, rd, stops), w') ->
  exists pts, mapR lat_lon stops = Ok pts.
Proof.
  unfold route_header. intros H.
  apply bind_ok_inv in H as (route_id & w1 & _ & H).
  apply bind_ok_inv in H as (v & w2 & _ & H).
  apply bind_ok_inv in H as (rd' & w3 & _ & H).
  apply bind_ok_inv in H as (ps & w4 & _ & H).
  apply bind_ok_inv in H as (et & w5 & _ & H).
  apply bind_ok_inv in H as (model & w6 & _ & H).
  apply bind_ok_inv in H as (seats & w7 & _ & H).
  apply bind_ok_inv in H as ([] & w8 & _ & H).
  apply bind_ok_inv in H as (n & w9 & _ & H).
  apply bind_ok_inv in H as (stops' & w10 & _ & H).
  apply bind_ok_inv in H as ([] & w11 & Hloop & H).
  unfold ret in H. injection H as _ _ _ _ <- _.
  apply (for_each_ok_inv _ _ lat_lon _ _) in Hloop; [exact Hloop|].
  intros x wa wb Hx. unfold lat_lon.
  apply bind_ok_inv in Hx as (a1 & wa1 & _ & Hx).
  apply bind_ok_inv in Hx as (a2 & wa2 & _ & Hx).
  apply bind_ok_inv in Hx as (a3 & wa3 & _ & Hx).
  apply bind_ok_inv in Hx as (a4 & wa4 & _ & Hx).
  apply bind_ok_inv in Hx as (a5 & wa5 & _ & Hx).
  apply bind_ok_inv in Hx as (la & wa6 & Hla & Hx).
  apply bind_ok_inv in Hx as (lo & wa7 & Hlo & Hx).
  unfold lift in Hla, Hlo. injection Hla as Hla _. injection Hlo as Hlo _.
  rewrite Hla, Hlo. eexists; reflexivity.
Qed.

(** X17. Where method 4 of the multi-route renderer runs, its straight line
    cannot fail: once the base map has placed start and end and the header
    of the route has placed its passengers, the line through start, every
    passenger and end is drawn, dashed, and the warning shown; the error of
    the method's except branch is never reported. *)
Theorem straight_line_of_a_route_cannot_fail :
  forall s e i route_info color style vehicle rd stops w0 w1 w2 w3,
    base_map s e w0 = (Ok tt, w1) ->
    route_header py_str md5_int i route_info w2 =
      (Ok (color, style, vehicle, rd, stops), w3) ->
    exists pts,
      straight_points s e stops = Ok pts /\
      List.length pts = (2 + List.length stops)%nat /\
      forall w,
        method4 s e stops color style false w =
        (Ok false,
         emitted w [AddPolyLine pts color (mkStyle (weight style) 0.5 (Some "5, 5"));
                    St WARNING multi_route_warning]).
Proof.
  intros s e i route_info color style vehicle rd stops w0 w1 w2 w3 Hbase Hhdr.
  destruct (base_map_ok_inv s e w0 w1 Hbase) as [[ps Hs] [pe He]].
  destruct (route_header_ok_inv _ _ _ _ _ _ _ _ _ Hhdr) as [mid Hmid].
  assert (Hpts : straight_points s e stops = Ok ([ps] ++ mid ++ [pe]))
    by (unfold straight_points; now rewrite Hs, Hmid, He).
  exists ([ps] ++ mid ++ [pe]). split; [exact Hpts|]. split.
  - rewrite !length_app, (mapR_length _ _ _ Hmid). cbn [List.length]. lia.
  - intros w. apply method4_run. exact Hpts.
Qed.

Lemma display_routes_from_app (s e : pyval) (a b : list pyval) (i : Z) (w : world) :
  display_routes_from lower py_str md5_int s e i (a ++ b) w =
  bind (display_routes_from lower py_str md5_int s e i a)
       (fun f1 =>
          bind (display_routes_from lower py_str md5_int s e
                  (i + Z.of_nat (List.length a)) b)
               (fun f2 => ret (f1 ++ f2))) w.
Proof.
  revert i w. induction a as [|r a IH]; intros i w.
  - cbn [app display_routes_from List.length Z.of_nat]. rewrite Z.add_0_r.
    unfold bind, ret.
    destruct (display_routes_from lower py_str md5_int s e i b w) as [[f|x] w'];
      reflexivity.
  - cbn [app display_routes_from]. unfold bind, ret.
    destruct (display_one_route lower py_str md5_int s e i r w) as [[f|x] w1];
      [|reflexivity].
    specialize (IH (i + 1) w1). unfold bind, ret in IH. rewrite IH.
    replace (i + 1 + Z.of_nat (List.length a))
      with (i + Z.of_nat (List.length (r :: a))) by (cbn [List.length]; lia).
    destruct (display_routes_from lower py_str md5_int s e (i + 1) a w1) as [[f1|x1] w2];
      [|reflexivity].
    destruct (display_routes_from lower py_str md5_int s e
                (i + Z.of_nat (List.length (r :: a))) b w2) as [[f2|x2] w3];
      reflexivity.
Qed.

Lemma route_header_missing_key (i : Z) (ri : list (string * pyval)) (w : world) :
  dict_get ri "vehicle" = None \/ dict_get ri "route_data" = None \/
  dict_get ri "passengers" = None ->
  route_header py_str md5_int i (PDict ri) w = (Raise KeyError, w).
Proof.
  intros H. unfold route_header, bind, lift.
  rewrite py_get_dict. cbv beta iota. unfold getitem at 1.
  destruct (dict_get ri "vehicle") as [v|]; [|reflexivity]. cbv beta iota.
  unfold getitem at 1.
  destruct (dict_get ri "route_data") as [rd|]; [|reflexivity]. cbv beta iota.
  unfold getitem at 1.
  destruct (dict_get ri "passengers") as [ps|]; [|reflexivity].
  destruct H as [H | [H | H]]; discriminate H.
Qed.

(** X18. A route without 'vehicle', 'route_data' or 'passengers' makes
    [display_multiple_routes_on_map] raise KeyError, uncaught, where the
    routes before it have been drawn: nothing of that route and no route
    after it is drawn, no request is made for them and no error is shown. *)
Theorem broken_route_stops_the_rendering :
  forall s e done ri rest flags w w1,
    display_multiple_routes_on_map lower py_str md5_int done s e w = (Ok flags, w1) ->
    dict_get ri "vehicle" = None \/ dict_get ri "route_data" = None \/
    dict_get ri "passengers" = None ->
    display_multiple_routes_on_map lower py_str md5_int (done ++ PDict ri :: rest) s e w =
    (Raise KeyError, w1).
Proof.
  intros s e done ri rest flags w w1 Hdone Hbad.
  unfold display_multiple_routes_on_map in *.
  apply bind_ok_inv in Hdone as ([] & w0 & Hbase & Hdone).
  rewrite (bind_run _ _ _ _ _ Hbase).
  rewrite display_routes_from_app.
  rewrite (bind_run _ _ _ _ _ Hdone).
  apply bind_raise. cbn [display_routes_from].
  apply bind_raise. unfold display_one_route.
  apply bind_raise. apply route_header_missing_key. exact Hbad.
Qed.

End RouteList.

(** * The further theorems at concrete inputs *)

Lemma garage_located : located garage (PInt (-23)) (PInt (-46)).
Proof. eexists. repeat split. Defined.

Lemma plant_located : located plant (PInt (-22)) (PInt (-47)).
Proof. eexists. repeat split. Defined.

Lemma stop_ana_located : all_located [stop_ana] [(PInt (-24), PInt (-45))].
Proof.
  constructor; [|constructor]. eexists. repeat split.
Defined.

Lemma key_of_world_with_key (net : nat -> http_outcome) :
  key_configured (world_with_key net).
Proof. exists "k3y". split; [reflexivity | discriminate]. Defined.

Lemma travel_mode_of_request_witness :
  lowers_latin1 lower_latin1 /\
  any_case "truck" "TRUCK" = true /\
  travel_mode lower_latin1 "TRUCK" = "truck" /\
  exists rest,
    trace (snd (get_route_geometry lower_latin1 sample_str garage plant
                  [stop_ana; stop_rui] (PStr "TRUCK") (world_with_key offline))) =
    trace (world_with_key offline) ++ info_request ::
      HttpGet routing_url
        [("waypoints", "-23,-46|-24,-45|-22,-47"); ("mode", "truck");
         ("details", "instruction_details,route_details");
         ("apiKey", "k3y")] :: rest.
Proof.
  pose proof (travel_mode_of_request lower_latin1 sample_str lower_latin1_lowers)
    as (Htruck & _ & _ & _ & Hreq).
  split; [exact lower_latin1_lowers|]. split; [reflexivity|].
  split; [exact (Htruck "TRUCK" eq_refl)|].
  exact (Hreq (world_with_key offline) garage plant [stop_ana; stop_rui] "TRUCK"
           "k3y" eq_refl ltac:(discriminate) eq_refl eq_refl).
Defined.

Lemma fetch_rejects_bad_endpoints_witness :
  key_configured (world_with_key offline) /\
  has_lat_lon (PDict stop_unplaced) = false /\
  exists msg,
    get_route_geometry lower_latin1 sample_str (PDict stop_unplaced) plant [] (PStr "car")
      (world_with_key offline) =
    (Ok None, emitted (world_with_key offline) [Log ERROR msg]) /\
    (msg = "Pontos de início ou fim inválidos" \/
     msg = "Pontos de início ou fim sem coordenadas lat/lon") /\
    (is_dict (PDict stop_unplaced) = true -> is_dict plant = true ->
     msg = "Pontos de início ou fim sem coordenadas lat/lon").
Proof.
  split; [apply key_of_world_with_key|]. split; [reflexivity|].
  exact (fetch_rejects_bad_endpoints lower_latin1 sample_str (world_with_key offline)
           (PDict stop_unplaced) plant [] "car"
           (key_of_world_with_key offline) (or_introl eq_refl)).
Defined.

Lemma fetch_raises_only_on_vehicle_type_witness :
  is_string (PInt 7) = false /\
  key_configured (world_with_key offline) /\
  get_route_geometry lower_latin1 sample_str garage plant [] (PInt 7) (world_with_key offline) =
  (Raise AttributeError, world_with_key offline).
Proof.
  split; [reflexivity|]. split; [apply key_of_world_with_key|].
  exact (proj1 (proj2 (fetch_raises_only_on_vehicle_type lower_latin1 sample_str garage plant []
                         (PInt 7) (world_with_key offline)))
           eq_refl (key_of_world_with_key offline)).
Defined.

Lemma single_route_line_added_witness :
  exists flag w',
    display_route_on_map lower_latin1 sample_str (PDict []) garage plant [stop_ana]
      "blue" world_without_key = (Ok flag, w') /\
    flag = true /\
    polylines (trace w') =
    [([(PInt (-23), PInt (-46)); (PInt (-24), PInt (-45)); (PInt (-22), PInt (-47))],
      "blue", mkStyle 3 0.5 (Some "5, 5"))].
Proof.
  exists true,
    (snd (display_route_on_map lower_latin1 sample_str (PDict []) garage plant
            [stop_ana] "blue" world_without_key)).
  split; [vm_compute; reflexivity|]. split; [|vm_compute; reflexivity].
  apply (single_route_line_added lower_latin1 sample_str (PDict []) garage plant
           [stop_ana] "blue" world_without_key
           (snd (display_route_on_map lower_latin1 sample_str (PDict []) garage plant
                   [stop_ana] "blue" world_without_key))).
  vm_compute. reflexivity.
Defined.

Lemma api_geometry_takes_precedence_witness :
  get_route_geometry lower_latin1 sample_str garage plant [stop_ana] (vehicle_type_of mixed_route_data)
    (emitted (world_with_key (answering feature_collection))
       (AddMarker (PInt (-23)) (PInt (-46)) :: AddMarker (PInt (-22)) (PInt (-47))
        :: markers_at [(PInt (-24), PInt (-45))])) =
  (Ok (Some (PDict sample_answer)),
   snd (get_route_geometry lower_latin1 sample_str garage plant [stop_ana] (PStr "car")
          (emitted (world_with_key (answering feature_collection))
             [AddMarker (PInt (-23)) (PInt (-46)); AddMarker (PInt (-22)) (PInt (-47));
              AddMarker (PInt (-24)) (PInt (-45))]))) /\
  display_route_on_map lower_latin1 sample_str (PDict mixed_route_data) garage plant [stop_ana]
    "blue" (world_with_key (answering feature_collection)) =
  (Ok true,
   emitted
     (snd (get_route_geometry lower_latin1 sample_str garage plant [stop_ana] (PStr "car")
             (emitted (world_with_key (answering feature_collection))
                [AddMarker (PInt (-23)) (PInt (-46)); AddMarker (PInt (-22)) (PInt (-47));
                 AddMarker (PInt (-24)) (PInt (-45))])))
     [AddPolyLine [(PInt 1, PInt 2); (PInt 3, PInt 4)] "blue" (mkStyle 5 0.8 None);
      St SUCCESS success_message]).
Proof.
  split; [vm_compute; reflexivity|].
  apply (api_geometry_takes_precedence lower_latin1 sample_str mixed_route_data sample_answer
           sample_feature sample_geometry sample_properties garage plant [stop_ana] []
           [(PInt (-24), PInt (-45))] sample_line "blue"
           (world_with_key (answering feature_collection)) _
           (PInt (-23)) (PInt (-46)) (PInt (-22)) (PInt (-47))
           garage_located plant_located stop_ana_located);
    vm_compute; reflexivity.
Defined.

Lemma waypoint_without_coordinates_raises_witness :
  dict_get stop_unplaced "lat" = None /\
  display_route_on_map lower_latin1 sample_str (PDict []) garage plant
    ([stop_ana] ++ PDict stop_unplaced :: [stop_rui]) "blue" world_without_key =
  (Raise KeyError,
   emitted world_without_key
     [AddMarker (PInt (-23)) (PInt (-46)); AddMarker (PInt (-22)) (PInt (-47));
      AddMarker (PInt (-24)) (PInt (-45))]).
Proof.
  split; [reflexivity|].
  apply (waypoint_without_coordinates_raises lower_latin1 sample_str (PDict []) garage plant
           [stop_ana] [stop_rui] [(PInt (-24), PInt (-45))] stop_unplaced "blue"
           world_without_key (PInt (-23)) (PInt (-46)) (PInt (-22)) (PInt (-47))
           garage_located plant_located stop_ana_located);
    [vm_compute; reflexivity | vm_compute; reflexivity | left; reflexivity].
Defined.

Lemma multiline_is_drawn_segment_by_segment_witness :
  dict_get multiline_route_data "geometry" = Some (PDict multiline_geometry) /\
  dict_get multiline_geometry "type" = Some (PStr "MultiLineString") /\
  route_map_geometry (PDict multiline_route_data) world_without_key =
  (Ok true,
   emitted world_without_key
     [AddPolyLine [(PInt 1, PInt 2); (PInt 3, PInt 4)] "blue" (mkStyle 4 0.8 None);
      AddPolyLine [(PInt 5, PInt 6)] "blue" (mkStyle 4 0.8 None)]).
Proof.
  split; [reflexivity|]. split; [reflexivity|].
  exact (proj1 (multiline_is_drawn_segment_by_segment multiline_route_data
                  multiline_geometry world_without_key eq_refl eq_refl)
           [sample_line; [(PInt 6, PInt 5)]] eq_refl).
Defined.

Lemma extract_gives_up_on_unreadable_data_witness :
  getitem (PDict []) "type" = Raise KeyError /\
  dict_get typeless_route_data "path" = Some (path_points [(PInt 1, PInt 2)]) /\
  extract_route_coordinates sample_decode (PDict typeless_route_data) = None.
Proof.
  split; [reflexivity|]. split; [reflexivity|].
  exact (proj1 (extract_gives_up_on_unreadable_data sample_decode)
           typeless_route_data [] (PDict [("geometry", PDict [])]) [] (PDict [])
           KeyError eq_refl eq_refl eq_refl eq_refl eq_refl).
Defined.

Lemma display_route_map_edges_witness :
  (List.length [stop_ana] < 2)%nat /\
  display_route_map lower_latin1 sample_str (PDict [("waypoints", PList [stop_ana])])
    (world_with_key offline) =
  (Ok tt,
   emitted (world_with_key offline)
     [St WARNING "Dados insuficientes para exibir a rota no mapa."]).
Proof.
  split; [cbn; lia|].
  apply (proj2 (proj2 (display_route_map_edges lower_latin1 sample_str))
           [("waypoints", PList [stop_ana])] [stop_ana] (world_with_key offline));
    [reflexivity | cbn; lia].
Defined.

Lemma route_map_without_waypoints_asks_from_origin_witness :
  dict_get mixed_route_data "waypoints" = None /\
  key_configured (world_with_key offline) /\
  exists k n rest,
    api_key (world_with_key offline) = Some k /\
    snd (display_route_map lower_latin1 sample_str (PDict mixed_route_data) (world_with_key offline)) =
    advanced (world_with_key offline) n
      ([AddMarker (PInt 0) (PInt 0); AddMarker (PInt 0) (PInt 0);
        info_request;
        HttpGet routing_url
          [("waypoints", "0,0|0,0"); ("mode", "drive");
           ("details", "instruction_details,route_details");
           ("apiKey", k)]] ++ rest).
Proof.
  split; [reflexivity|]. split; [apply key_of_world_with_key|].
  exact (route_map_without_waypoints_asks_from_origin lower_latin1 sample_str mixed_route_data
           "car" (world_with_key offline) eq_refl (key_of_world_with_key offline)
           eq_refl).
Defined.

Lemma path_needs_two_points_witness :
  dict_get path_route_data "path" =
    Some (path_points [(PInt 1, PInt 2); (PInt 3, PInt 4)]) /\
  method2 (PDict path_route_data) van "#6633CC" (get_line_style 1) false
    world_without_key =
  (Ok true,
   emitted world_without_key
     [AddPolyLine [(PInt 1, PInt 2); (PInt 3, PInt 4)] "#6633CC" (get_line_style 1)]).
Proof.
  split; [reflexivity|].
  apply (proj1 (proj2 (proj2 (path_needs_two_points path_route_data van "#6633CC"
                                (get_line_style 1) world_without_key))));
    vm_compute; reflexivity.
Defined.

Lemma embedded_line_takes_precedence_in_multi_route_witness :
  api_key (world_with_key (answering feature_collection)) = Some "k3y" /\
  method1_popup (PDict line_route_data) (PDict sample_feature) van = Ok tt /\
  display_one_route lower_latin1 sample_str sample_md5 garage plant 0 route_with_line
    (world_with_key (answering feature_collection)) =
  (Ok true,
   emitted
     (emitted (world_with_key (answering feature_collection))
        [AddMarker (PInt (-24)) (PInt (-45))])
     [AddPolyLine [(PInt 1, PInt 2); (PInt 3, PInt 4)] "#6633CC" (get_line_style 0)]).
Proof.
  split; [reflexivity|]. split; [vm_compute; reflexivity|].
  apply (proj1 (embedded_line_takes_precedence_in_multi_route lower_latin1 sample_str
                  sample_md5 garage plant 0 route_with_line "#6633CC"
                  (get_line_style 0) van line_route_data sample_feature
                  sample_geometry [PDict [("type", PStr "Feature")]] [] sample_line
                  [stop_ana] (world_with_key (answering feature_collection))
                  (emitted (world_with_key (answering feature_collection))
                     [AddMarker (PInt (-24)) (PInt (-45))])
                  ltac:(vm_compute; reflexivity) eq_refl eq_refl eq_refl eq_refl
                  eq_refl eq_refl));
    vm_compute; reflexivity.
Defined.

Lemma model_that_is_no_string_skips_the_request_witness :
  dict_get numbered_vehicle "model" = Some (PInt 208) /\
  truthy (PInt 208) = true /\
  get_vehicle_type lower_latin1 (PInt 208) = Raise AttributeError /\
  method3 lower_latin1 sample_str garage plant (PDict []) (PDict numbered_vehicle) [stop_ana]
    "#6633CC" (get_line_style 0) false (world_with_key (answering feature_collection)) =
  (Ok false,
   emitted (world_with_key (answering feature_collection))
     [St WARNING "Erro ao obter rota da API para rota"]).
Proof.
  split; [reflexivity|]. split; [reflexivity|].
  exact (model_that_is_no_string_skips_the_request lower_latin1 sample_str garage plant (PDict [])
           numbered_vehicle (PInt 208) [stop_ana] "#6633CC" (get_line_style 0)
           (world_with_key (answering feature_collection)) eq_refl eq_refl eq_refl).
Defined.

Lemma straight_line_of_a_route_cannot_fail_witness :
  exists pts,
    straight_points garage plant [stop_ana] = Ok pts /\
    List.length pts = (2 + List.length [stop_ana])%nat /\
    forall w,
      method4 garage plant [stop_ana] "#6633CC" (get_line_style 0) false w =
      (Ok false,
       emitted w [AddPolyLine pts "#6633CC"
                    (mkStyle (weight (get_line_style 0)) 0.5 (Some "5, 5"));
                  St WARNING multi_route_warning]).
Proof.
  apply (straight_line_of_a_route_cannot_fail sample_str sample_md5 garage plant 0
           route_van "#6633CC" (get_line_style 0) van (PDict []) [stop_ana]
           world_without_key (snd (base_map garage plant world_without_key))
           world_without_key
           (snd (route_header sample_str sample_md5 0 route_van world_without_key)));
    vm_compute; reflexivity.
Defined.

Lemma broken_route_stops_the_rendering_witness :
  dict_get route_without_vehicle "vehicle" = None /\
  display_multiple_routes_on_map lower_latin1 sample_str sample_md5
    ([route_van] ++ PDict route_without_vehicle :: [route_van]) garage plant
    world_without_key =
  (Raise KeyError,
   snd (display_multiple_routes_on_map lower_latin1 sample_str sample_md5 [route_van] garage plant
          world_without_key)).
Proof.
  split; [reflexivity|].
  apply (broken_route_stops_the_rendering lower_latin1 sample_str sample_md5 garage plant
           [route_van] route_without_vehicle [route_van] [false] world_without_key);
    [vm_compute; reflexivity | left; reflexivity].
Defined.
